(** * KFDtool Pro: the KMM session layer and the Three-Wire byte codec

    A shallow embedding of [src/kfd_protocol.cpp] (namespace [P25] and class
    [KFDProtocol]), of the byte codec of [twi_hal.cpp] and of the tables of
    [include/p25_defs.h], with the properties of the frame builder, the CRC,
    the session handshake and the response classification; and of what
    feeds the key load: the hex strings and DES parity of [src/crypto.cpp]
    and the key slots of [container.cpp].

    Conventions.
    - [uint8_t] is [Byte.byte]; [b2z] reads a byte as a number and [z2b] is
      the conversion to [uint8_t] (reduction modulo 256).
    - [uint16_t] and [int] values are [Z]; every conversion to [uint16_t]
      the source makes is written [mod 65536].
    - [std::vector<uint8_t>] is [list byte].
    - The methods of [KFDProtocol] run in a state monad over the fields of
      the object, the script of what the line will deliver, and the log of
      the calls made on the HAL. *)

From Stdlib Require Import ZArith List Bool Lia String Ascii.
From Stdlib.Strings Require Import Byte.
From Stdlib Require Import DecimalString.
Import ListNotations.
Local Open Scope Z_scope.

(** ** Bytes *)

Definition b2z (b : byte) : Z := Z.of_N (Byte.to_N b).

(** Conversion of an integer to [uint8_t]. *)
Definition z2b (z : Z) : byte :=
  match Byte.of_N (Z.to_N (z mod 256)) with
  | Some b => b
  | None => x00
  end.

Definition beq (a b : byte) : bool := Byte.eqb a b.

(** Indexing of a vector known to be long enough; the default is never
    reached where the source guards the access. *)
Definition at_ (v : list byte) (i : nat) : byte := nth i v x00.

(** ** Namespace P25 *)

Module P25.

(** CRC16 table from TIA 102.AACD-A Annex A. *)
Definition crc16Table : list Z :=
  [
    0x0000; 0x1189; 0x2312; 0x329B; 0x4624; 0x57AD; 0x6536; 0x74BF;
    0x8C48; 0x9DC1; 0xAF5A; 0xBED3; 0xCA6C; 0xDBE5; 0xE97E; 0xF8F7;
    0x1081; 0x0108; 0x3393; 0x221A; 0x56A5; 0x472C; 0x75B7; 0x643E;
    0x9CC9; 0x8D40; 0xBFDB; 0xAE52; 0xDAED; 0xCB64; 0xF9FF; 0xE876;
    0x2102; 0x308B; 0x0210; 0x1399; 0x6726; 0x76AF; 0x4434; 0x55BD;
    0xAD4A; 0xBCC3; 0x8E58; 0x9FD1; 0xEB6E; 0xFAE7; 0xC87C; 0xD9F5;
    0x3183; 0x200A; 0x1291; 0x0318; 0x77A7; 0x662E; 0x54B5; 0x453C;
    0xBDCB; 0xAC42; 0x9ED9; 0x8F50; 0xFBEF; 0xEA66; 0xD8FD; 0xC974;
    0x4204; 0x538D; 0x6116; 0x709F; 0x0420; 0x15A9; 0x2732; 0x36BB;
    0xCE4C; 0xDFC5; 0xED5E; 0xFCD7; 0x8868; 0x99E1; 0xAB7A; 0xBAF3;
    0x5285; 0x430C; 0x7197; 0x601E; 0x14A1; 0x0528; 0x37B3; 0x263A;
    0xDECD; 0xCF44; 0xFDDF; 0xEC56; 0x98E9; 0x8960; 0xBBFB; 0xAA72;
    0x6306; 0x728F; 0x4014; 0x519D; 0x2522; 0x34AB; 0x0630; 0x17B9;
    0xEF4E; 0xFEC7; 0xCC5C; 0xDDD5; 0xA96A; 0xB8E3; 0x8A78; 0x9BF1;
    0x7387; 0x620E; 0x5095; 0x411C; 0x35A3; 0x242A; 0x16B1; 0x0738;
    0xFFCF; 0xEE46; 0xDCDD; 0xCD54; 0xB9EB; 0xA862; 0x9AF9; 0x8B70;
    0x8408; 0x9581; 0xA71A; 0xB693; 0xC22C; 0xD3A5; 0xE13E; 0xF0B7;
    0x0840; 0x19C9; 0x2B52; 0x3ADB; 0x4E64; 0x5FED; 0x6D76; 0x7CFF;
    0x9489; 0x8500; 0xB79B; 0xA612; 0xD2AD; 0xC324; 0xF1BF; 0xE036;
    0x18C1; 0x0948; 0x3BD3; 0x2A5A; 0x5EE5; 0x4F6C; 0x7DF7; 0x6C7E;
    0xA50A; 0xB483; 0x8618; 0x9791; 0xE32E; 0xF2A7; 0xC03C; 0xD1B5;
    0x2942; 0x38CB; 0x0A50; 0x1BD9; 0x6F66; 0x7EEF; 0x4C74; 0x5DFD;
    0xB58B; 0xA402; 0x9699; 0x8710; 0xF3AF; 0xE226; 0xD0BD; 0xC134;
    0x39C3; 0x284A; 0x1AD1; 0x0B58; 0x7FE7; 0x6E6E; 0x5CF5; 0x4D7C;
    0xC60C; 0xD785; 0xE51E; 0xF497; 0x8028; 0x91A1; 0xA33A; 0xB2B3;
    0x4A44; 0x5BCD; 0x6956; 0x78DF; 0x0C60; 0x1DE9; 0x2F72; 0x3EFB;
    0xD68D; 0xC704; 0xF59F; 0xE416; 0x90A9; 0x8120; 0xB3BB; 0xA232;
    0x5AC5; 0x4B4C; 0x79D7; 0x685E; 0x1CE1; 0x0D68; 0x3FF3; 0x2E7A;
    0xE70E; 0xF687; 0xC41C; 0xD595; 0xA12A; 0xB0A3; 0x8238; 0x93B1;
    0x6B46; 0x7ACF; 0x4854; 0x59DD; 0x2D62; 0x3CEB; 0x0E70; 0x1FF9;
    0xF78F; 0xE606; 0xD49D; 0xC514; 0xB1AB; 0xA022; 0x92B9; 0x8330;
    0x7BC7; 0x6A4E; 0x58D5; 0x495C; 0x3DE3; 0x2C6A; 0x1EF1; 0x0F78
  ].

(** One round of the loop of [calculateCrc16]:
    [crc = (uint16_t)(crc16Table[data[i] ^ (crc & 0xFF)] ^ (crc >> 8))]. *)
Definition crc16_step (crc : Z) (d : byte) : Z :=
  (Z.lxor (nth (Z.to_nat (Z.lxor (b2z d) (Z.land crc 0xFF))) crc16Table 0)
          (Z.shiftr crc 8)) mod 65536.

(** [calculateCrc16]: the register starts at [0xFFFF], the bytes are folded
    in from index 0, and the register is returned as it is. *)
Definition calculateCrc16 (data : list byte) : Z :=
  fold_left crc16_step data 0xFFFF.

(** The nine ASCII bytes 123456789 of the self-test in [init]. *)
Definition check_123456789 : list byte :=
  [x31; x32; x33; x34; x35; x36; x37; x38; x39].

(** The table entry of index [i] as the bitwise algorithm generates it:
    eight shifts to the right, each xoring in [0x8408] when a one falls
    out. *)
Fixpoint crc_bitwise (n : nat) (c : Z) : Z :=
  match n with
  | O => c
  | S n' =>
      crc_bitwise n'
        (if Z.testbit c 0 then Z.lxor (Z.shiftr c 1) 0x8408 else Z.shiftr c 1)
  end.

(** Algorithm identifiers ([enum AlgorithmId]). *)
Definition ALGO_DES_OFB : byte := x81.
Definition ALGO_2_KEY_3DES : byte := x82.
Definition ALGO_3_KEY_3DES : byte := x83.
Definition ALGO_AES_256 : byte := x84.
Definition ALGO_AES_128 : byte := x85.
Definition ALGO_AES_CBC : byte := x86.
Definition ALGO_ARC4 : byte := x9f.
Definition ALGO_ADP : byte := xaa.
Definition ALGO_CLEAR : byte := x80.

(** [getKeyLength]: the [switch] of [p25_defs.h], its [default] last. *)
Definition getKeyLength (algo : byte) : Z :=
  if beq algo ALGO_DES_OFB then 8
  else if beq algo ALGO_2_KEY_3DES then 16
  else if beq algo ALGO_3_KEY_3DES then 24
  else if beq algo ALGO_AES_128 then 16
  else if beq algo ALGO_AES_256 then 32
  else if beq algo ALGO_AES_CBC then 32
  else if beq algo ALGO_ARC4 then 13
  else if beq algo ALGO_ADP then 5
  else 0.

(** Message identifiers ([enum MessageId]). *)
Definition MSG_INVENTORY_CMD : byte := x00.
Definition MSG_MODIFY_KEY_CMD : byte := x04.
Definition MSG_REKEY_ACK : byte := x07.
Definition MSG_NEGATIVE_ACK : byte := x08.
Definition MSG_ZEROIZE_CMD : byte := x0a.

Definition INV_LIST_ACTIVE_KSET_IDS : byte := x02.

(** Operation status codes ([enum OperationStatus], a [uint8_t]). *)
Definition STATUS_COMMAND_PERFORMED : byte := x00.
Definition STATUS_INVALID_MAC : byte := x06.
Definition STATUS_INVALID_MN : byte := x0a.
Definition STATUS_INVALID_KEY_LENGTH : byte := x0b.
Definition STATUS_INTERNAL_ERROR : byte := xff.

(** Three-Wire opcodes ([enum TwiOpcode]). *)
Definition TWI_READY_REQ : byte := xc0.
Definition TWI_READY_MODE_MR : byte := xd0.
Definition TWI_READY_MODE_KVL : byte := xd1.
Definition TWI_TRANSFER_DONE : byte := xc1.
Definition TWI_KMM : byte := xc2.
Definition TWI_DISCONNECT : byte := x92.
Definition TWI_DISCONNECT_ACK : byte := x90.

(** [struct KeyItem]; the three [uint16_t] fields are numbers. *)
Record KeyItem : Type := mkKeyItem {
  keysetId : Z;
  sln : Z;
  keyId : Z;
  algorithmId : byte;
  key : list byte;
  isKek : bool;
  erase : bool
}.

(** The default constructor [KeyItem()]. *)
Definition KeyItem_default : KeyItem :=
  mkKeyItem 1 0 0 ALGO_AES_256 [] false false.

Definition validateKey (k : list byte) (algo : byte) : bool :=
  let expected := getKeyLength algo in
  Z.eqb expected 0 || Z.eqb (Z.of_nat (List.length k)) expected.

(** [enum KeyType] and [getKeyType]; the argument is a [uint16_t]. *)
Inductive KeyType : Type := KEY_TYPE_TEK | KEY_TYPE_KEK.

Definition getKeyType (sln : Z) : KeyType :=
  if 0xF000 <=? sln then KEY_TYPE_KEK else KEY_TYPE_TEK.

(** The validation functions of [kfd_protocol.cpp]; their arguments are
    [int]s. *)
Definition validateKeysetId (id : Z) : bool := (1 <=? id) && (id <=? 255).

Definition validateSln (sln : Z) (isKek : bool) : bool :=
  if isKek then (0xF000 <=? sln) && (sln <=? 0xFFFF)
  else (0 <=? sln) && (sln <=? 0xEFFF).

Definition validateKeyId (id : Z) : bool := (0 <=? id) && (id <=? 0xFFFF).

Definition validateAlgorithmId (id : Z) : bool := (0 <=? id) && (id <=? 0xFF).

(** A [uint16_t] value. *)
Definition is_uint16 (z : Z) : Prop := 0 <= z < 65536.

(** The index of the first table entry whose high byte is [h] (256 when
    there is none): the look-up that undoes one round of the CRC. *)
Fixpoint index_of_high (h : Z) (table : list Z) : nat :=
  match table with
  | [] => O
  | e :: rest => if Z.eqb (Z.shiftr e 8) h then O else S (index_of_high h rest)
  end.

End P25.

(** ** Class TWI_HAL: the byte codec *)

Module TWI_HAL.

(** What [sendByte] does to the DATA wire, in order. *)
Inductive WireOp : Type :=
| kfdTxIdle                                (* release the line: HIGH, a one *)
| kfdTxBusy                                (* drive the line LOW, a zero *)
| delayMicroseconds_accurate (us : Z)
| delayMicroseconds (us : Z)
| portDISABLE_INTERRUPTS
| portENABLE_INTERRUPTS.

Record Hal : Type := mkHal {
  _initialized : bool;
  _useBusyStopBits : bool;
  _bitPeriodTx : Z
}.

Definition reverseBits_table : list Z :=
  [
    0x00; 0x80; 0x40; 0xC0; 0x20; 0xA0; 0x60; 0xE0; 0x10; 0x90; 0x50; 0xD0; 0x30; 0xB0; 0x70; 0xF0;
    0x08; 0x88; 0x48; 0xC8; 0x28; 0xA8; 0x68; 0xE8; 0x18; 0x98; 0x58; 0xD8; 0x38; 0xB8; 0x78; 0xF8;
    0x04; 0x84; 0x44; 0xC4; 0x24; 0xA4; 0x64; 0xE4; 0x14; 0x94; 0x54; 0xD4; 0x34; 0xB4; 0x74; 0xF4;
    0x0C; 0x8C; 0x4C; 0xCC; 0x2C; 0xAC; 0x6C; 0xEC; 0x1C; 0x9C; 0x5C; 0xDC; 0x3C; 0xBC; 0x7C; 0xFC;
    0x02; 0x82; 0x42; 0xC2; 0x22; 0xA2; 0x62; 0xE2; 0x12; 0x92; 0x52; 0xD2; 0x32; 0xB2; 0x72; 0xF2;
    0x0A; 0x8A; 0x4A; 0xCA; 0x2A; 0xAA; 0x6A; 0xEA; 0x1A; 0x9A; 0x5A; 0xDA; 0x3A; 0xBA; 0x7A; 0xFA;
    0x06; 0x86; 0x46; 0xC6; 0x26; 0xA6; 0x66; 0xE6; 0x16; 0x96; 0x56; 0xD6; 0x36; 0xB6; 0x76; 0xF6;
    0x0E; 0x8E; 0x4E; 0xCE; 0x2E; 0xAE; 0x6E; 0xEE; 0x1E; 0x9E; 0x5E; 0xDE; 0x3E; 0xBE; 0x7E; 0xFE;
    0x01; 0x81; 0x41; 0xC1; 0x21; 0xA1; 0x61; 0xE1; 0x11; 0x91; 0x51; 0xD1; 0x31; 0xB1; 0x71; 0xF1;
    0x09; 0x89; 0x49; 0xC9; 0x29; 0xA9; 0x69; 0xE9; 0x19; 0x99; 0x59; 0xD9; 0x39; 0xB9; 0x79; 0xF9;
    0x05; 0x85; 0x45; 0xC5; 0x25; 0xA5; 0x65; 0xE5; 0x15; 0x95; 0x55; 0xD5; 0x35; 0xB5; 0x75; 0xF5;
    0x0D; 0x8D; 0x4D; 0xCD; 0x2D; 0xAD; 0x6D; 0xED; 0x1D; 0x9D; 0x5D; 0xDD; 0x3D; 0xBD; 0x7D; 0xFD;
    0x03; 0x83; 0x43; 0xC3; 0x23; 0xA3; 0x63; 0xE3; 0x13; 0x93; 0x53; 0xD3; 0x33; 0xB3; 0x73; 0xF3;
    0x0B; 0x8B; 0x4B; 0xCB; 0x2B; 0xAB; 0x6B; 0xEB; 0x1B; 0x9B; 0x5B; 0xDB; 0x3B; 0xBB; 0x7B; 0xFB;
    0x07; 0x87; 0x47; 0xC7; 0x27; 0xA7; 0x67; 0xE7; 0x17; 0x97; 0x57; 0xD7; 0x37; 0xB7; 0x77; 0xF7;
    0x0F; 0x8F; 0x4F; 0xCF; 0x2F; 0xAF; 0x6F; 0xEF; 0x1F; 0x9F; 0x5F; 0xDF; 0x3F; 0xBF; 0x7F; 0xFF
  ].

Definition reverseBits (b : byte) : byte :=
  z2b (nth (Z.to_nat (b2z b)) reverseBits_table 0).

(** The counting loop of [isEvenParity]: [if (byte & (1 << i)) ones++] for
    [i] from [i0] on, [n] times. *)
Fixpoint count_ones (n : nat) (i0 : Z) (b : Z) (ones : Z) : Z :=
  match n with
  | O => ones
  | S n' =>
      count_ones n' (i0 + 1) b
        (if Z.eqb (Z.land b (Z.shiftl 1 i0)) 0 then ones else ones + 1)
  end.

Definition isEvenParity (b : byte) : bool :=
  Z.eqb (Z.rem (count_ones 8 0 (b2z b) 0) 2) 0.

(** The 16-bit shift register [frame] of [sendByte] when the loop starts:
    the reversed byte, bit 8 set when [needParity], the whole moved up by
    one so that bit 0 is the start bit. *)
Definition tx_frame (b : byte) : Z :=
  let reversed := reverseBits b in
  let frame := b2z reversed in
  let needParity := negb (isEvenParity b) in
  let frame := if needParity then Z.lor frame 0x100 else frame in
  (Z.shiftl frame 1) mod 65536.

(** The loop [for (i = 0; i < 10; i++)]: the level put on the line for the
    lowest bit, one bit period, [frame >>= 1]. *)
Fixpoint shift_out (n : nat) (period : Z) (frame : Z) : list WireOp :=
  match n with
  | O => []
  | S n' =>
      (if Z.eqb (Z.land frame 0x01) 0 then kfdTxBusy else kfdTxIdle)
        :: delayMicroseconds_accurate period
        :: shift_out n' period (Z.shiftr frame 1)
  end.

Definition stop_bits (h : Hal) : list WireOp :=
  if _useBusyStopBits h
  then kfdTxBusy :: repeat (delayMicroseconds_accurate (_bitPeriodTx h)) 4
         ++ [kfdTxIdle]
  else kfdTxIdle :: repeat (delayMicroseconds_accurate (_bitPeriodTx h)) 4.

Definition sendByte (h : Hal) (b : byte) : list WireOp :=
  if negb (_initialized h) then []
  else
    portDISABLE_INTERRUPTS
      :: shift_out 10 (_bitPeriodTx h) (tx_frame b)
      ++ stop_bits h
      ++ [portENABLE_INTERRUPTS; delayMicroseconds (_bitPeriodTx h * 2)].

(** [sendBytesFast]: the same frame for each byte in turn, then the line
    released and a wait of one millisecond. *)
Definition sendBytesFast (h : Hal) (data : list byte) : list WireOp :=
  if negb (_initialized h) || (List.length data =? 0)%nat then []
  else
    flat_map
      (fun b =>
         portDISABLE_INTERRUPTS
           :: shift_out 10 (_bitPeriodTx h) (tx_frame b)
           ++ stop_bits h
           ++ [portENABLE_INTERRUPTS; delayMicroseconds (_bitPeriodTx h * 2)])
      data
    ++ [kfdTxIdle; delayMicroseconds 1000].

(** The bits [sendByte] puts on the line, in the order sent: the level the
    line holds during each accurate bit-period delay, [cur] being the level
    before the first operation (1 for a released line, 0 for a driven
    one). *)
Fixpoint levels (cur : Z) (ops : list WireOp) : list Z :=
  match ops with
  | [] => []
  | kfdTxIdle :: rest => levels 1 rest
  | kfdTxBusy :: rest => levels 0 rest
  | delayMicroseconds_accurate _ :: rest => cur :: levels cur rest
  | _ :: rest => levels cur rest
  end.

(** The parity bit on the wire: the tenth bit of the byte frame, after the
    start bit and the eight data bits. *)
Definition parity_bit (h : Hal) (b : byte) : Z :=
  nth 9 (levels 1 (sendByte h b)) 0.

(** The parity bit of the byte at index [i] of the buffer [sendBytesFast]
    puts on the wire: each byte holds the line for fourteen bit periods,
    the tenth of which is its parity bit. *)
Definition parity_bit_fast (h : Hal) (data : list byte) (i : nat) : Z :=
  nth (14 * i + 9) (levels 1 (sendBytesFast h data)) 0.

(** The number of ones among the eight bits of a byte. *)
Definition popcount (b : byte) : Z :=
  fold_right Z.add 0
    (map (fun i => Z.b2z (Z.testbit (b2z b) (Z.of_nat i))) (seq 0 8)).

Definition default_hal : Hal := mkHal true true 250.

(** [setTxSpeed] and [setRxSpeed] compute the bit period in microseconds
    from a [uint8_t] number of kilobauds, zero standing for four. *)
Definition bit_period (kilobaud : byte) : Z :=
  let kilobaud := if Z.eqb (b2z kilobaud) 0 then 4 else b2z kilobaud in
  Z.quot 1000 kilobaud.

Definition setTxSpeed (kilobaud : byte) (h : Hal) : Hal :=
  mkHal (_initialized h) (_useBusyStopBits h) (bit_period kilobaud).

(** The sampling loop of [receiveByte],
    [for (bitsLeft = 10; bitsLeft > 0; bitsLeft--)]: each round reads
    [kfdRxIsIdle()] (the head of [samples]; a missing sample reads busy),
    sets bit 10 of the register when the line is idle, and shifts the
    register right. *)
Fixpoint rx_shift (bitsLeft : nat) (samples : list bool) (rxByte : Z) : Z :=
  match bitsLeft with
  | O => rxByte
  | S n =>
      let rxByte := if hd false samples then Z.lor rxByte 0x400 else rxByte in
      rx_shift n (tl samples) (Z.shiftr rxByte 1)
  end.

(** The byte [receiveByte] stores, given what the ten samples read: the
    start bit is shifted out, the low eight bits are kept and reversed. *)
Definition receive_decode (samples : list bool) : byte :=
  let rxByte := rx_shift 10 samples 0 in
  let rxByte := Z.shiftr rxByte 1 in
  let rawByte := z2b (Z.land rxByte 0xFF) in
  reverseBits rawByte.

(** What [kfdRxIsIdle()] reads while the line holds a level. *)
Definition reads_idle (level : Z) : bool := Z.eqb level 1.

(** The time the wire operations take: the sum of their waits, in
    microseconds. *)
Fixpoint wire_time (ops : list WireOp) : Z :=
  match ops with
  | [] => 0
  | delayMicroseconds_accurate us :: rest => us + wire_time rest
  | delayMicroseconds us :: rest => us + wire_time rest
  | _ :: rest => wire_time rest
  end.

End TWI_HAL.

(** ** Class KFDProtocol *)

Module KFDProtocol.

Inductive DeviceType : Type := DEVICE_NONE | DEVICE_MR | DEVICE_KVL.

(** [struct Result]. *)
Record Result : Type := mkResult {
  success : bool;
  message : string;
  status : byte
}.

(** The constructor [Result(bool ok, const std::string& msg)]. *)
Definition Result_ (ok : bool) (msg : string) : Result :=
  mkResult ok msg
    (if ok then P25.STATUS_COMMAND_PERFORMED else P25.STATUS_INTERNAL_ERROR).

(** *** Frame construction *)

(** [buildModifyKeyCommand(const KeyItem&)]. *)
Definition buildModifyKeyCommand (k : P25.KeyItem) : list byte :=
  [ x00;                                             (* decryption instruction *)
    x00;                                             (* extended instruction *)
    x80;                                             (* KEK algorithm: clear *)
    x00; x00;                                        (* KEK key id *)
    z2b (Z.land (P25.keysetId k) 0xFF);
    P25.algorithmId k;
    z2b (Z.land (Z.of_nat (List.length (P25.key k))) 0xFF);
    x01;                                             (* number of keys *)
    (if P25.erase k then x20 else x00);
    z2b (Z.land (Z.shiftr (P25.sln k) 8) 0xFF);
    z2b (Z.land (P25.sln k) 0xFF);
    z2b (Z.land (Z.shiftr (P25.keyId k) 8) 0xFF);
    z2b (Z.land (P25.keyId k) 0xFF) ]
  ++ P25.key k.

Definition buildZeroizeCommand : list byte := [P25.MSG_ZEROIZE_CMD].

(** The inner KMM frame of [buildKmmFrame]: message id, message length
    (7 + body length) high byte then low byte, message format, destination
    and source RSI, body. [messageLength] is an [int]; only its low 16 bits
    reach the frame. *)
Definition kmmFrame (kmmBody : list byte) (messageId responseKind : byte)
  : list byte :=
  let messageLength := 7 + Z.of_nat (List.length kmmBody) in
  [ messageId;
    z2b (Z.land (Z.shiftr messageLength 8) 0xFF);
    z2b (Z.land messageLength 0xFF);
    responseKind;
    xff; xff; xff;
    xff; xff; xff ]
  ++ kmmBody.

Definition preamble : list byte :=
  [x00; x00; x80; x00; x00] ++ repeat x00 9.

(** The body of the TWI frame: control byte, destination RSI, and the KMM
    (without preamble: [usePreamble] is the constant [false]). *)
Definition twiBody (kmmBody : list byte) (messageId responseKind : byte)
  : list byte :=
  let usePreamble := false in
  let fullKmm :=
    if usePreamble
    then preamble ++ kmmFrame kmmBody messageId responseKind
    else kmmFrame kmmBody messageId responseKind in
  [x00; xff; xff; xff] ++ fullKmm.

(** [buildKmmFrame(kmmBody, messageId, responseKind)]. *)
Definition buildKmmFrame3 (kmmBody : list byte) (messageId responseKind : byte)
  : list byte :=
  let body := twiBody kmmBody messageId responseKind in
  let crc := P25.calculateCrc16 body in
  let length := Z.of_nat (List.length body) + 2 in
  [ P25.TWI_KMM;
    z2b (Z.land (Z.shiftr length 8) 0xFF);
    z2b (Z.land length 0xFF) ]
  ++ body
  ++ [ z2b (Z.land crc 0xFF);                        (* CRC low byte first *)
       z2b (Z.land (Z.shiftr crc 8) 0xFF) ].         (* CRC high byte second *)

(** [buildKmmFrame(kmmBody)], the convenience wrapper for ModifyKeyCommand. *)
Definition buildKmmFrame (kmmBody : list byte) : list byte :=
  buildKmmFrame3 kmmBody P25.MSG_MODIFY_KEY_CMD xc0.

(** A two-byte big-endian field read back as a number. *)
Definition be16 (hi lo : byte) : Z := b2z hi * 256 + b2z lo.

(** A two-byte little-endian field read back as a number. *)
Definition le16 (lo hi : byte) : Z := b2z lo + 256 * b2z hi.

(** *** The object, the line and the monad of the methods *)

(** The calls the protocol layer makes on the line through the HAL, and on
    the Arduino functions that wait, as they appear in its log. The calls
    [isDebugEnabled] and [enableDebug] act on the debug switch of the HAL
    alone: they are the field [hal_debug] and are not logged. *)
Inductive HalCall : Type :=
| sendKeySignatureAndReadyReq
| receiveByte (timeoutMs : Z)
| sendByte (b : byte)
| sendBytesFast (data : list byte)
| disableInterface
| delay (ms : Z)
| delayMicroseconds (us : Z)
| isLineIdle
| isLineBusy.

(** The fields of the object that the modelled methods read or write,
    the debug switch of the HAL, and the two sides of the line: [rx] is what
    the successive calls of [receiveByte] will return ([Some b] for a byte
    received in time, [None] for a timeout; once the script is used up every
    call times out) and [calls] is the log of the calls made, oldest first.
    [line] is what the polling loop of [sendKmm] will find at its successive
    tests: [None] when the 100 ms are over, [Some busy] when they are not
    and [isLineBusy] then returns [busy]; once that script is used up the
    time is over.
    [_hal] is non-null exactly when [_initialized] holds ([init] sets both),
    so the tests of [_hal] read [_initialized]. *)
Record State : Type := mkState {
  _initialized : bool;
  _debug : bool;
  _operationInProgress : bool;
  _abortRequested : bool;
  _postReadyDelayUs : Z;
  hal_debug : bool;
  rx : list (option byte);
  line : list (option bool);
  calls : list HalCall
}.

Definition M (A : Type) : Type := State -> A * State.

Definition ret {A} (a : A) : M A := fun st => (a, st).

Definition bind {A B} (m : M A) (k : A -> M B) : M B :=
  fun st => let (a, st') := m st in k a st'.

Notation "x <- m ;; k" := (bind m (fun x => k))
  (at level 61, m at next level, right associativity).
Notation "m ;; k" := (bind m (fun _ => k))
  (at level 61, right associativity).

Definition get {A} (f : State -> A) : M A := fun st => (f st, st).

Definition set_operationInProgress (v : bool) : M unit := fun st =>
  (tt, mkState (_initialized st) (_debug st) v (_abortRequested st)
         (_postReadyDelayUs st) (hal_debug st) (rx st) (line st) (calls st)).

Definition set_abortRequested (v : bool) : M unit := fun st =>
  (tt, mkState (_initialized st) (_debug st) (_operationInProgress st) v
         (_postReadyDelayUs st) (hal_debug st) (rx st) (line st) (calls st)).

(** [_hal->enableDebug(v)]. *)
Definition enableDebug (v : bool) : M unit := fun st =>
  (tt, mkState (_initialized st) (_debug st) (_operationInProgress st)
         (_abortRequested st) (_postReadyDelayUs st) v (rx st) (line st)
         (calls st)).

(** A call that returns nothing: it is appended to the log. *)
Definition call (c : HalCall) : M unit := fun st =>
  (tt, mkState (_initialized st) (_debug st) (_operationInProgress st)
         (_abortRequested st) (_postReadyDelayUs st) (hal_debug st) (rx st)
         (line st) (calls st ++ [c])).

(** [_hal->receiveByte(&b, timeoutMs)]: logged, and answered by the head of
    the script. [Some b] stands for [true] with [b] stored, [None] for
    [false]. *)
Definition hal_receiveByte (timeoutMs : Z) : M (option byte) := fun st =>
  (hd None (rx st),
   mkState (_initialized st) (_debug st) (_operationInProgress st)
     (_abortRequested st) (_postReadyDelayUs st) (hal_debug st)
     (tl (rx st)) (line st) (calls st ++ [receiveByte timeoutMs])).

(** *** Session management *)

Definition postReadyDelay : M unit :=
  us <- get _postReadyDelayUs ;;
  if 0 <? us then call (delayMicroseconds us) else ret tt.

(** The loop [for (attempt = 1; attempt <= 3; attempt++)] of [beginSession]
    with [n] attempts left. The result is [Some d] when the method returns
    [true], [d] being the value it stores through a non-null
    [deviceType]. *)
Fixpoint beginSession_attempts (n : nat) : M (option DeviceType) :=
  match n with
  | O => ret None
  | S n' =>
      call sendKeySignatureAndReadyReq ;;
      r <- hal_receiveByte 2000 ;;
      match r with
      | Some response =>
          if beq response P25.TWI_READY_MODE_MR then
            postReadyDelay ;; ret (Some DEVICE_MR)
          else if beq response P25.TWI_READY_MODE_KVL then
            postReadyDelay ;; ret (Some DEVICE_KVL)
          else
            call (delay 500) ;; beginSession_attempts n'
      | None =>
          call (delay 500) ;; beginSession_attempts n'
      end
  end.

Definition beginSession : M (option DeviceType) :=
  ini <- get _initialized ;;
  if negb ini then ret None else beginSession_attempts 3.

Definition endSession : M unit :=
  ini <- get _initialized ;;
  if negb ini then ret tt
  else
    call (sendByte P25.TWI_TRANSFER_DONE) ;;
    r <- hal_receiveByte 1000 ;;
    match r with
    | Some response =>
        if beq response P25.TWI_TRANSFER_DONE then
          call (sendByte P25.TWI_DISCONNECT) ;;
          _ <- hal_receiveByte 1000 ;;
          call disableInterface
        else call disableInterface
    | None => call disableInterface
    end.

(** The loop [while ((millis() - start) < 100)] of [sendKmm]: at each test
    in time [isLineBusy] is called, a busy line ends the loop and an idle
    one is followed by [delayMicroseconds(100)]. The result is the calls
    made and what is left of the script. *)
Fixpoint poll_line (script : list (option bool))
  : list HalCall * list (option bool) :=
  match script with
  | [] => ([], [])
  | None :: rest => ([], rest)
  | Some true :: rest => ([isLineBusy], rest)
  | Some false :: rest =>
      let (cs, rest') := poll_line rest in
      (isLineBusy :: delayMicroseconds 100 :: cs, rest')
  end.

(** The polling loop on the object: its calls are logged and its tests
    consumed. *)
Definition pollLine : M unit := fun st =>
  (tt, mkState (_initialized st) (_debug st) (_operationInProgress st)
         (_abortRequested st) (_postReadyDelayUs st) (hal_debug st) (rx st)
         (snd (poll_line (line st)))
         (calls st ++ fst (poll_line (line st)))).

(** [sendKmm]. Under [_debug] it reads the line once ([isLineIdle], whose
    answer is only printed) and then polls it for up to 100 ms. *)
Definition sendKmm (kmm : list byte) : M bool :=
  ini <- get _initialized ;;
  if negb ini then ret false
  else
    let frame := buildKmmFrame kmm in
    debugWas <- get hal_debug ;;
    enableDebug false ;;
    call (sendBytesFast frame) ;;
    enableDebug debugWas ;;
    dbg <- get _debug ;;
    (if dbg then call isLineIdle ;; pollLine else ret tt) ;;
    ret true.

(** The loop of the 0xC3 branch of [receiveKmm]:
    [while (receiveByte(&b, 500)) { raw.push_back(b); if (raw.size() > 100) break; }].
    The fuel bounds the number of rounds. *)
Fixpoint dump_raw (fuel : nat) (raw : list byte) : M (list byte) :=
  match fuel with
  | O => ret raw
  | S fuel' =>
      r <- hal_receiveByte 500 ;;
      match r with
      | None => ret raw
      | Some b =>
          let raw' := raw ++ [b] in
          if (100 <? List.length raw')%nat then ret raw'
          else dump_raw fuel' raw'
      end
  end.

(** The diagnostic loops [for (i = 0; i < n; i++)] that read and print bytes
    until one times out. *)
Fixpoint drain (n : nat) (timeoutMs : Z) : M unit :=
  match n with
  | O => ret tt
  | S n' =>
      r <- hal_receiveByte timeoutMs ;;
      match r with
      | Some _ => drain n' timeoutMs
      | None => ret tt
      end
  end.

(** The loop that fills [body]: [n] bytes still to read after [acc]. *)
Fixpoint read_body (n : nat) (timeoutMs : Z) (acc : list byte)
  : M (option (list byte)) :=
  match n with
  | O => ret (Some acc)
  | S n' =>
      r <- hal_receiveByte timeoutMs ;;
      match r with
      | Some b => read_body n' timeoutMs (acc ++ [b])
      | None => ret None
      end
  end.

(** [receiveKmm(kmm, timeoutMs)]: [Some kmm] when the method returns [true]
    with [kmm] assigned, [None] when it returns [false] (it then leaves its
    argument as it was). *)
Definition receiveKmm (timeoutMs : Z) : M (option (list byte)) :=
  ini <- get _initialized ;;
  if negb ini then ret None
  else
    r <- hal_receiveByte timeoutMs ;;
    match r with
    | None => ret None
    | Some opcode =>
        if beq opcode xc3 then
          raw <- dump_raw 101 [opcode] ;;
          ret (Some raw)
        else if negb (beq opcode P25.TWI_KMM) then
          dbg <- get _debug ;;
          (if dbg then drain 10 100 else ret tt) ;;
          ret None
        else
          rh <- hal_receiveByte timeoutMs ;;
          match rh with
          | None => ret None
          | Some lenHi =>
              rl <- hal_receiveByte timeoutMs ;;
              match rl with
              | None => ret None
              | Some lenLo =>
                  let len :=
                    (Z.lor (Z.shiftl (b2z lenHi) 8) (b2z lenLo)) mod 65536 in
                  if (len <? 6) || (512 <? len) then
                    drain 20 100 ;; ret None
                  else
                    rb <- read_body (Z.to_nat len) timeoutMs [] ;;
                    match rb with
                    | None => ret None
                    | Some body =>
                        if 6 <? len then
                          ret (Some (firstn (List.length body - 4 - 2)
                                            (skipn 4 body)))
                        else ret (Some body)
                    end
              end
          end
    end.

(** *** Operations *)

(** The two-digit upper-case hexadecimal form of a byte ([%02X]). *)
Definition hex_digit (n : Z) : string :=
  String.substring (Z.to_nat n) 1 "0123456789ABCDEF".

Definition hex02 (b : byte) : string :=
  (hex_digit (Z.shiftr (b2z b) 4) ++ hex_digit (Z.land (b2z b) 0x0F))%string.

(** The classification of the response at the end of [keyload]. *)
Definition classify (response : list byte) : Result :=
  match response with
  | [] => Result_ false "Empty response"
  | r0 :: _ =>
      if beq r0 P25.MSG_REKEY_ACK then
        Result_ true "Key loaded successfully"
      else if beq r0 P25.MSG_NEGATIVE_ACK then
        let status :=
          if (2 <? List.length response)%nat then at_ response 2
          else P25.STATUS_INVALID_MN in
        mkResult false ("NAK received: status 0x" ++ hex02 status) status
      else Result_ false "Unexpected response"
  end.

Definition keyload (k : P25.KeyItem) : M Result :=
  ini <- get _initialized ;;
  if negb ini then ret (Result_ false "Not initialized") else
  busy <- get _operationInProgress ;;
  if busy then ret (Result_ false "Operation in progress") else
  set_operationInProgress true ;;
  set_abortRequested false ;;
  s <- beginSession ;;
  match s with
  | None =>
      set_operationInProgress false ;;
      ret (Result_ false "Failed to connect to radio")
  | Some _ =>
      enableDebug false ;;
      let kmm := buildModifyKeyCommand k in
      let frame := buildKmmFrame kmm in
      call (sendBytesFast frame) ;;
      enableDebug true ;;
      r <- receiveKmm 10000 ;;
      match r with
      | None =>
          endSession ;;
          set_operationInProgress false ;;
          ret (Result_ false "No response from radio after keyload")
      | Some response =>
          endSession ;;
          set_operationInProgress false ;;
          ret (classify response)
      end
  end.

(** [eraseKey]: a default [KeyItem] with the keyset, the SLN and the erase
    flag set. *)
Definition eraseKey (keysetId sln : Z) : M Result :=
  keyload (P25.mkKeyItem keysetId sln 0 P25.ALGO_AES_256 [] false true).

Definition eraseAllKeys : M Result :=
  ini <- get _initialized ;;
  if negb ini then ret (Result_ false "Not initialized") else
  busy <- get _operationInProgress ;;
  if busy then ret (Result_ false "Operation in progress") else
  set_operationInProgress true ;;
  s <- beginSession ;;
  match s with
  | None =>
      set_operationInProgress false ;;
      ret (Result_ false "Failed to connect to radio")
  | Some _ =>
      let kmm := buildZeroizeCommand in
      sent <- sendKmm kmm ;;
      if negb sent then
        endSession ;;
        set_operationInProgress false ;;
        ret (Result_ false "Failed to send zeroize command")
      else
        r <- receiveKmm 10000 ;;
        match r with
        | None =>
            endSession ;;
            set_operationInProgress false ;;
            ret (Result_ false "No response")
        | Some _ =>
            endSession ;;
            set_operationInProgress false ;;
            ret (Result_ true "All keys erased")
        end
  end.

(** The object after [init(hal)] with the constructor's defaults, facing a
    line that will deliver [script]; the time of the polling loop is over
    at its first test. *)
Definition initial (script : list (option byte)) : State :=
  mkState true true false false 0 true script [] [].

(** The bytes sent with [sendBytesFast] according to a log. *)
Fixpoint frames_sent (log : list HalCall) : list (list byte) :=
  match log with
  | [] => []
  | sendBytesFast data :: rest => data :: frames_sent rest
  | _ :: rest => frames_sent rest
  end.

(** *** Vocabulary of the statements *)

(** The state after [k] more answers of the line were consumed and the
    calls [cs] were logged. *)
Definition advance (k : nat) (cs : list HalCall) (st : State) : State :=
  mkState (_initialized st) (_debug st) (_operationInProgress st)
    (_abortRequested st) (_postReadyDelayUs st) (hal_debug st)
    (skipn k (rx st)) (line st) (calls st ++ cs).

(** The [n]-th answer the line will give from now on. *)
Definition answer (n : nat) (st : State) : option byte := nth n (rx st) None.

(** The peer mode a ready response stands for, if any. *)
Definition ready_mode (r : option byte) : option DeviceType :=
  match r with
  | Some b =>
      if beq b xd0 then Some DEVICE_MR
      else if beq b xd1 then Some DEVICE_KVL
      else None
  | None => None
  end.

(** One handshake attempt as logged: the key signature with the ready
    request, then the wait for the ready response. *)
Definition attempt : list HalCall :=
  [sendKeySignatureAndReadyReq; receiveByte 2000].

(** The wait logged after a ready response. *)
Definition post_ready (st : State) : list HalCall :=
  if 0 <? _postReadyDelayUs st
  then [delayMicroseconds (_postReadyDelayUs st)] else [].

(** The bytes at the head of a script, up to the first timeout and up to
    [n] of them. *)
Fixpoint leading_bytes (n : nat) (script : list (option byte)) : list byte :=
  match n, script with
  | S n', Some b :: rest => b :: leading_bytes n' rest
  | _, _ => []
  end.

(** The object when [keyload] calls [beginSession]. *)
Definition keyload_entry (st : State) : State :=
  snd (set_abortRequested false (snd (set_operationInProgress true st))).

(** The object when [keyload] calls [receiveKmm], [st] being the object
    [beginSession] left. *)
Definition keyload_sent (k : P25.KeyItem) (st : State) : State :=
  snd (enableDebug true
    (snd (call (sendBytesFast (buildKmmFrame (buildModifyKeyCommand k)))
      (snd (enableDebug false st))))).

(** A method that sends no frame: the frames of the log are the same
    before and after it. *)
Definition silent {A} (m : M A) : Prop :=
  forall st, frames_sent (calls (snd (m st))) = frames_sent (calls st).

(** A script made of bytes that all arrive in time. *)
Definition arriving (l : list byte) : list (option byte) := map Some l.

(** *** Further builders *)

(** One key item of a ModifyKey body: key format, SLN, key id, key. *)
Definition key_item (k : P25.KeyItem) : list byte :=
  [ (if P25.erase k then x20 else x00);
    z2b (Z.land (Z.shiftr (P25.sln k) 8) 0xFF);
    z2b (Z.land (P25.sln k) 0xFF);
    z2b (Z.land (Z.shiftr (P25.keyId k) 8) 0xFF);
    z2b (Z.land (P25.keyId k) 0xFF) ]
  ++ P25.key k.

(** [buildModifyKeyCommand(const std::vector<KeyItem>&)]: nothing for no
    keys; otherwise the header taken from the first key, the number of
    keys, and the items of all keys. *)
Definition buildModifyKeyCommands (keys : list P25.KeyItem) : list byte :=
  match keys with
  | [] => []
  | k0 :: _ =>
      [ x00; x00; x80; x00; x00;
        z2b (Z.land (P25.keysetId k0) 0xFF);
        P25.algorithmId k0;
        z2b (Z.land (Z.of_nat (List.length (P25.key k0))) 0xFF);
        z2b (Z.land (Z.of_nat (List.length keys)) 0xFF) ]
      ++ flat_map key_item keys
  end.

(** *** Vocabulary of the further statements *)

(** The number of [receiveByte] calls in a log. *)
Fixpoint recv_count (log : list HalCall) : nat :=
  match log with
  | [] => O
  | receiveByte _ :: rest => S (recv_count rest)
  | _ :: rest => recv_count rest
  end.

(** A call that waits for a byte with one of the timeouts [ts]. *)
Definition waits (ts : list Z) (c : HalCall) : Prop :=
  exists t, In t ts /\ c = receiveByte t.

(** A method that only talks to the line: it leaves every field of the
    object as it was, logs at most [n] calls, all of them satisfying [ok],
    and has consumed one answer of the line per [receiveByte] call. *)
Definition within {A} (ok : HalCall -> Prop) (n : nat) (m : M A) : Prop :=
  forall st, exists cs,
    snd (m st) = advance (recv_count cs) cs st
    /\ Forall ok cs /\ (List.length cs <= n)%nat.

(** *** Loading several keys *)

(** [%d] of an [int]. The sizes and counters printed are below 2^31 on the
    target, so the conversions the source makes to [int] are exact. *)
Definition fmt_d (z : Z) : string := NilZero.string_of_int (Z.to_int z).

(** [abort()]. *)
Definition abort : M unit := set_abortRequested true.

(** [if (progress) progress(current, total, status)]: the callback is any
    code run on the object, or absent. *)
Definition report (progress : option (Z -> Z -> string -> M unit))
    (current total : Z) (status : string) : M unit :=
  match progress with
  | Some f => f current total status
  | None => ret tt
  end.

(** The loop [for (i = 0; i < keys.size(); i++)] of [keyloadMultiple] and
    what follows it; [rest] holds the keys from index [i] on. *)
Fixpoint keyloadMultiple_loop
    (progress : option (Z -> Z -> string -> M unit))
    (total i loaded : Z) (rest : list P25.KeyItem) : M Result :=
  match rest with
  | [] =>
      report progress total total "Complete!" ;;
      endSession ;;
      set_operationInProgress false ;;
      ret (Result_ true (fmt_d loaded ++ " keys loaded successfully"))
  | k :: rest' =>
      ab <- get _abortRequested ;;
      if ab then
        endSession ;;
        set_operationInProgress false ;;
        ret (Result_ false "Aborted by user")
      else
        report progress i total
          ("Loading key " ++ fmt_d (i + 1) ++ " of " ++ fmt_d total ++ "...") ;;
        let kmm := buildModifyKeyCommand k in
        sent <- sendKmm kmm ;;
        if negb sent then
          endSession ;;
          set_operationInProgress false ;;
          ret (Result_ false "Failed to send key")
        else
          r <- receiveKmm 5000 ;;
          match r with
          | None =>
              endSession ;;
              set_operationInProgress false ;;
              ret (Result_ false "No response from radio")
          | Some response =>
              if match response with
                 | [] => true
                 | r0 :: _ => negb (beq r0 P25.MSG_REKEY_ACK)
                 end
              then
                endSession ;;
                set_operationInProgress false ;;
                ret (Result_ false ("Key " ++ fmt_d (i + 1) ++ " failed"))
              else
                keyloadMultiple_loop progress total (i + 1) (loaded + 1) rest'
          end
  end.

Definition keyloadMultiple (keys : list P25.KeyItem)
    (progress : option (Z -> Z -> string -> M unit)) : M Result :=
  ini <- get _initialized ;;
  if negb ini then ret (Result_ false "Not initialized") else
  busy <- get _operationInProgress ;;
  if busy then ret (Result_ false "Operation in progress") else
  match keys with
  | [] => ret (Result_ false "No keys to load")
  | _ :: _ =>
      let total := Z.of_nat (List.length keys) in
      set_operationInProgress true ;;
      set_abortRequested false ;;
      report progress 0 total "Connecting to radio..." ;;
      s <- beginSession ;;
      match s with
      | None =>
          set_operationInProgress false ;;
          ret (Result_ false "Failed to connect to radio")
      | Some _ => keyloadMultiple_loop progress total 0 0 keys
      end
  end.

(** The fields of the object, without the line. *)
Definition object (st : State)
  : bool * bool * bool * bool * Z * bool :=
  (_initialized st, _debug st, _operationInProgress st, _abortRequested st,
   _postReadyDelayUs st, hal_debug st).

(** The calls of a session teardown, given the answer to the
    transfer-done byte. *)
Definition teardown (answer_done : option byte) : list HalCall :=
  [sendByte P25.TWI_TRANSFER_DONE; receiveByte 1000]
  ++ (match answer_done with
      | Some b =>
          if beq b P25.TWI_TRANSFER_DONE
          then [sendByte P25.TWI_DISCONNECT; receiveByte 1000] else []
      | None => []
      end)
  ++ [disableInterface].

(** The calls [sendKmm] logs after the frame on the object [st]: none
    without [_debug], else the reading of the line and the polling loop. *)
Definition polling (st : State) : list HalCall :=
  if _debug st then isLineIdle :: fst (poll_line (line st)) else [].

(** The log of [st'] is the log of [st] followed by calls of which at most
    [n] wait for a byte and at most [f] send a frame. *)
Definition waited (n f : nat) (st st' : State) : Prop :=
  exists cs, calls st' = calls st ++ cs
    /\ (recv_count cs <= n)%nat
    /\ (List.length (frames_sent cs) <= f)%nat.

(** What arrives when the peer answers with frames of message id
    [messageId], one per body, built like the frames of this side. *)
Definition peer_frames (messageId responseKind : byte)
    (bodies : list (list byte)) : list (option byte) :=
  flat_map (fun b => arriving (buildKmmFrame3 b messageId responseKind))
    bodies.

(** The frames [keyloadMultiple] is to send for a list of keys. *)
Definition key_frames (keys : list P25.KeyItem) : list (list byte) :=
  map (fun k => buildKmmFrame (buildModifyKeyCommand k)) keys.

End KFDProtocol.

(** ** Hex strings and DES parity ([src/crypto.cpp]) *)

Module Crypto.

(** A [char] of a [std::string], as its code. *)
Definition c2z (c : ascii) : Z := Z.of_N (N_of_ascii c).

(** The digit [hexToBytes] reads from a character, as the [uint8_t] it is
    stored in: letters of both cases, and [h - '0'] for every other
    character, digit or not. *)
Definition hex_value (c : ascii) : Z :=
  let h := c2z c in
  (if (65 <=? h) && (h <=? 70) then h - 65 + 10
   else if (97 <=? h) && (h <=? 102) then h - 97 + 10
   else h - 48) mod 256.

(** [bytes[i] = (hi << 4) | lo]. *)
Definition hex_byte (h l : ascii) : byte :=
  z2b (Z.lor (Z.shiftl (hex_value h) 4) (hex_value l)).

(** The loop of [hexToBytes], [len] rounds over the characters [hex[2i]]
    and [hex[2i+1]]; [len] is at most half the length of the string. *)
Fixpoint hexToBytes_loop (len : nat) (hex : string) : list byte :=
  match len, hex with
  | S len', String h (String l rest) =>
      hex_byte h l :: hexToBytes_loop len' rest
  | _, _ => []
  end.

(** [hexToBytes(hex, nullptr, maxLen)]: only the count. *)
Definition hexToBytes_count (hex : string) : Z :=
  Z.of_nat (String.length hex / 2).

(** [hexToBytes(hex, bytes, maxLen)] with a buffer: the bytes written at
    the start of the buffer and the value returned. *)
Definition hexToBytes (hex : string) (maxLen : nat) : list byte * Z :=
  let len := (String.length hex / 2)%nat in
  let len := if (maxLen <? len)%nat then maxLen else len in
  (hexToBytes_loop len hex, Z.of_nat len).

(** [static const char hex[] = "0123456789ABCDEF"] and [hex[i]]. *)
Definition hex : string := "0123456789ABCDEF".

Definition hex_at (i : Z) : ascii :=
  match String.get (Z.to_nat i) hex with
  | Some c => c
  | None => Ascii.zero
  end.

(** [bytesToHex(bytes, len)], the list being the [len] bytes read. *)
Fixpoint bytesToHex (bytes : list byte) : string :=
  match bytes with
  | [] => EmptyString
  | b :: rest =>
      String (hex_at (Z.shiftr (b2z b) 4))
        (String (hex_at (Z.land (b2z b) 0x0F)) (bytesToHex rest))
  end.

(** [if (b & (1 << j)) ones++] over the bit positions [js]. *)
Fixpoint count_bits (js : list Z) (b : Z) : Z :=
  match js with
  | [] => 0
  | j :: js' =>
      (if Z.land b (Z.shiftl 1 j) =? 0 then 0 else 1) + count_bits js' b
  end.

(** One round of [fixDesKeyParity]: bits 1 to 7 are counted and bit 0 is
    set so that the byte has an odd number of ones. *)
Definition fix_byte (b : byte) : byte :=
  let ones := count_bits (map (fun j => j + 1) [0; 1; 2; 3; 4; 5; 6]) (b2z b) in
  z2b (Z.lor (Z.land (b2z b) 0xFE) (if ones mod 2 =? 0 then 1 else 0)).

(** [fixDesKeyParity(key)] rewrites [key[0..7]]; [key] is what the pointer
    points to, and with fewer than eight bytes there the source runs past
    the array: no result. *)
Definition fixDesKeyParity (key : list byte) : option (list byte) :=
  if (List.length key <? 8)%nat then None
  else Some (map fix_byte (firstn 8 key) ++ skipn 8 key).

(** The loop of [validateDesKeyParity], with its early [return false]. *)
Fixpoint validateDesKeyParity_loop (key : list byte) : bool :=
  match key with
  | [] => true
  | b :: rest =>
      if count_bits [0; 1; 2; 3; 4; 5; 6; 7] (b2z b) mod 2 =? 0 then false
      else validateDesKeyParity_loop rest
  end.

Definition validateDesKeyParity (key : list byte) : option bool :=
  if (List.length key <? 8)%nat then None
  else Some (validateDesKeyParity_loop (firstn 8 key)).

End Crypto.

(** ** Key slots ([container.cpp]) *)

Module Container.

(** [struct KeySlot]. *)
Record KeySlot : Type := mkKeySlot {
  name : string;
  description : string;
  algorithmId : byte;
  keyId : Z;
  sln : Z;
  keyHex : string;
  selected : bool
}.

(** [KeySlot::toKeyItem(keysetId)]: the item handed to [keyload] and
    [keyloadMultiple]. *)
Definition toKeyItem (ks : KeySlot) (keysetId : Z) : P25.KeyItem :=
  let len := Crypto.hexToBytes_count (keyHex ks) in
  P25.mkKeyItem keysetId (sln ks) (keyId ks) (algorithmId ks)
    (if 0 <? len then fst (Crypto.hexToBytes (keyHex ks) (Z.to_nat len))
     else [])
    (match P25.getKeyType (sln ks) with
     | P25.KEY_TYPE_KEK => true
     | P25.KEY_TYPE_TEK => false
     end)
    false.

(** [KeySlot::isValid()]. *)
Definition isValid (ks : KeySlot) : bool :=
  let expected := P25.getKeyLength (algorithmId ks) in
  (expected =? 0)
  || (Z.of_nat (String.length (keyHex ks)) =? expected * 2).

(** [KeySlot::getKeyLength()]. *)
Definition getKeyLength (ks : KeySlot) : Z :=
  Z.of_nat (String.length (keyHex ks) / 2).

End Container.

(** ** Scenarios *)

Module Scenario.

Import KFDProtocol.

(** An AES-256 key for keyset 1, SLN 202, key id 202, with the key material
    11 12 13 ... 30 (hexadecimal). *)
Definition aes256_key : P25.KeyItem :=
  P25.mkKeyItem 1 202 202 P25.ALGO_AES_256
    (map (fun i => z2b (0x11 + Z.of_nat i)) (seq 0 32)) false false.

(** The same slot with a single byte of key material under AES-256. *)
Definition short_key : P25.KeyItem :=
  P25.mkKeyItem 1 202 202 P25.ALGO_AES_256 [x11] false false.

(** The peer is a mobile radio that acknowledges the rekey and closes the
    session. *)
Definition ack_script : list (option byte) :=
  arriving [xd0;
            xc2; x00; x09; x00; xff; xff; xff; x07; x00; x04; x0c; x74;
            xc1; x90].

(** The peer answers with a negative acknowledgment leading 08 00 06. *)
Definition nak_script : list (option byte) :=
  arriving [xd0;
            xc2; x00; x09; x00; xff; xff; xff; x08; x00; x06; xd9; x1d;
            xc1; x90].

(** The peer is ready, then silent. *)
Definition ready_script : list (option byte) := arriving [xd0].

(** The object after [init(hal)] facing a peer that is ready and then
    acknowledges, on a line found idle at the first two tests of the
    polling loop and busy at the third. *)
Definition polled_line : State :=
  mkState true true false false 0 true ack_script
    [Some false; Some false; Some true] [].

(** A DES-OFB slot with SLN 1 and sixteen hex digits of key material. *)
Definition des_slot : Container.KeySlot :=
  Container.mkKeySlot "DES" "" P25.ALGO_DES_OFB 1 1 "0123456789abcdef" true.

End Scenario.

(** * Properties *)

Lemma b2z_range (b : byte) : 0 <= b2z b < 256.
Proof.
  unfold b2z. pose proof (Byte.to_N_bounded b). lia.
Qed.

Lemma b2z_z2b (z : Z) : b2z (z2b z) = z mod 256.
Proof.
  unfold z2b, b2z.
  assert (Hr : 0 <= z mod 256 < 256) by (apply Z.mod_pos_bound; lia).
  destruct (Byte.of_N (Z.to_N (z mod 256))) as [b|] eqn:E.
  - apply Byte.to_of_N in E. rewrite E. lia.
  - apply Byte.of_N_None_iff in E. lia.
Qed.

Lemma z2b_b2z (b : byte) : z2b (b2z b) = b.
Proof.
  unfold z2b, b2z. pose proof (Byte.to_N_bounded b) as Hb.
  rewrite Z.mod_small by lia. rewrite N2Z.id, Byte.of_to_N. reflexivity.
Qed.

Lemma beq_eq (a b : byte) : beq a b = true <-> a = b.
Proof.
  unfold beq. split; [apply Byte.byte_dec_bl | apply Byte.byte_dec_lb].
Qed.

(** ** CRC-16 *)

Lemma crc16Table_length : List.length P25.crc16Table = 256%nat.
Proof. reflexivity. Qed.

Lemma crc16Table_bitwise :
  forall i, (i < 256)%nat ->
  nth i P25.crc16Table 0 = P25.crc_bitwise 8 (Z.of_nat i).
Proof.
  intros i Hi.
  do 256 (destruct i as [|i]; [vm_compute; reflexivity|]).
  lia.
Qed.

Lemma calculateCrc16_snoc (data : list byte) (d : byte) :
  P25.calculateCrc16 (data ++ [d]) =
  P25.crc16_step (P25.calculateCrc16 data) d.
Proof.
  unfold P25.calculateCrc16. rewrite fold_left_app. reflexivity.
Qed.

Lemma crc16_step_range (crc : Z) (d : byte) :
  0 <= P25.crc16_step crc d < 65536.
Proof. unfold P25.crc16_step. apply Z.mod_pos_bound. lia. Qed.

Lemma calculateCrc16_range (data : list byte) :
  0 <= P25.calculateCrc16 data < 65536.
Proof.
  destruct data as [|d data] using rev_ind.
  - vm_compute. split; congruence.
  - rewrite calculateCrc16_snoc. apply crc16_step_range.
Qed.

(** C1. [calculateCrc16] starts from [0xFFFF] (its value on no data), folds
    each byte in through the Annex-A table (one table look-up per byte, the
    table being the one the bitwise algorithm with [0x8408] generates),
    returns the register without complementing it, and gives [0x6F91] on
    the nine ASCII bytes 123456789; [0x906E] is the complement of that. *)
Theorem calculateCrc16_check :
  P25.calculateCrc16 [] = 0xFFFF
  /\ (forall data d,
        P25.calculateCrc16 (data ++ [d]) =
        (Z.lxor (nth (Z.to_nat (Z.lxor (b2z d)
                                  (Z.land (P25.calculateCrc16 data) 0xFF)))
                     P25.crc16Table 0)
                (Z.shiftr (P25.calculateCrc16 data) 8)) mod 65536)
  /\ (forall i, (i < 256)%nat ->
        nth i P25.crc16Table 0 = P25.crc_bitwise 8 (Z.of_nat i))
  /\ P25.calculateCrc16 P25.check_123456789 = 0x6F91
  /\ P25.calculateCrc16 P25.check_123456789 <> 0x906E
  /\ Z.lxor (P25.calculateCrc16 P25.check_123456789) 0xFFFF = 0x906E.
Proof.
  split; [reflexivity|].
  split; [intros; apply calculateCrc16_snoc|].
  split; [apply crc16Table_bitwise|].
  split; [vm_compute; reflexivity|].
  split; vm_compute; congruence.
Qed.

(** ** The byte codec *)

Lemma reverseBits_involutive (b : byte) :
  TWI_HAL.reverseBits (TWI_HAL.reverseBits b) = b.
Proof. destruct b; vm_compute; reflexivity. Qed.

Lemma isEvenParity_popcount (b : byte) :
  TWI_HAL.isEvenParity b = Z.even (TWI_HAL.popcount b).
Proof. destruct b; vm_compute; reflexivity. Qed.

(** The fourteen bit periods of a byte frame: the start bit, the bits of
    the byte from bit 7 down to bit 0, a bit that is set when the byte has
    an odd number of ones, and four stop bits of the configured level. *)
Lemma sendByte_levels (h : TWI_HAL.Hal) (b : byte) :
  TWI_HAL._initialized h = true ->
  TWI_HAL.levels 1 (TWI_HAL.sendByte h b) =
  0 :: map (fun i => Z.b2z (Z.testbit (b2z b) (Z.of_nat i))) (rev (seq 0 8))
    ++ [Z.b2z (negb (TWI_HAL.isEvenParity b))]
    ++ repeat (if TWI_HAL._useBusyStopBits h then 0 else 1) 4.
Proof.
  destruct h as [ini busy period]; simpl; intros ->.
  destruct busy; destruct b; vm_compute; reflexivity.
Qed.

(** [sendBytesFast] puts the frames of [sendByte] on the line, one byte
    after the other. *)
Lemma sendBytesFast_frames (h : TWI_HAL.Hal) (data : list byte) :
  TWI_HAL._initialized h = true -> data <> [] ->
  TWI_HAL.sendBytesFast h data =
  flat_map (TWI_HAL.sendByte h) data
    ++ [TWI_HAL.kfdTxIdle; TWI_HAL.delayMicroseconds 1000].
Proof.
  intros Hi Hd. unfold TWI_HAL.sendBytesFast, TWI_HAL.sendByte.
  rewrite Hi. destruct data as [|b data]; [contradiction|]. reflexivity.
Qed.

(** Whatever the line held before, and whatever follows, a byte frame
    puts its own fourteen levels on the line and leaves it released. *)
Lemma levels_sendByte_app (h : TWI_HAL.Hal) (b : byte) (cur : Z)
    (rest : list TWI_HAL.WireOp) :
  TWI_HAL._initialized h = true ->
  TWI_HAL.levels cur (TWI_HAL.sendByte h b ++ rest)
  = TWI_HAL.levels 1 (TWI_HAL.sendByte h b) ++ TWI_HAL.levels 1 rest.
Proof.
  destruct h as [ini busy period]; simpl; intros ->.
  destruct busy; destruct b; vm_compute; reflexivity.
Qed.

Lemma levels_sendByte_length (h : TWI_HAL.Hal) (b : byte) :
  TWI_HAL._initialized h = true ->
  List.length (TWI_HAL.levels 1 (TWI_HAL.sendByte h b)) = 14%nat.
Proof.
  intros Hi. rewrite (sendByte_levels h b Hi).
  cbn [List.length]. rewrite !length_app, length_map, length_rev, length_seq.
  rewrite repeat_length. reflexivity.
Qed.

Lemma levels_frames (h : TWI_HAL.Hal) (l : list byte)
    (rest : list TWI_HAL.WireOp) :
  TWI_HAL._initialized h = true ->
  TWI_HAL.levels 1 (flat_map (TWI_HAL.sendByte h) l ++ rest)
  = flat_map (fun b => TWI_HAL.levels 1 (TWI_HAL.sendByte h b)) l
    ++ TWI_HAL.levels 1 rest.
Proof.
  intros Hi. induction l as [|b l IH]; [reflexivity|].
  cbn [flat_map]. rewrite <- !app_assoc.
  rewrite (levels_sendByte_app h b 1 _ Hi), IH. reflexivity.
Qed.

Lemma levels_frames_length (h : TWI_HAL.Hal) (l : list byte) :
  TWI_HAL._initialized h = true ->
  List.length
    (flat_map (fun b => TWI_HAL.levels 1 (TWI_HAL.sendByte h b)) l)
  = (14 * List.length l)%nat.
Proof.
  intros Hi. induction l as [|b l IH]; [reflexivity|].
  cbn [flat_map List.length].
  rewrite length_app, (levels_sendByte_length h b Hi), IH. lia.
Qed.

(** The frame of each byte of a buffer sent with [sendBytesFast] carries
    the parity bit [sendByte] gives that byte. *)
Lemma parity_bit_fast_eq (h : TWI_HAL.Hal) (b : byte)
    (before after : list byte) :
  TWI_HAL._initialized h = true ->
  TWI_HAL.parity_bit_fast h (before ++ b :: after) (List.length before)
  = TWI_HAL.parity_bit h b.
Proof.
  intros Hi. unfold TWI_HAL.parity_bit_fast, TWI_HAL.parity_bit.
  rewrite (sendBytesFast_frames h (before ++ b :: after) Hi)
    by (destruct before; discriminate).
  rewrite flat_map_app. cbn [flat_map]. rewrite <- !app_assoc.
  rewrite (levels_frames h before _ Hi).
  rewrite (levels_sendByte_app h b 1 _ Hi).
  rewrite app_nth2; rewrite (levels_frames_length h before Hi); [|lia].
  replace (14 * List.length before + 9 - 14 * List.length before)%nat
    with 9%nat by lia.
  apply app_nth1. rewrite (levels_sendByte_length h b Hi). lia.
Qed.

(** C2, as the code has it. On an initialised HAL the parity bit [sendByte]
    transmits makes the number of ones among the eight data bits and the
    parity bit even: the bit is 1 exactly when the byte has an odd number of
    ones, and 0 exactly when that number is even. [sendBytesFast] transmits
    the same parity bit for every byte of its buffer, whatever bytes come
    before and after it. *)
Theorem parity_bit_even (h : TWI_HAL.Hal) (b : byte)
    (before after : list byte) :
  TWI_HAL._initialized h = true ->
  Z.even (TWI_HAL.popcount b + TWI_HAL.parity_bit h b) = true
  /\ (TWI_HAL.parity_bit h b = 1 <-> Z.odd (TWI_HAL.popcount b) = true)
  /\ (TWI_HAL.parity_bit h b = 0 <-> Z.even (TWI_HAL.popcount b) = true)
  /\ TWI_HAL.parity_bit_fast h (before ++ b :: after) (List.length before)
     = TWI_HAL.parity_bit h b.
Proof.
  intros Hini.
  split; [|split; [|split; [|apply (parity_bit_fast_eq h b before after Hini)]]];
    unfold TWI_HAL.parity_bit;
    rewrite (sendByte_levels h b Hini);
    rewrite isEvenParity_popcount;
    destruct b; vm_compute; repeat split; congruence.
Qed.

Lemma parity_bit_even_witness :
  Z.even (TWI_HAL.popcount xc0
          + TWI_HAL.parity_bit TWI_HAL.default_hal xc0) = true
  /\ (TWI_HAL.parity_bit TWI_HAL.default_hal xc0 = 1 <->
      Z.odd (TWI_HAL.popcount xc0) = true)
  /\ (TWI_HAL.parity_bit TWI_HAL.default_hal xc0 = 0 <->
      Z.even (TWI_HAL.popcount xc0) = true)
  /\ TWI_HAL.parity_bit_fast TWI_HAL.default_hal ([xc2; x00] ++ xc0 :: [x0a])
       (List.length [xc2; x00])
     = TWI_HAL.parity_bit TWI_HAL.default_hal xc0.
Proof.
  apply (parity_bit_even TWI_HAL.default_hal xc0 [xc2; x00] [x0a]).
  reflexivity.
Defined.

(** C2, as the claim states it, fails at [0xC0]: the byte has two ones, the
    parity bit sent is 0, by [sendByte] and by [sendBytesFast] alike, and
    the sum is even. *)
Lemma parity_bit_not_odd :
  TWI_HAL.popcount xc0 = 2
  /\ TWI_HAL.parity_bit TWI_HAL.default_hal xc0 = 0
  /\ TWI_HAL.parity_bit_fast TWI_HAL.default_hal [xc2; x00; xc0; x0a] 2 = 0
  /\ ~ (Z.odd (TWI_HAL.popcount xc0
               + TWI_HAL.parity_bit TWI_HAL.default_hal xc0) = true)
  /\ ~ (TWI_HAL.parity_bit TWI_HAL.default_hal xc0 = 1 <->
        Z.even (TWI_HAL.popcount xc0) = true).
Proof.
  split; [reflexivity|]. split; [reflexivity|]. split; [reflexivity|].
  split.
  - vm_compute. congruence.
  - intros [_ H]. assert (E : Z.even (TWI_HAL.popcount xc0) = true) by reflexivity.
    specialize (H E). vm_compute in H. congruence.
Qed.

(** ** The frame builder *)

Section Frame.

Import KFDProtocol.

Variables (kmmBody : list byte) (messageId responseKind : byte).

Let n := Z.of_nat (List.length kmmBody).
Let frame := buildKmmFrame3 kmmBody messageId responseKind.

Lemma kmmFrame_length :
  Z.of_nat (List.length (kmmFrame kmmBody messageId responseKind)) = 10 + n.
Proof. unfold kmmFrame, n. rewrite length_app. simpl List.length. lia. Qed.

Lemma twiBody_length :
  Z.of_nat (List.length (twiBody kmmBody messageId responseKind)) = 14 + n.
Proof.
  unfold twiBody. cbv zeta. cbv iota. rewrite length_app, Nat2Z.inj_add, kmmFrame_length.
  simpl List.length. lia.
Qed.

Lemma frame_length : Z.of_nat (List.length frame) = 19 + n.
Proof.
  unfold frame, buildKmmFrame3. cbv zeta.
  rewrite !length_app, !Nat2Z.inj_add, twiBody_length. simpl List.length. lia.
Qed.

Lemma be16_split (v : Z) :
  be16 (z2b (Z.land (Z.shiftr v 8) 0xFF)) (z2b (Z.land v 0xFF)) = v mod 65536.
Proof.
  unfold be16. rewrite !b2z_z2b.
  change 0xFF with (Z.ones 8). rewrite !Z.land_ones by lia.
  rewrite Z.shiftr_div_pow2 by lia. change (2 ^ 8) with 256.
  rewrite !Z.mod_mod by lia.
  pose proof (Z.div_mod v 256 ltac:(lia)).
  pose proof (Z.mod_pos_bound v 256 ltac:(lia)).
  pose proof (Z.mod_pos_bound (v / 256) 256 ltac:(lia)).
  pose proof (Z.div_mod (v / 256) 256 ltac:(lia)).
  apply Z.mod_unique with (q := v / 256 / 256); lia.
Qed.

Lemma le16_split (v : Z) :
  le16 (z2b (Z.land v 0xFF)) (z2b (Z.land (Z.shiftr v 8) 0xFF)) = v mod 65536.
Proof. rewrite <- be16_split. unfold le16, be16. lia. Qed.

(** The two length fields hold their values modulo 65536, whatever the
    length of the body. *)
Lemma frame_length_fields_mod :
  be16 (at_ frame 1) (at_ frame 2) = (4 + (10 + n) + 2) mod 65536
  /\ be16 (at_ frame 8) (at_ frame 9) = (7 + n) mod 65536.
Proof.
  unfold frame, buildKmmFrame3, at_. cbv zeta.
  split.
  - cbn [app nth]. rewrite be16_split, twiBody_length. f_equal. lia.
  - change (twiBody kmmBody messageId responseKind)
      with ([x00; xff; xff; xff] ++ kmmFrame kmmBody messageId responseKind).
    unfold kmmFrame. cbv zeta. cbn [app nth]. rewrite be16_split. reflexivity.
Qed.

(** C3, as the code has it. For a KMM body of at most 65519 bytes the outer
    big-endian length field of the built frame is 4 + inner-KMM length + 2,
    which is the length of the frame minus 3, and the big-endian
    message-length field of the inner KMM is 7 + body length. Whatever the
    length of the body, the two fields hold these values modulo 65536. *)
Theorem frame_length_fields :
  (n <= 65519 ->
   be16 (at_ frame 1) (at_ frame 2)
     = 4 + Z.of_nat (List.length (kmmFrame kmmBody messageId responseKind)) + 2
   /\ be16 (at_ frame 1) (at_ frame 2) = Z.of_nat (List.length frame) - 3
   /\ be16 (at_ frame 8) (at_ frame 9) = 7 + n)
  /\ be16 (at_ frame 1) (at_ frame 2)
     = (4 + Z.of_nat (List.length (kmmFrame kmmBody messageId responseKind)) + 2)
       mod 65536
  /\ be16 (at_ frame 1) (at_ frame 2)
     = (Z.of_nat (List.length frame) - 3) mod 65536
  /\ be16 (at_ frame 8) (at_ frame 9) = (7 + n) mod 65536.
Proof.
  destruct frame_length_fields_mod as [Ho Hi].
  rewrite Ho, Hi, kmmFrame_length, frame_length.
  assert (0 <= n) by (unfold n; lia).
  split; [intros Hn; rewrite !Z.mod_small by lia; repeat split; lia|].
  repeat split; f_equal; lia.
Qed.

(** C4. The last two bytes of the built frame are the low byte, then the
    high byte, of the CRC-16 of the bytes from offset 3 up to the byte before
    them; those bytes are the control byte, the destination RSI and the inner
    KMM; and the two trailing bytes read little-endian give that CRC. *)
Theorem frame_crc_trailer :
  let len := List.length frame in
  let covered := firstn (len - 5) (skipn 3 frame) in
  let crc := P25.calculateCrc16 covered in
  covered = [x00; xff; xff; xff] ++ kmmFrame kmmBody messageId responseKind
  /\ frame = firstn 3 frame ++ covered ++ [at_ frame (len - 2); at_ frame (len - 1)]
  /\ at_ frame (len - 2) = z2b (Z.land crc 0xFF)
  /\ at_ frame (len - 1) = z2b (Z.land (Z.shiftr crc 8) 0xFF)
  /\ le16 (at_ frame (len - 2)) (at_ frame (len - 1)) = crc.
Proof.
  cbv zeta.
  set (body := twiBody kmmBody messageId responseKind).
  assert (Hf : frame =
    [ P25.TWI_KMM;
      z2b (Z.land (Z.shiftr (Z.of_nat (List.length body) + 2) 8) 0xFF);
      z2b (Z.land (Z.of_nat (List.length body) + 2) 0xFF) ]
    ++ body
    ++ [ z2b (Z.land (P25.calculateCrc16 body) 0xFF);
         z2b (Z.land (Z.shiftr (P25.calculateCrc16 body) 8) 0xFF) ])
    by reflexivity.
  assert (Hlen : List.length frame = (3 + List.length body + 2)%nat).
  { rewrite Hf, !length_app. simpl. lia. }
  assert (Hcov : firstn (List.length frame - 5) (skipn 3 frame) = body).
  { rewrite Hlen, Hf. cbn [app skipn].
    replace (3 + List.length body + 2 - 5)%nat with (List.length body + 0)%nat by lia.
    rewrite firstn_app_2. cbn [firstn]. apply app_nil_r. }
  assert (Hlo : at_ frame (List.length frame - 2) = z2b (Z.land (P25.calculateCrc16 body) 0xFF)).
  { unfold at_. rewrite Hlen, Hf.
    replace (3 + List.length body + 2 - 2)%nat with (3 + (List.length body + 0))%nat by lia.
    cbn [app nth Nat.add]. rewrite app_nth2_plus. reflexivity. }
  assert (Hhi : at_ frame (List.length frame - 1) =
                z2b (Z.land (Z.shiftr (P25.calculateCrc16 body) 8) 0xFF)).
  { unfold at_. rewrite Hlen, Hf.
    replace (3 + List.length body + 2 - 1)%nat with (3 + (List.length body + 1))%nat by lia.
    cbn [app nth Nat.add]. rewrite app_nth2_plus. reflexivity. }
  rewrite Hcov, Hlo, Hhi.
  split; [reflexivity|].
  split; [rewrite Hf at 1; rewrite Hf; reflexivity|].
  split; [reflexivity|]. split; [reflexivity|].
  rewrite le16_split. apply Z.mod_small. apply calculateCrc16_range.
Qed.

End Frame.

(** C3, as the claim states it, fails for a body of 65520 bytes: the frame
    is 65539 bytes long and its outer length field reads 0. *)
Lemma frame_length_field_wraps :
  let frame :=
    KFDProtocol.buildKmmFrame3 (repeat x00 (Z.to_nat 65520)) x04 xc0 in
  Z.of_nat (List.length frame) = 65539
  /\ KFDProtocol.be16 (at_ frame 1) (at_ frame 2) = 0
  /\ KFDProtocol.be16 (at_ frame 1) (at_ frame 2)
       <> Z.of_nat (List.length frame) - 3.
Proof.
  cbv zeta.
  pose proof (frame_length (repeat x00 (Z.to_nat 65520)) x04 xc0) as Hl.
  pose proof (frame_length_fields_mod (repeat x00 (Z.to_nat 65520)) x04 xc0)
    as [Ho _].
  rewrite repeat_length, Z2Nat.id in Hl, Ho by lia.
  rewrite Hl, Ho. repeat split; vm_compute; congruence.
Qed.

Lemma frame_length_fields_witness :
  let frame := KFDProtocol.buildKmmFrame3 [x02] x00 xc0 in
  KFDProtocol.be16 (at_ frame 1) (at_ frame 2)
    = 4 + Z.of_nat (List.length (KFDProtocol.kmmFrame [x02] x00 xc0)) + 2
  /\ KFDProtocol.be16 (at_ frame 1) (at_ frame 2)
       = Z.of_nat (List.length frame) - 3
  /\ KFDProtocol.be16 (at_ frame 8) (at_ frame 9) = 7 + 1.
Proof.
  apply (proj1 (frame_length_fields [x02] x00 xc0)). simpl. lia.
Defined.

(** ** The session handshake *)

Section Session.

Import KFDProtocol.

Lemma advance_0 st : advance 0 [] st = st.
Proof. destruct st. unfold advance. simpl. rewrite app_nil_r. reflexivity. Qed.

Lemma advance_advance k1 cs1 k2 cs2 st :
  advance k2 cs2 (advance k1 cs1 st) = advance (k2 + k1) (cs1 ++ cs2) st.
Proof.
  unfold advance. simpl. rewrite skipn_skipn, app_assoc. reflexivity.
Qed.

Lemma call_advance c st : call c st = (tt, advance 0 [c] st).
Proof. reflexivity. Qed.

Lemma hal_receiveByte_advance t st :
  hal_receiveByte t st = (answer 0 st, advance 1 [receiveByte t] st).
Proof.
  unfold hal_receiveByte, answer, advance. destruct (rx st); reflexivity.
Qed.

Lemma answer_advance n k cs st : answer n (advance k cs st) = answer (k + n) st.
Proof.
  unfold answer, advance. simpl.
  generalize (rx st). induction k as [|k IH]; intros l; simpl.
  - reflexivity.
  - destruct l as [|x l]; simpl; [destruct n; reflexivity | apply IH].
Qed.

Lemma ready_mode_only (r : option byte) (d : DeviceType) :
  ready_mode r = Some d <->
  (r = Some xd0 /\ d = DEVICE_MR) \/ (r = Some xd1 /\ d = DEVICE_KVL).
Proof.
  unfold ready_mode. destruct r as [b|].
  - destruct (beq b xd0) eqn:E0; [apply beq_eq in E0; subst b|].
    + split; [intros H; inversion H; auto|].
      intros [[_ ->]|[H _]]; [reflexivity | discriminate H].
    + destruct (beq b xd1) eqn:E1; [apply beq_eq in E1; subst b|].
      * split; [intros H; inversion H; auto|].
        intros [[H _]|[_ ->]]; [discriminate H | reflexivity].
      * split; [discriminate|].
        intros [[H _]|[H _]]; inversion H; subst b; discriminate.
  - split; [discriminate|]. intros [[H _]|[H _]]; discriminate.
Qed.

(** One round of the loop: a ready response ends it, anything else logs the
    500 ms wait and leaves one attempt fewer. *)
Lemma beginSession_attempts_step n st :
  beginSession_attempts (S n) st =
  match ready_mode (answer 0 st) with
  | Some d => (Some d, advance 1 (attempt ++ post_ready st) st)
  | None => beginSession_attempts n (advance 1 (attempt ++ [delay 500]) st)
  end.
Proof.
  cbn [beginSession_attempts]. unfold bind at 1. rewrite call_advance.
  unfold bind at 1. rewrite hal_receiveByte_advance.
  rewrite answer_advance. cbn [Nat.add].
  unfold ready_mode, P25.TWI_READY_MODE_MR, P25.TWI_READY_MODE_KVL.
  assert (Hpost : forall (d : DeviceType) st0,
    (postReadyDelay ;; ret (Some d)) st0 = (Some d, advance 0 (post_ready st0) st0)).
  { intros d st0. unfold postReadyDelay, bind, get, ret, post_ready.
    destruct (0 <? _postReadyDelayUs st0).
    - reflexivity.
    - rewrite advance_0. reflexivity. }
  assert (Hretry : forall st0,
    (call (delay 500) ;; beginSession_attempts n) st0 =
    beginSession_attempts n (advance 0 [delay 500] st0)).
  { intros st0. reflexivity. }
  destruct (answer 0 st) as [b|].
  - destruct (beq b xd0).
    + rewrite Hpost, !advance_advance. reflexivity.
    + destruct (beq b xd1).
      * rewrite Hpost, !advance_advance. reflexivity.
      * rewrite Hretry, !advance_advance. reflexivity.
  - rewrite Hretry, !advance_advance. reflexivity.
Qed.

Lemma beginSession_eq st :
  _initialized st = true -> beginSession st = beginSession_attempts 3 st.
Proof. intros H. unfold beginSession, bind, get. rewrite H. reflexivity. Qed.

Lemma keyload_entry_answer n st : answer n (keyload_entry st) = answer n st.
Proof. reflexivity. Qed.

(** [keyload] when the handshake fails: the flag is cleared and nothing
    else is done. *)
Lemma keyload_no_session k st st2 :
  _initialized st = true -> _operationInProgress st = false ->
  beginSession (keyload_entry st) = (None, st2) ->
  keyload k st =
  (Result_ false "Failed to connect to radio",
   snd (set_operationInProgress false st2)).
Proof.
  intros Hi Hb Hs. unfold keyload.
  unfold bind at 1. unfold get at 1. rewrite Hi. cbn [negb].
  unfold bind at 1. unfold get at 1. rewrite Hb.
  unfold bind at 1. cbn [set_operationInProgress].
  unfold bind at 1. cbn [set_abortRequested].
  unfold bind at 1.
  change (beginSession _) with (beginSession (keyload_entry st)).
  rewrite Hs. reflexivity.
Qed.

(** C6. The handshake accepts only 0xD0 (mobile radio) and 0xD1 (KVL) as
    ready responses. An attempt answered by one of them succeeds at once
    with that peer mode; an attempt answered by another byte or by a timeout
    is followed by a wait of 500 ms and by the next key signature and ready
    request; after three attempts without a ready response [beginSession]
    fails, and [keyload] then fails having made no other call on the line:
    no frame is sent and no KMM is awaited. *)
Theorem beginSession_handshake (k : P25.KeyItem) (st : State) :
  _initialized st = true ->
  let retry := attempt ++ [delay 500] in
  (forall r d,
     ready_mode r = Some d <->
     (r = Some xd0 /\ d = DEVICE_MR) \/ (r = Some xd1 /\ d = DEVICE_KVL))
  /\ match ready_mode (answer 0 st),
           ready_mode (answer 1 st),
           ready_mode (answer 2 st) with
     | Some d, _, _ =>
         beginSession st = (Some d, advance 1 (attempt ++ post_ready st) st)
     | None, Some d, _ =>
         beginSession st =
         (Some d, advance 2 (retry ++ attempt ++ post_ready st) st)
     | None, None, Some d =>
         beginSession st =
         (Some d, advance 3 (retry ++ retry ++ attempt ++ post_ready st) st)
     | None, None, None =>
         beginSession st = (None, advance 3 (retry ++ retry ++ retry) st)
         /\ (_operationInProgress st = false ->
             success (fst (keyload k st)) = false
             /\ calls (snd (keyload k st))
                = calls st ++ retry ++ retry ++ retry
             /\ frames_sent (retry ++ retry ++ retry) = [])
     end.
Proof.
  intros Hini retry. split; [apply ready_mode_only|].
  assert (Hgen : forall st0, _initialized st0 = true ->
    beginSession st0 =
    match ready_mode (answer 0 st0), ready_mode (answer 1 st0),
          ready_mode (answer 2 st0) with
    | Some d, _, _ => (Some d, advance 1 (attempt ++ post_ready st0) st0)
    | None, Some d, _ =>
        (Some d, advance 2 (retry ++ attempt ++ post_ready st0) st0)
    | None, None, Some d =>
        (Some d, advance 3 (retry ++ retry ++ attempt ++ post_ready st0) st0)
    | None, None, None => (None, advance 3 (retry ++ retry ++ retry) st0)
    end).
  { intros st0 H0. rewrite (beginSession_eq st0 H0).
    rewrite beginSession_attempts_step.
    destruct (ready_mode (answer 0 st0)) as [d|]; [reflexivity|].
    rewrite beginSession_attempts_step, answer_advance. cbn [Nat.add].
    destruct (ready_mode (answer 1 st0)) as [d|].
    { rewrite advance_advance. reflexivity. }
    rewrite beginSession_attempts_step, !answer_advance, !advance_advance.
    cbn [Nat.add].
    destruct (ready_mode (answer 2 st0)) as [d|].
    { reflexivity. }
    reflexivity. }
  pose proof (Hgen st Hini) as H.
  destruct (ready_mode (answer 0 st)) as [d|] eqn:E0; [exact H|].
  destruct (ready_mode (answer 1 st)) as [d|] eqn:E1; [exact H|].
  destruct (ready_mode (answer 2 st)) as [d|] eqn:E2; [exact H|].
  split; [exact H|]. intros Hbusy.
  assert (He : beginSession (keyload_entry st) =
               (None, advance 3 (retry ++ retry ++ retry) (keyload_entry st))).
  { rewrite (Hgen (keyload_entry st) Hini), !keyload_entry_answer.
    rewrite E0, E1, E2. reflexivity. }
  rewrite (keyload_no_session k st _ Hini Hbusy He).
  repeat split; reflexivity.
Qed.

(** The peer answers 0x55, then nothing, then 0xD1: the third attempt
    succeeds in KVL mode. *)
Lemma beginSession_handshake_witness :
  beginSession (initial [Some x55; None; Some xd1]) =
  (Some DEVICE_KVL,
   advance 3 ((attempt ++ [delay 500]) ++ (attempt ++ [delay 500])
              ++ attempt ++ []) (initial [Some x55; None; Some xd1])).
Proof.
  exact (proj2 (beginSession_handshake P25.KeyItem_default
                  (initial [Some x55; None; Some xd1]) eq_refl)).
Defined.

End Session.

(** ** Receiving a KMM *)

Section Receive.

Import KFDProtocol.

Lemma answer0_some st b :
  answer 0 st = Some b -> rx st = Some b :: skipn 1 (rx st).
Proof.
  unfold answer. destruct (rx st) as [|x l]; simpl; [discriminate|].
  intros ->. reflexivity.
Qed.

Lemma answer0_none st c :
  answer 0 st = None -> leading_bytes c (rx st) = [].
Proof.
  unfold answer. destruct (rx st) as [|[b|] l]; simpl; destruct c;
    try reflexivity; discriminate.
Qed.

Lemma leading_bytes_length c script :
  (List.length (leading_bytes c script) <= c)%nat.
Proof.
  revert script. induction c as [|c IH]; intros [|[b|] l]; simpl; try lia.
  specialize (IH l). lia.
Qed.

Lemma advance_step k cs c st :
  advance k cs (advance 1 [c] st) = advance (S k) (c :: cs) st.
Proof. rewrite advance_advance, Nat.add_1_r. reflexivity. Qed.

(** The raw dump: with enough fuel the loop returns the opcode and the
    bytes that arrive before the first timeout, stopping of itself once it
    holds 101 bytes; it calls [receiveByte] with 500 ms once per byte
    appended and once more for the timeout that ends it. *)
Lemma dump_raw_spec fuel : forall raw st c,
  c = (101 - List.length raw)%nat -> (1 <= c)%nat -> (c <= fuel)%nat ->
  let trailing := leading_bytes c (rx st) in
  let n := Nat.min c (S (List.length trailing)) in
  dump_raw fuel raw st =
  (raw ++ trailing, advance n (repeat (receiveByte 500) n) st).
Proof.
  induction fuel as [|fuel IH]; intros raw st c Hc H1 Hf; [lia|].
  cbv zeta. cbn [dump_raw]. unfold bind at 1. rewrite hal_receiveByte_advance.
  destruct (answer 0 st) as [b|] eqn:Ea.
  - destruct c as [|c']; [lia|].
    destruct (rx st) as [|x l] eqn:Erx;
      unfold answer in Ea; rewrite Erx in Ea; [discriminate|].
    cbn [nth] in Ea. subst x. cbn [leading_bytes List.length].
    rewrite length_app. cbn [List.length].
    destruct (100 <? List.length raw + 1)%nat eqn:Hbrk.
    + apply Nat.ltb_lt in Hbrk. assert (c' = 0)%nat by lia. subst c'.
      reflexivity.
    + apply Nat.ltb_ge in Hbrk.
      specialize (IH (raw ++ [b]) (advance 1 [receiveByte 500] st) c').
      cbv zeta in IH. rewrite IH.
      * cbn [advance rx]. rewrite Erx. cbn [skipn].
        change (mkState (_initialized st) (_debug st) (_operationInProgress st)
                  (_abortRequested st) (_postReadyDelayUs st) (hal_debug st)
                  (skipn 1 (rx st)) (line st) (calls st ++ [receiveByte 500]))
          with (advance 1 [receiveByte 500] st).
        rewrite advance_step, <- app_assoc. reflexivity.
      * rewrite length_app. cbn [List.length]. lia.
      * lia.
      * lia.
  - rewrite (answer0_none st c Ea). cbn [List.length].
    replace (Nat.min c 1) with 1%nat by lia.
    unfold ret. rewrite app_nil_r. reflexivity.
Qed.

Lemma drain_spec n t : forall st,
  exists k, (k <= n)%nat /\
    drain n t st = (tt, advance k (repeat (receiveByte t) k) st).
Proof.
  induction n as [|n IH]; intros st.
  - exists 0%nat. split; [lia|]. cbn. rewrite advance_0. reflexivity.
  - cbn [drain]. unfold bind at 1. rewrite hal_receiveByte_advance.
    destruct (answer 0 st) as [b|].
    + destruct (IH (advance 1 [receiveByte t] st)) as [k [Hk E]].
      exists (S k). split; [lia|]. rewrite E, advance_step. reflexivity.
    + exists 1%nat. split; [lia|]. reflexivity.
Qed.

Lemma read_body_spec n t : forall acc st bs,
  List.length bs = n -> firstn n (rx st) = arriving bs ->
  read_body n t acc st =
  (Some (acc ++ bs), advance n (repeat (receiveByte t) n) st).
Proof.
  induction n as [|n IH]; intros acc st bs Hl Hrx.
  - destruct bs; [|discriminate]. cbn. rewrite advance_0, app_nil_r. reflexivity.
  - destruct bs as [|b bs]; [discriminate|].
    cbn [read_body]. unfold bind at 1. rewrite hal_receiveByte_advance.
    destruct (rx st) as [|x l] eqn:Erx; [discriminate|].
    cbn [firstn arriving map] in Hrx. injection Hrx as Hx Hl'.
    unfold answer at 1. rewrite Erx. cbn [nth]. subst x.
    rewrite (IH (acc ++ [b]) (advance 1 [receiveByte t] st) bs).
    + rewrite advance_step, <- app_assoc. reflexivity.
    + simpl in Hl. lia.
    + cbn [advance rx]. rewrite Erx. exact Hl'.
Qed.

Lemma receiveKmm_opcode t st opcode :
  _initialized st = true -> answer 0 st = Some opcode ->
  receiveKmm t st =
  (if beq opcode xc3 then
     raw <- dump_raw 101 [opcode] ;; ret (Some raw)
   else if negb (beq opcode P25.TWI_KMM) then
     dbg <- get _debug ;;
     (if dbg then drain 10 100 else ret tt) ;; ret None
   else
     rh <- hal_receiveByte t ;;
     match rh with
     | None => ret None
     | Some lenHi =>
         rl <- hal_receiveByte t ;;
         match rl with
         | None => ret None
         | Some lenLo =>
             let len :=
               (Z.lor (Z.shiftl (b2z lenHi) 8) (b2z lenLo)) mod 65536 in
             if (len <? 6) || (512 <? len) then drain 20 100 ;; ret None
             else
               rb <- read_body (Z.to_nat len) t [] ;;
               match rb with
               | None => ret None
               | Some body =>
                   if 6 <? len then
                     ret (Some (firstn (List.length body - 4 - 2)
                                       (skipn 4 body)))
                   else ret (Some body)
               end
         end
     end) (advance 1 [receiveByte t] st).
Proof.
  intros Hi Ha. unfold receiveKmm.
  unfold bind at 1. unfold get at 1. rewrite Hi. cbn [negb].
  unfold bind at 1. rewrite hal_receiveByte_advance, Ha. reflexivity.
Qed.

(** C9, as the code has it. When the first byte received is not 0xC2:
    for 0xC3 the method collects the bytes that follow, up to 100 of them,
    waiting 500 ms for each, and returns [true] with the opcode and those
    bytes as its result; for any other opcode it returns [false] without a
    result, having read at most 10 more bytes with a timeout of 100 ms each,
    and none when [_debug] is off. *)
Theorem receiveKmm_unexpected_opcode (t : Z) (st : State) (opcode : byte) :
  _initialized st = true -> answer 0 st = Some opcode -> opcode <> xc2 ->
  (opcode = xc3 ->
     let trailing := leading_bytes 100 (skipn 1 (rx st)) in
     let n := Nat.min 100 (S (List.length trailing)) in
     (List.length trailing <= 100)%nat
     /\ receiveKmm t st =
        (Some (opcode :: trailing),
         advance (S n) (receiveByte t :: repeat (receiveByte 500) n) st))
  /\ (opcode <> xc3 ->
      exists n, (n <= 10)%nat /\ (_debug st = false -> n = 0%nat)
        /\ receiveKmm t st =
           (None,
            advance (S n) (receiveByte t :: repeat (receiveByte 100) n) st)).
Proof.
  intros Hi Ha Hne. rewrite (receiveKmm_opcode t st opcode Hi Ha). split.
  - intros ->. cbv zeta. split; [apply leading_bytes_length|].
    cbn [beq Byte.eqb]. change (beq xc3 xc3) with true. cbv iota.
    unfold bind at 1.
    pose proof (dump_raw_spec 101 [xc3] (advance 1 [receiveByte t] st) 100
                  eq_refl ltac:(lia) ltac:(lia)) as E.
    cbv zeta in E. rewrite E. cbn [advance rx].
    change (mkState (_initialized st) (_debug st) (_operationInProgress st)
              (_abortRequested st) (_postReadyDelayUs st) (hal_debug st)
              (skipn 1 (rx st)) (line st) (calls st ++ [receiveByte t]))
      with (advance 1 [receiveByte t] st).
    rewrite advance_step. reflexivity.
  - intros Hn3.
    assert (E3 : beq opcode xc3 = false).
    { destruct (beq opcode xc3) eqn:E; [apply beq_eq in E; contradiction | reflexivity]. }
    assert (E2 : beq opcode P25.TWI_KMM = false).
    { destruct (beq opcode P25.TWI_KMM) eqn:E; [apply beq_eq in E; contradiction | reflexivity]. }
    rewrite E3, E2. cbn [negb].
    unfold bind at 1. unfold get at 1.
    change (_debug (advance 1 [receiveByte t] st)) with (_debug st).
    destruct (_debug st).
    + destruct (drain_spec 10 100 (advance 1 [receiveByte t] st)) as [k [Hk E]].
      exists k. split; [exact Hk|]. split; [discriminate|].
      unfold bind at 1. rewrite E, advance_step. reflexivity.
    + exists 0%nat. split; [lia|]. split; [reflexivity|]. reflexivity.
Qed.

(** The dump of the debug notes: 0xC3 followed by seven bytes, then
    silence. *)
Lemma receiveKmm_unexpected_opcode_witness :
  receiveKmm 10000
    (initial (arriving [xc3; x01; x80; x00; x01; x84; x83; xff])) =
  (Some [xc3; x01; x80; x00; x01; x84; x83; xff],
   advance 9 (receiveByte 10000 :: repeat (receiveByte 500) 8)
     (initial (arriving [xc3; x01; x80; x00; x01; x84; x83; xff]))).
Proof.
  exact (proj2 (proj1 (receiveKmm_unexpected_opcode 10000
           (initial (arriving [xc3; x01; x80; x00; x01; x84; x83; xff])) xc3
           eq_refl eq_refl ltac:(discriminate)) eq_refl)).
Defined.

(** C9, as the claim states it, fails on opcode 0xC3: the method reports
    success and hands the raw bytes over as the KMM; and on opcode 0x55 it
    reads with a timeout of 100 ms, at most ten times, and surfaces
    nothing. *)
Lemma receiveKmm_c3_succeeds :
  fst (receiveKmm 10000
         (initial (arriving [xc3; x01; x80; x00; x01; x84; x83; xff])))
    = Some [xc3; x01; x80; x00; x01; x84; x83; xff]
  /\ fst (receiveKmm 10000
            (initial (arriving [xc3; x01; x80; x00; x01; x84; x83; xff])))
       <> None
  /\ receiveKmm 10000 (initial (arriving (x55 :: repeat x00 100))) =
     (None,
      advance 11 (receiveByte 10000 :: repeat (receiveByte 100) 10)
        (initial (arriving (x55 :: repeat x00 100)))).
Proof.
  split; [vm_compute; reflexivity|].
  split; [vm_compute; discriminate|].
  vm_compute; reflexivity.
Qed.

Lemma len16 (hi lo : byte) :
  (Z.lor (Z.shiftl (b2z hi) 8) (b2z lo)) mod 65536 = be16 hi lo.
Proof.
  unfold be16. pose proof (b2z_range hi) as Hh. pose proof (b2z_range lo) as Hl.
  assert (Hland : Z.land (Z.shiftl (b2z hi) 8) (b2z lo) = 0).
  { apply Z.bits_inj'. intros i Hi. rewrite Z.land_spec, Z.bits_0.
    destruct (Z.ltb_spec i 8).
    - rewrite Z.shiftl_spec_low by lia. reflexivity.
    - rewrite <- (Z.mod_small (b2z lo) (2 ^ 8)) by (change (2 ^ 8) with 256; lia).
      rewrite Z.mod_pow2_bits_high by lia. apply andb_false_r. }
  pose proof (Z.add_lor_land (Z.shiftl (b2z hi) 8) (b2z lo)) as Hadd.
  rewrite Hland, Z.add_0_r in Hadd. rewrite Hadd.
  rewrite Z.shiftl_mul_pow2 by lia. change (2 ^ 8) with 256.
  apply Z.mod_small. lia.
Qed.

(** A whole frame arrives: opcode 0xC2, a length between 6 and 512, and
    that many bytes. The method returns [true]; past length 6 its result is
    the body without its first four and its last two bytes, at length 6
    it is the whole body. None of the bytes is examined. *)
Lemma receiveKmm_frame t st lenHi lenLo body rest :
  _initialized st = true ->
  rx st = arriving (xc2 :: lenHi :: lenLo :: body) ++ rest ->
  be16 lenHi lenLo = Z.of_nat (List.length body) ->
  6 <= Z.of_nat (List.length body) <= 512 ->
  receiveKmm t st =
  (Some (if 6 <? Z.of_nat (List.length body)
         then firstn (List.length body - 4 - 2) (skipn 4 body)
         else body),
   advance (3 + List.length body)
     (repeat (receiveByte t) (3 + List.length body)) st).
Proof.
  intros Hi Hrx Hlen Hrange.
  assert (Ha : answer 0 st = Some xc2) by (unfold answer; rewrite Hrx; reflexivity).
  rewrite (receiveKmm_opcode t st xc2 Hi Ha).
  change (beq xc2 xc3) with false. change (beq xc2 P25.TWI_KMM) with true.
  cbn [negb]. cbv iota.
  unfold bind at 1. rewrite hal_receiveByte_advance, answer_advance.
  assert (Hh : answer (1 + 0) st = Some lenHi)
    by (unfold answer; rewrite Hrx; reflexivity).
  rewrite Hh. rewrite advance_step.
  unfold bind at 1. rewrite hal_receiveByte_advance, answer_advance.
  assert (Hl : answer (2 + 0) st = Some lenLo)
    by (unfold answer; rewrite Hrx; reflexivity).
  rewrite Hl. rewrite advance_advance. cbn [Nat.add app].
  cbv zeta. rewrite len16, Hlen.
  replace ((Z.of_nat (List.length body) <? 6) || (512 <? Z.of_nat (List.length body)))
    with false by (symmetry; apply orb_false_iff; split; apply Z.ltb_ge; lia).
  rewrite Nat2Z.id.
  unfold bind at 1.
  rewrite (read_body_spec (List.length body) t []
             (advance 3 [receiveByte t; receiveByte t; receiveByte t] st)
             body eq_refl).
  - rewrite advance_advance.
    replace (List.length body + 3)%nat with (3 + List.length body)%nat by lia.
    cbn [app]. destruct (6 <? Z.of_nat (List.length body)); reflexivity.
  - cbn [advance rx]. rewrite Hrx. cbn [arriving map app skipn].
    rewrite firstn_app, firstn_all2 by (rewrite length_map; lia).
    rewrite length_map, Nat.sub_diag. cbn [firstn]. apply app_nil_r.
Qed.

(** C10, as the code has it. Two inbound frames with opcode 0xC2, the same
    length field between 7 and 512, and bodies that agree except in their
    last two bytes are both accepted, with the same inner KMM: the body
    without its first four and its last two bytes. The CRC bytes are never
    looked at. At length 6 both frames are accepted too, and each gives its
    whole body, last two bytes included. *)
Theorem receiveKmm_ignores_crc
    (t : Z) (st1 st2 : State) (lenHi lenLo : byte)
    (body1 body2 : list byte) (rest1 rest2 : list (option byte)) :
  _initialized st1 = true -> _initialized st2 = true ->
  rx st1 = arriving (xc2 :: lenHi :: lenLo :: body1) ++ rest1 ->
  rx st2 = arriving (xc2 :: lenHi :: lenLo :: body2) ++ rest2 ->
  be16 lenHi lenLo = Z.of_nat (List.length body1) ->
  List.length body2 = List.length body1 ->
  6 <= Z.of_nat (List.length body1) <= 512 ->
  firstn (List.length body1 - 2) body1 = firstn (List.length body2 - 2) body2 ->
  (7 <= Z.of_nat (List.length body1) ->
   exists kmm,
     fst (receiveKmm t st1) = Some kmm
     /\ fst (receiveKmm t st2) = Some kmm
     /\ kmm = firstn (List.length body1 - 6) (skipn 4 body1))
  /\ (Z.of_nat (List.length body1) = 6 ->
      fst (receiveKmm t st1) = Some body1
      /\ fst (receiveKmm t st2) = Some body2).
Proof.
  intros H1 H2 Hrx1 Hrx2 Hlen Hl2 Hrange Hsame.
  rewrite (receiveKmm_frame t st1 lenHi lenLo body1 rest1 H1 Hrx1 Hlen)
    by lia.
  assert (Hlen2 : be16 lenHi lenLo = Z.of_nat (List.length body2))
    by (rewrite Hl2; exact Hlen).
  rewrite (receiveKmm_frame t st2 lenHi lenLo body2 rest2 H2 Hrx2 Hlen2)
    by (rewrite Hl2; lia).
  rewrite Hl2. split.
  - intros H7.
    replace (6 <? Z.of_nat (List.length body1)) with true
      by (symmetry; apply Z.ltb_lt; lia).
    cbn [fst].
    replace (List.length body1 - 4 - 2)%nat with (List.length body1 - 6)%nat
      by lia.
    exists (firstn (List.length body1 - 6) (skipn 4 body1)).
    split; [reflexivity|]. split; [|reflexivity].
    rewrite !firstn_skipn_comm.
    replace (4 + (List.length body1 - 6))%nat with (List.length body1 - 2)%nat
      by lia.
    rewrite Hl2 in Hsame. rewrite Hsame. reflexivity.
  - intros H6.
    replace (6 <? Z.of_nat (List.length body1)) with false
      by (symmetry; apply Z.ltb_ge; lia).
    cbn [fst]. split; reflexivity.
Qed.

(** A rekey acknowledgment whose two CRC bytes are zeroed is received like
    the one that carries other bytes there. *)
Lemma receiveKmm_ignores_crc_witness :
  exists kmm,
    fst (receiveKmm 10000 (initial (arriving
           [xc2; x00; x09; x00; xff; xff; xff; x07; x00; x04; x12; x34])))
      = Some kmm
    /\ fst (receiveKmm 10000 (initial (arriving
              [xc2; x00; x09; x00; xff; xff; xff; x07; x00; x04; x00; x00])))
         = Some kmm
    /\ kmm = [x07; x00; x04].
Proof.
  refine (proj1 (receiveKmm_ignores_crc 10000
           (initial (arriving
              [xc2; x00; x09; x00; xff; xff; xff; x07; x00; x04; x12; x34]))
           (initial (arriving
              [xc2; x00; x09; x00; xff; xff; xff; x07; x00; x04; x00; x00]))
           x00 x09
           [x00; xff; xff; xff; x07; x00; x04; x12; x34]
           [x00; xff; xff; xff; x07; x00; x04; x00; x00]
           [] [] _ _ _ _ _ _ _ _) _); try reflexivity; simpl; lia.
Defined.

(** C10, as the claim states it, fails at length 6: the whole body is
    returned, its last two bytes included, so two frames that differ only
    there are both accepted but give different results. *)
Lemma receiveKmm_length6_returns_crc :
  fst (receiveKmm 10000 (initial (arriving
         [xc2; x00; x06; x00; xff; xff; xff; x12; x34])))
    = Some [x00; xff; xff; xff; x12; x34]
  /\ fst (receiveKmm 10000 (initial (arriving
            [xc2; x00; x06; x00; xff; xff; xff; x00; x00])))
       = Some [x00; xff; xff; xff; x00; x00]
  /\ fst (receiveKmm 10000 (initial (arriving
            [xc2; x00; x06; x00; xff; xff; xff; x12; x34])))
     <> fst (receiveKmm 10000 (initial (arriving
               [xc2; x00; x06; x00; xff; xff; xff; x00; x00]))).
Proof.
  split; [vm_compute; reflexivity|].
  split; [vm_compute; reflexivity|].
  vm_compute. discriminate.
Qed.

End Receive.

(** ** The operations *)

Section Operations.

Import KFDProtocol.

Lemma frames_sent_app l1 l2 :
  frames_sent (l1 ++ l2) = frames_sent l1 ++ frames_sent l2.
Proof.
  induction l1 as [|c l1 IH]; [reflexivity|].
  destruct c; cbn [app frames_sent]; rewrite IH; reflexivity.
Qed.

Lemma silent_ret {A} (a : A) : silent (ret a).
Proof. intros st. reflexivity. Qed.

Lemma silent_get {A} (f : State -> A) : silent (get f).
Proof. intros st. reflexivity. Qed.

Lemma silent_bind {A B} (m : M A) (k : A -> M B) :
  silent m -> (forall a, silent (k a)) -> silent (bind m k).
Proof.
  intros Hm Hk st. unfold bind. specialize (Hm st).
  destruct (m st) as [a st']. rewrite (Hk a st'). exact Hm.
Qed.

Lemma silent_call c : frames_sent [c] = [] -> silent (call c).
Proof.
  intros Hc st. cbn [call snd calls]. rewrite frames_sent_app, Hc.
  apply app_nil_r.
Qed.

Lemma silent_hal_receiveByte t : silent (hal_receiveByte t).
Proof.
  intros st. cbn [hal_receiveByte snd calls]. rewrite frames_sent_app.
  apply app_nil_r.
Qed.

Lemma silent_enableDebug v : silent (enableDebug v).
Proof. intros st. reflexivity. Qed.

Lemma silent_set_operationInProgress v : silent (set_operationInProgress v).
Proof. intros st. reflexivity. Qed.

Create HintDb silent.
#[local] Hint Resolve silent_ret silent_get silent_hal_receiveByte
  silent_enableDebug silent_set_operationInProgress : silent.

Ltac silent_step :=
  first
    [ apply silent_bind; [|intros]
    | apply silent_call; reflexivity
    | solve [auto with silent]
    | match goal with
      | |- silent (if ?b then _ else _) => destruct b
      | |- silent (match ?x with Some _ => _ | None => _ end) => destruct x
      end ].

Lemma silent_beginSession_attempts n : silent (beginSession_attempts n).
Proof.
  induction n as [|n IH]; cbn [beginSession_attempts]; [apply silent_ret|].
  unfold postReadyDelay. repeat silent_step; exact IH.
Qed.

Lemma silent_beginSession : silent beginSession.
Proof.
  unfold beginSession. pose proof (silent_beginSession_attempts 3).
  repeat silent_step; assumption.
Qed.

Lemma silent_endSession : silent endSession.
Proof. unfold endSession. repeat silent_step. Qed.

Lemma silent_dump_raw fuel : forall raw, silent (dump_raw fuel raw).
Proof.
  induction fuel as [|fuel IH]; intros raw; cbn [dump_raw];
    repeat silent_step; apply IH.
Qed.

Lemma silent_drain n t : silent (drain n t).
Proof.
  induction n as [|n IH]; cbn [drain]; repeat silent_step; exact IH.
Qed.

Lemma silent_read_body n t : forall acc, silent (read_body n t acc).
Proof.
  induction n as [|n IH]; intros acc; cbn [read_body];
    repeat silent_step; apply IH.
Qed.

Lemma silent_receiveKmm t : silent (receiveKmm t).
Proof.
  unfold receiveKmm.
  repeat first
    [ apply silent_dump_raw | apply silent_drain | apply silent_read_body
    | silent_step ].
Qed.

(** [keyload] once the handshake has succeeded: the frame is sent, the
    response awaited, the session closed, and the response classified. *)
Lemma keyload_session k st d st2 :
  _initialized st = true -> _operationInProgress st = false ->
  beginSession (keyload_entry st) = (Some d, st2) ->
  keyload k st =
  (match fst (receiveKmm 10000 (keyload_sent k st2)) with
   | None => Result_ false "No response from radio after keyload"
   | Some response => classify response
   end,
   snd (set_operationInProgress false
     (snd (endSession (snd (receiveKmm 10000 (keyload_sent k st2))))))).
Proof.
  intros Hi Hb Hs. unfold keyload.
  unfold bind at 1. unfold get at 1. rewrite Hi. cbn [negb].
  unfold bind at 1. unfold get at 1. rewrite Hb.
  unfold bind at 1. cbn [set_operationInProgress].
  unfold bind at 1. cbn [set_abortRequested].
  unfold bind at 1.
  change (beginSession _) with (beginSession (keyload_entry st)).
  rewrite Hs. cbv zeta.
  unfold bind at 1. unfold bind at 1. unfold bind at 1. unfold bind at 1.
  cbn [enableDebug call].
  change (receiveKmm 10000 _) with (receiveKmm 10000 (keyload_sent k st2)) at 1.
  destruct (receiveKmm 10000 (keyload_sent k st2)) as [[response|] st3];
    cbn [fst snd]; unfold bind;
    destruct (endSession st3) as [u st4]; reflexivity.
Qed.

Lemma keyload_not_initialized k st :
  _initialized st = false -> keyload k st = (Result_ false "Not initialized", st).
Proof.
  intros Hi. unfold keyload.
  unfold bind at 1. unfold get at 1. rewrite Hi. reflexivity.
Qed.

Lemma keyload_busy k st :
  _initialized st = true -> _operationInProgress st = true ->
  keyload k st = (Result_ false "Operation in progress", st).
Proof.
  intros Hi Hb. unfold keyload.
  unfold bind at 1. unfold get at 1. rewrite Hi. cbn [negb].
  unfold bind at 1. unfold get at 1. rewrite Hb. reflexivity.
Qed.

Lemma classify_success response :
  success (classify response) = true <->
  hd_error response = Some P25.MSG_REKEY_ACK.
Proof.
  unfold classify. destruct response as [|r0 rest]; cbn [hd_error].
  - split; discriminate.
  - destruct (beq r0 P25.MSG_REKEY_ACK) eqn:E7.
    + apply beq_eq in E7. subst r0. split; reflexivity.
    + assert (r0 <> P25.MSG_REKEY_ACK)
        by (intros ->; discriminate E7).
      destruct (beq r0 P25.MSG_NEGATIVE_ACK); cbn [success Result_];
        (split; [discriminate | intros [= ->]; contradiction]).
Qed.

Lemma classify_negative_ack response :
  hd_error response = Some P25.MSG_NEGATIVE_ACK ->
  success (classify response) = false
  /\ (forall s, nth_error response 2 = Some s ->
        status (classify response) = s)
  /\ ((List.length response <= 2)%nat ->
        status (classify response) = P25.STATUS_INVALID_MN).
Proof.
  destruct response as [|r0 rest]; cbn [hd_error]; [discriminate|].
  intros [= ->]. unfold classify.
  change (beq P25.MSG_NEGATIVE_ACK P25.MSG_REKEY_ACK) with false.
  change (beq P25.MSG_NEGATIVE_ACK P25.MSG_NEGATIVE_ACK) with true.
  cbv iota zeta. cbn [success status].
  split; [reflexivity|]. split.
  - intros s Hs.
    destruct rest as [|r1 [|r2 rest]]; cbn in Hs; try discriminate.
    injection Hs as ->. reflexivity.
  - intros Hl. destruct rest as [|r1 [|r2 rest]]; cbn in Hl |- *;
      try reflexivity; lia.
Qed.

Lemma beginSession_attempts_initialized n :
  forall st, _initialized (snd (beginSession_attempts n st)) = _initialized st.
Proof.
  induction n as [|n IH]; intros st; [reflexivity|].
  rewrite beginSession_attempts_step.
  destruct (ready_mode (answer 0 st)); [reflexivity|].
  rewrite IH. reflexivity.
Qed.

Lemma beginSession_initialized st :
  _initialized (snd (beginSession st)) = _initialized st.
Proof.
  unfold beginSession, bind, get. destruct (negb (_initialized st));
    [reflexivity | apply beginSession_attempts_initialized].
Qed.

(** What [keyload] classifies when a whole frame arrives after the
    handshake: the inner KMM when the length field is above 6, the six
    bytes after the length field when it is 6. *)
Lemma keyload_frame k st d st2 lenHi lenLo body rest :
  _initialized st = true -> _operationInProgress st = false ->
  beginSession (keyload_entry st) = (Some d, st2) ->
  rx st2 = arriving (xc2 :: lenHi :: lenLo :: body) ++ rest ->
  be16 lenHi lenLo = Z.of_nat (List.length body) ->
  6 <= Z.of_nat (List.length body) <= 512 ->
  fst (keyload k st) =
  classify (if 6 <? Z.of_nat (List.length body)
            then firstn (List.length body - 4 - 2) (skipn 4 body)
            else body).
Proof.
  intros Hi Hb Hs Hrx Hlen Hrange.
  assert (Hi2 : _initialized (keyload_sent k st2) = true).
  { pose proof (beginSession_initialized (keyload_entry st)) as H.
    rewrite Hs in H. cbn [snd] in H.
    change (_initialized (keyload_sent k st2)) with (_initialized st2).
    rewrite H. exact Hi. }
  assert (Hrx2 : rx (keyload_sent k st2)
                 = arriving (xc2 :: lenHi :: lenLo :: body) ++ rest)
    by exact Hrx.
  rewrite (keyload_session k st d st2 Hi Hb Hs).
  rewrite (receiveKmm_frame 10000 (keyload_sent k st2) lenHi lenLo body rest
             Hi2 Hrx2 Hlen Hrange).
  reflexivity.
Qed.

(** C5, as the code has it. [keyload] reports success exactly when it was
    initialised and idle, the handshake succeeded, [receiveKmm] delivered a
    response, and the first byte of that response is 0x07. When the first
    byte is 0x08 the result is a failure whose status is the byte at offset
    2 of the response (0x0A when the response has no such byte). The
    response is the inner KMM of the frame received when the length field
    of the frame is above 6; for a frame of length 6, which has no inner
    KMM, it is the six bytes after the length field. *)
Theorem keyload_classification (k : P25.KeyItem) (st : State) :
  (success (fst (keyload k st)) = true <->
   exists d st2 response st3,
     _initialized st = true /\ _operationInProgress st = false
     /\ beginSession (keyload_entry st) = (Some d, st2)
     /\ receiveKmm 10000 (keyload_sent k st2) = (Some response, st3)
     /\ hd_error response = Some P25.MSG_REKEY_ACK)
  /\ (forall d st2 response st3,
        _initialized st = true -> _operationInProgress st = false ->
        beginSession (keyload_entry st) = (Some d, st2) ->
        receiveKmm 10000 (keyload_sent k st2) = (Some response, st3) ->
        hd_error response = Some P25.MSG_NEGATIVE_ACK ->
        success (fst (keyload k st)) = false
        /\ (forall s, nth_error response 2 = Some s ->
              status (fst (keyload k st)) = s)
        /\ ((List.length response <= 2)%nat ->
              status (fst (keyload k st)) = P25.STATUS_INVALID_MN))
  /\ (forall d st2 lenHi lenLo body rest,
        _initialized st = true -> _operationInProgress st = false ->
        beginSession (keyload_entry st) = (Some d, st2) ->
        rx st2 = arriving (xc2 :: lenHi :: lenLo :: body) ++ rest ->
        be16 lenHi lenLo = Z.of_nat (List.length body) ->
        6 <= Z.of_nat (List.length body) <= 512 ->
        fst (keyload k st) =
        classify (if 6 <? Z.of_nat (List.length body)
                  then firstn (List.length body - 4 - 2) (skipn 4 body)
                  else body)).
Proof.
  split; [|split].
  - split.
    + intros Hs.
      destruct (_initialized st) eqn:Hi.
      2:{ rewrite (keyload_not_initialized k st Hi) in Hs. discriminate Hs. }
      destruct (_operationInProgress st) eqn:Hb.
      1:{ rewrite (keyload_busy k st Hi Hb) in Hs. discriminate Hs. }
      destruct (beginSession (keyload_entry st)) as [[d|] st2] eqn:Hbs.
      2:{ rewrite (keyload_no_session k st st2 Hi Hb Hbs) in Hs.
          discriminate Hs. }
      rewrite (keyload_session k st d st2 Hi Hb Hbs) in Hs. cbn [fst] in Hs.
      destruct (receiveKmm 10000 (keyload_sent k st2)) as [[response|] st3]
        eqn:Hr; cbn [fst] in Hs; [|discriminate Hs].
      exists d, st2, response, st3.
      repeat split; try reflexivity; try exact Hr.
      apply classify_success. exact Hs.
    + intros (d & st2 & response & st3 & Hi & Hb & Hbs & Hr & Hh).
      rewrite (keyload_session k st d st2 Hi Hb Hbs), Hr. cbn [fst].
      apply classify_success. exact Hh.
  - intros d st2 response st3 Hi Hb Hbs Hr Hh.
    rewrite (keyload_session k st d st2 Hi Hb Hbs), Hr. cbn [fst].
    apply classify_negative_ack. exact Hh.
  - intros d st2 lenHi lenLo body rest.
    apply (keyload_frame k st d st2 lenHi lenLo body rest).
Qed.

(** The negative acknowledgment 08 00 06 arrives in a frame of length 9:
    the response is the inner KMM, and the failure carries status 0x06. *)
Lemma keyload_classification_witness :
  (success (fst (keyload Scenario.aes256_key (initial Scenario.nak_script)))
     = false
   /\ (forall s, nth_error [x08; x00; x06] 2 = Some s ->
         status (fst (keyload Scenario.aes256_key
                        (initial Scenario.nak_script))) = s)
   /\ ((List.length [x08; x00; x06] <= 2)%nat ->
         status (fst (keyload Scenario.aes256_key
                        (initial Scenario.nak_script)))
           = P25.STATUS_INVALID_MN))
  /\ fst (keyload Scenario.aes256_key (initial Scenario.nak_script))
     = classify
         (if 6 <? Z.of_nat
                    (List.length [x00; xff; xff; xff; x08; x00; x06; xd9; x1d])
          then firstn
                 (List.length [x00; xff; xff; xff; x08; x00; x06; xd9; x1d]
                    - 4 - 2)
                 (skipn 4 [x00; xff; xff; xff; x08; x00; x06; xd9; x1d])
          else [x00; xff; xff; xff; x08; x00; x06; xd9; x1d]).
Proof.
  split.
  - apply (proj1 (proj2 (keyload_classification Scenario.aes256_key
                           (initial Scenario.nak_script)))
             DEVICE_MR
             (snd (beginSession (keyload_entry (initial Scenario.nak_script))))
             [x08; x00; x06]
             (snd (receiveKmm 10000
                     (keyload_sent Scenario.aes256_key
                        (snd (beginSession
                                (keyload_entry
                                   (initial Scenario.nak_script))))))));
      vm_compute; reflexivity.
  - apply (proj2 (proj2 (keyload_classification Scenario.aes256_key
                           (initial Scenario.nak_script)))
             DEVICE_MR
             (snd (beginSession (keyload_entry (initial Scenario.nak_script))))
             x00 x09 [x00; xff; xff; xff; x08; x00; x06; xd9; x1d]
             [Some xc1; Some x90]);
      try reflexivity; vm_compute; split; discriminate.
Defined.

(** C5, as the claim states it, fails on a frame of length 6. Such a frame
    has no inner KMM: its six bytes are the control byte, the destination
    RSI and the CRC. With control byte 0x07 [keyload] reports success, and
    with control byte 0x08 it reports as status the second byte of the
    destination RSI. *)
Lemma keyload_length6_frame :
  firstn (6 - 4 - 2) (skipn 4 [x07; xff; xff; xff; x12; x34]) = []
  /\ fst (keyload Scenario.aes256_key
            (initial (arriving [xd0; xc2; x00; x06;
                                x07; xff; xff; xff; x12; x34])))
     = mkResult true "Key loaded successfully" x00
  /\ fst (keyload Scenario.aes256_key
            (initial (arriving [xd0; xc2; x00; x06;
                                x08; xff; x77; xff; x12; x34])))
     = mkResult false "NAK received: status 0x77" x77.
Proof. repeat split; vm_compute; reflexivity. Qed.

Lemma keyload_sent_calls k st :
  calls (keyload_sent k st) =
  calls st ++ [sendBytesFast (buildKmmFrame (buildModifyKeyCommand k))].
Proof. reflexivity. Qed.

(** C8, as the code has it. [keyload] makes no check of the key length, for
    any algorithm: for every KeyItem, once the handshake has succeeded it
    sends exactly one frame, the ModifyKey frame built from the KeyItem,
    whose algorithm and key-length bytes are the algorithm-id and the size
    of the key material (modulo 256) as they are; its result is the
    classification of the peer's response. *)
Theorem keyload_no_length_check (k : P25.KeyItem) (st : State)
    (d : DeviceType) (st2 : State) :
  _initialized st = true -> _operationInProgress st = false ->
  beginSession (keyload_entry st) = (Some d, st2) ->
  frames_sent (calls (snd (keyload k st)))
    = frames_sent (calls st) ++ [buildKmmFrame (buildModifyKeyCommand k)]
  /\ at_ (buildModifyKeyCommand k) 6 = P25.algorithmId k
  /\ at_ (buildModifyKeyCommand k) 7
       = z2b (Z.land (Z.of_nat (List.length (P25.key k))) 0xFF)
  /\ fst (keyload k st)
       = match fst (receiveKmm 10000 (keyload_sent k st2)) with
         | None => Result_ false "No response from radio after keyload"
         | Some response => classify response
         end.
Proof.
  intros Hi Hb Hbs.
  rewrite (keyload_session k st d st2 Hi Hb Hbs). cbn [fst snd].
  split; [|repeat split; reflexivity].
  rewrite silent_set_operationInProgress, silent_endSession,
    silent_receiveKmm, keyload_sent_calls, frames_sent_app.
  f_equal.
  pose proof (silent_beginSession (keyload_entry st)) as Hs.
  rewrite Hbs in Hs. exact Hs.
Qed.

Lemma keyload_no_length_check_witness :
  frames_sent (calls (snd (keyload Scenario.short_key
                             (initial Scenario.ack_script))))
    = frames_sent (calls (initial Scenario.ack_script))
      ++ [buildKmmFrame (buildModifyKeyCommand Scenario.short_key)]
  /\ at_ (buildModifyKeyCommand Scenario.short_key) 6
       = P25.algorithmId Scenario.short_key
  /\ at_ (buildModifyKeyCommand Scenario.short_key) 7
       = z2b (Z.land (Z.of_nat (List.length (P25.key Scenario.short_key))) 0xFF)
  /\ fst (keyload Scenario.short_key (initial Scenario.ack_script))
       = match fst (receiveKmm 10000
                      (keyload_sent Scenario.short_key
                         (snd (beginSession
                                 (keyload_entry
                                    (initial Scenario.ack_script)))))) with
         | None => Result_ false "No response from radio after keyload"
         | Some response => classify response
         end.
Proof.
  apply (keyload_no_length_check Scenario.short_key
           (initial Scenario.ack_script) DEVICE_MR
           (snd (beginSession (keyload_entry (initial Scenario.ack_script)))));
    vm_compute; reflexivity.
Defined.

(** C8, as the claim states it, fails for an AES-256 KeyItem with one byte
    of key material: the expected length is 32 and [validateKey] says no,
    yet [keyload] sends the ModifyKey frame, with key length 1, and reports
    success on the peer's acknowledgment. *)
Lemma keyload_accepts_short_key :
  P25.getKeyLength (P25.algorithmId Scenario.short_key) = 32
  /\ P25.validateKey (P25.key Scenario.short_key)
       (P25.algorithmId Scenario.short_key) = false
  /\ success (fst (keyload Scenario.short_key (initial Scenario.ack_script)))
       = true
  /\ frames_sent (calls (snd (keyload Scenario.short_key
                                (initial Scenario.ack_script))))
       = [[xc2; x00; x1f; x00; xff; xff; xff;
           x04; x00; x16; xc0; xff; xff; xff; xff; xff; xff;
           x00; x00; x80; x00; x00; x01; x84; x01; x01;
           x00; x00; xca; x00; xca; x11;
           at_ (buildKmmFrame (buildModifyKeyCommand Scenario.short_key)) 32;
           at_ (buildKmmFrame (buildModifyKeyCommand Scenario.short_key)) 33]].
Proof. repeat split; vm_compute; reflexivity. Qed.

(** C7, on the code. The frame [eraseAllKeys] sends once the peer is ready
    is built by the wrapper for ModifyKeyCommand: its inner KMM has
    message-id 0x04 and message length 8, the byte 0x0A being its one-byte
    body. *)
Theorem eraseAllKeys_frame :
  let frame := buildKmmFrame3 [x0a] x04 xc0 in
  frames_sent (calls (snd (eraseAllKeys (initial Scenario.ready_script))))
    = [frame]
  /\ frame
       = [xc2; x00; x11; x00; xff; xff; xff;
          x04; x00; x08; xc0; xff; xff; xff; xff; xff; xff; x0a;
          xb9; x80]
  /\ at_ frame 7 = P25.MSG_MODIFY_KEY_CMD
  /\ at_ frame 7 <> P25.MSG_ZEROIZE_CMD
  /\ be16 (at_ frame 8) (at_ frame 9) = 8
  /\ be16 (at_ frame 8) (at_ frame 9) <> 7.
Proof.
  cbv zeta. repeat split; try (vm_compute; reflexivity);
    vm_compute; discriminate.
Qed.

End Operations.

(** * Further properties of the code *)

(** ** The byte codec, both directions *)

Section Codec.

Import TWI_HAL.

Lemma wire_time_app ops1 ops2 :
  wire_time (ops1 ++ ops2) = wire_time ops1 + wire_time ops2.
Proof.
  induction ops1 as [|op ops1 IH]; [reflexivity|].
  destruct op; cbn [app wire_time]; rewrite ?IH; lia.
Qed.

Lemma wire_time_shift_out n period : forall frame,
  wire_time (shift_out n period frame) = Z.of_nat n * period.
Proof.
  induction n as [|n IH]; intros frame; [reflexivity|].
  cbn [shift_out]. destruct (Z.land frame 1 =? 0);
    cbn [wire_time]; rewrite IH; lia.
Qed.

Lemma wire_time_cons op ops : wire_time (op :: ops) = wire_time [op] + wire_time ops.
Proof. destruct op; cbn [wire_time]; lia. Qed.

Lemma wire_time_stop_bits h : wire_time (stop_bits h) = 4 * _bitPeriodTx h.
Proof.
  unfold stop_bits. destruct (_useBusyStopBits h).
  - rewrite wire_time_cons, wire_time_app. cbn [wire_time repeat]. lia.
  - rewrite wire_time_cons. cbn [wire_time repeat]. lia.
Qed.

Lemma sendByte_initialized h b :
  _initialized h = true ->
  sendByte h b =
  portDISABLE_INTERRUPTS
    :: shift_out 10 (_bitPeriodTx h) (tx_frame b)
    ++ stop_bits h
    ++ [portENABLE_INTERRUPTS; delayMicroseconds (_bitPeriodTx h * 2)].
Proof. intros Hi. unfold sendByte. rewrite Hi. reflexivity. Qed.

Lemma wire_time_sendByte h b :
  _initialized h = true -> wire_time (sendByte h b) = 16 * _bitPeriodTx h.
Proof.
  intros Hi. rewrite (sendByte_initialized h b Hi).
  rewrite wire_time_cons, !wire_time_app, wire_time_shift_out,
    wire_time_stop_bits.
  cbn [wire_time]. lia.
Qed.

(** [reverseBits] mirrors the eight bits of a byte (bit [i] of the result
    is bit [7 - i] of the argument) and undoes itself. *)
Theorem reverseBits_mirror (b : byte) :
  map (fun i => Z.testbit (b2z (reverseBits b)) i) [0; 1; 2; 3; 4; 5; 6; 7]
    = map (fun i => Z.testbit (b2z b) (7 - i)) [0; 1; 2; 3; 4; 5; 6; 7]
  /\ reverseBits (reverseBits b) = b.
Proof. destruct b; vm_compute; split; reflexivity. Qed.

(** What [receiveByte] decodes from the first ten bit periods of the frame
    [sendByte] puts on the line is the byte that was sent, for every byte,
    stop-bit mode and bit period. *)
Theorem byte_round_trip (h : Hal) (b : byte) :
  _initialized h = true ->
  receive_decode (map reads_idle (firstn 10 (levels 1 (sendByte h b)))) = b.
Proof.
  intros Hi. rewrite (sendByte_levels h b Hi).
  destruct b; vm_compute; reflexivity.
Qed.

Lemma byte_round_trip_witness :
  receive_decode
    (map reads_idle (firstn 10 (levels 1 (sendByte default_hal x7f)))) = x7f.
Proof. apply (byte_round_trip default_hal x7f). reflexivity. Defined.

(** The receiver never looks at the start bit, at the parity bit or at
    anything sampled after them: the byte it stores depends on the eight
    data samples alone, and it is their mirror image. *)
Theorem receive_decode_data_only
    (s p s' p' d0 d1 d2 d3 d4 d5 d6 d7 : bool) (later later' : list bool) :
  receive_decode ([s; d0; d1; d2; d3; d4; d5; d6; d7; p] ++ later)
    = receive_decode ([s'; d0; d1; d2; d3; d4; d5; d6; d7; p'] ++ later')
  /\ map (fun i => Z.testbit
                     (b2z (receive_decode
                             ([s; d0; d1; d2; d3; d4; d5; d6; d7; p] ++ later)))
                     i)
         [7; 6; 5; 4; 3; 2; 1; 0]
     = [d0; d1; d2; d3; d4; d5; d6; d7].
Proof.
  destruct s, p, s', p', d0, d1, d2, d3, d4, d5, d6, d7;
    split; vm_compute; reflexivity.
Qed.

(** A byte takes sixteen bit periods to send (fourteen of frame and two of
    gap), and [sendBytesFast] takes that for each byte plus one
    millisecond; it does nothing on an uninitialised HAL or on no data. *)
Theorem sendBytesFast_time (h : Hal) (data : list byte) :
  (_initialized h = true -> data <> [] ->
   wire_time (sendBytesFast h data)
     = 16 * _bitPeriodTx h * Z.of_nat (List.length data) + 1000)
  /\ (_initialized h = false -> sendBytesFast h data = [])
  /\ sendBytesFast h [] = [].
Proof.
  split; [|split].
  - intros Hi Hd. rewrite (sendBytesFast_frames h data Hi Hd).
    rewrite wire_time_app. cbn [wire_time].
    assert (E : wire_time (flat_map (sendByte h) data)
                = 16 * _bitPeriodTx h * Z.of_nat (List.length data)).
    { clear Hd. induction data as [|b data IH]; [cbn; lia|].
      cbn [flat_map]. rewrite wire_time_app, IH, (wire_time_sendByte h b Hi).
      cbn [List.length]. lia. }
    rewrite E. lia.
  - intros Hi. unfold sendBytesFast. rewrite Hi. reflexivity.
  - unfold sendBytesFast. destruct (_initialized h); reflexivity.
Qed.

Lemma sendBytesFast_time_witness :
  wire_time (sendBytesFast default_hal [xc2; x00; x11])
    = 16 * 250 * 3 + 1000.
Proof.
  apply (proj1 (sendBytesFast_time default_hal [xc2; x00; x11]));
    [reflexivity | discriminate].
Defined.

(** The bit period is never zero: zero kilobauds select the default of
    four (250 microseconds), and every other setting gives between 3 and
    1000 microseconds, the integer part of 1000 / kilobaud. *)
Theorem bit_period_bounds (kilobaud : byte) :
  3 <= bit_period kilobaud <= 1000
  /\ bit_period x00 = 250
  /\ (kilobaud <> x00 ->
      bit_period kilobaud * b2z kilobaud <= 1000
        < (bit_period kilobaud + 1) * b2z kilobaud)
  /\ _bitPeriodTx (setTxSpeed kilobaud default_hal) = bit_period kilobaud.
Proof.
  split; [destruct kilobaud; vm_compute; split; discriminate|].
  split; [reflexivity|]. split; [|reflexivity].
  intros Hk. destruct kilobaud; try (exfalso; apply Hk; reflexivity);
    (vm_compute; split; [discriminate | reflexivity]).
Qed.

Lemma bit_period_bounds_witness :
  bit_period x04 * b2z x04 <= 1000 < (bit_period x04 + 1) * b2z x04.
Proof.
  apply (proj1 (proj2 (proj2 (bit_period_bounds x04)))). discriminate.
Defined.

End Codec.

(** ** The CRC and the validators *)

Section Crc.

Import P25.

Lemma lxor_small (a b : Z) :
  0 <= a < 256 -> 0 <= b < 256 -> 0 <= Z.lxor a b < 256.
Proof.
  intros Ha Hb.
  assert (Hn : 0 <= Z.lxor a b) by (apply Z.lxor_nonneg; lia).
  split; [exact Hn|].
  assert (E : Z.lxor a b = (Z.lxor a b) mod 2 ^ 8).
  { apply Z.bits_inj'. intros i Hi.
    destruct (Z.ltb_spec i 8).
    - rewrite Z.mod_pow2_bits_low by lia. reflexivity.
    - rewrite Z.mod_pow2_bits_high by lia.
      rewrite Z.lxor_spec.
      rewrite <- (Z.mod_small a (2 ^ 8)), <- (Z.mod_small b (2 ^ 8))
        by (change (2 ^ 8) with 256; lia).
      rewrite !Z.mod_pow2_bits_high by lia. reflexivity. }
  rewrite E. change (2 ^ 8) with 256. apply Z.mod_pos_bound. lia.
Qed.

Lemma crc16Table_entry_range i :
  (i < 256)%nat -> 0 <= nth i crc16Table 0 < 65536.
Proof.
  intros Hi. do 256 (destruct i as [|i]; [vm_compute; split; congruence|]).
  lia.
Qed.

(** The high bytes of the 256 table entries are all different: the high
    byte of an entry gives its index back. *)
Lemma crc16Table_high_index i :
  (i < 256)%nat ->
  index_of_high (Z.shiftr (nth i crc16Table 0) 8) crc16Table = i.
Proof.
  intros Hi. do 256 (destruct i as [|i]; [vm_compute; reflexivity|]).
  lia.
Qed.

Lemma crc_index_range (c : Z) (d : byte) :
  0 <= Z.lxor (b2z d) (Z.land c 0xFF) < 256.
Proof.
  apply lxor_small; [apply b2z_range|].
  change 0xFF with (Z.ones 8). rewrite Z.land_ones by lia.
  change (2 ^ 8) with 256. apply Z.mod_pos_bound. lia.
Qed.

(** One round on a 16-bit register, without the final conversion. *)
Lemma crc16_step_eq (c : Z) (d : byte) :
  is_uint16 c ->
  crc16_step c d =
  Z.lxor (nth (Z.to_nat (Z.lxor (b2z d) (Z.land c 0xFF))) crc16Table 0)
         (Z.shiftr c 8).
Proof.
  intros Hc. unfold crc16_step. apply Z.mod_small.
  pose proof (crc_index_range c d) as Hi.
  pose proof (crc16Table_entry_range
                (Z.to_nat (Z.lxor (b2z d) (Z.land c 0xFF))) ltac:(lia)) as Ht.
  assert (Hs : 0 <= Z.shiftr c 8 < 256).
  { rewrite Z.shiftr_div_pow2 by lia. change (2 ^ 8) with 256.
    unfold is_uint16 in Hc. split; [apply Z.div_pos; lia|].
    apply Z.div_lt_upper_bound; lia. }
  set (e := nth _ crc16Table 0) in *.
  split; [apply Z.lxor_nonneg; lia|].
  assert (E : Z.lxor e (Z.shiftr c 8) = (Z.lxor e (Z.shiftr c 8)) mod 2 ^ 16).
  { apply Z.bits_inj'. intros i Hi'.
    destruct (Z.ltb_spec i 16).
    - rewrite Z.mod_pow2_bits_low by lia. reflexivity.
    - rewrite Z.mod_pow2_bits_high by lia. rewrite Z.lxor_spec.
      rewrite <- (Z.mod_small e (2 ^ 16)),
        <- (Z.mod_small (Z.shiftr c 8) (2 ^ 16))
        by (change (2 ^ 16) with 65536; lia).
      rewrite !Z.mod_pow2_bits_high by lia. reflexivity. }
  rewrite E. change (2 ^ 16) with 65536. apply Z.mod_pos_bound. lia.
Qed.

Lemma lxor_cancel_r (a b c : Z) : Z.lxor a c = Z.lxor b c -> a = b.
Proof.
  intros H. apply (f_equal (fun x => Z.lxor x c)) in H.
  rewrite !Z.lxor_assoc, !Z.lxor_nilpotent, !Z.lxor_0_r in H. exact H.
Qed.

Lemma lxor_cancel_l (a b c : Z) : Z.lxor c a = Z.lxor c b -> a = b.
Proof. rewrite !(Z.lxor_comm c). apply lxor_cancel_r. Qed.

Lemma b2z_inj (a b : byte) : b2z a = b2z b -> a = b.
Proof. intros H. rewrite <- (z2b_b2z a), <- (z2b_b2z b), H. reflexivity. Qed.

(** The index the round looked up can be read off its result. *)
Lemma crc16_step_index (c : Z) (d : byte) :
  is_uint16 c ->
  index_of_high (Z.shiftr (crc16_step c d) 8) crc16Table
    = Z.to_nat (Z.lxor (b2z d) (Z.land c 0xFF)).
Proof.
  intros Hc. rewrite (crc16_step_eq c d Hc).
  pose proof (crc_index_range c d) as Hi.
  rewrite Z.shiftr_lxor, Z.shiftr_shiftr by lia.
  replace (Z.shiftr c (8 + 8)) with 0.
  - rewrite Z.lxor_0_r. apply crc16Table_high_index. lia.
  - symmetry. rewrite Z.shiftr_div_pow2 by lia. apply Z.div_small.
    unfold is_uint16 in Hc. change (2 ^ (8 + 8)) with 65536. lia.
Qed.

(** One round is injective in the register ... *)
Lemma crc16_step_inj_state (c1 c2 : Z) (d : byte) :
  is_uint16 c1 -> is_uint16 c2 ->
  crc16_step c1 d = crc16_step c2 d -> c1 = c2.
Proof.
  intros H1 H2 E.
  pose proof (crc16_step_index c1 d H1) as I1.
  pose proof (crc16_step_index c2 d H2) as I2.
  rewrite E in I1. rewrite I1 in I2.
  pose proof (crc_index_range c1 d) as R1.
  pose proof (crc_index_range c2 d) as R2.
  apply Z2Nat.inj in I2; try lia.
  assert (Hlo : Z.land c1 0xFF = Z.land c2 0xFF)
    by (apply (lxor_cancel_l _ _ (b2z d)); exact I2).
  rewrite (crc16_step_eq c1 d H1), (crc16_step_eq c2 d H2), I2 in E.
  apply lxor_cancel_l in E.
  change 0xFF with (Z.ones 8) in Hlo. rewrite !Z.land_ones in Hlo by lia.
  rewrite !Z.shiftr_div_pow2 in E by lia.
  rewrite (Z.div_mod c1 (2 ^ 8)), (Z.div_mod c2 (2 ^ 8)) by lia.
  rewrite E, Hlo. reflexivity.
Qed.

(** ... and in the byte. *)
Lemma crc16_step_inj_byte (c : Z) (d1 d2 : byte) :
  is_uint16 c -> crc16_step c d1 = crc16_step c d2 -> d1 = d2.
Proof.
  intros Hc E.
  pose proof (crc16_step_index c d1 Hc) as I1.
  pose proof (crc16_step_index c d2 Hc) as I2.
  rewrite E in I1. rewrite I1 in I2.
  pose proof (crc_index_range c d1) as R1.
  pose proof (crc_index_range c d2) as R2.
  apply Z2Nat.inj in I2; try lia.
  apply lxor_cancel_r in I2. apply b2z_inj. exact I2.
Qed.

Lemma fold_crc16_step_range (data : list byte) (c : Z) :
  is_uint16 c -> is_uint16 (fold_left crc16_step data c).
Proof.
  revert c. induction data as [|d data IH]; intros c Hc; [exact Hc|].
  cbn [fold_left]. apply IH. apply crc16_step_range.
Qed.

Lemma fold_crc16_step_inj (data : list byte) (c1 c2 : Z) :
  is_uint16 c1 -> is_uint16 c2 ->
  fold_left crc16_step data c1 = fold_left crc16_step data c2 -> c1 = c2.
Proof.
  revert c1 c2. induction data as [|d data IH]; intros c1 c2 H1 H2 E;
    [exact E|].
  cbn [fold_left] in E.
  apply IH in E; try apply crc16_step_range.
  apply (crc16_step_inj_state c1 c2 d H1 H2 E).
Qed.

(** [calculateCrc16] detects every corruption of a single byte: two
    buffers that differ in exactly one position have different CRCs. *)
Theorem calculateCrc16_detects_byte_error
    (before after : list byte) (d1 d2 : byte) :
  d1 <> d2 ->
  calculateCrc16 (before ++ d1 :: after)
    <> calculateCrc16 (before ++ d2 :: after).
Proof.
  intros Hd E. apply Hd. unfold calculateCrc16 in E.
  rewrite !fold_left_app in E. cbn [fold_left] in E.
  assert (Hc : is_uint16 (fold_left crc16_step before 65535))
    by (apply fold_crc16_step_range; unfold is_uint16; lia).
  apply fold_crc16_step_inj in E; try apply crc16_step_range.
  apply (crc16_step_inj_byte _ d1 d2 Hc E).
Qed.

Lemma calculateCrc16_detects_byte_error_witness :
  calculateCrc16 ([x00; xff] ++ x07 :: [x00; x04])
    <> calculateCrc16 ([x00; xff] ++ x08 :: [x00; x04]).
Proof.
  apply (calculateCrc16_detects_byte_error [x00; xff] [x00; x04] x07 x08).
  discriminate.
Defined.

(** Two buffers with different CRCs keep different CRCs whatever common
    bytes are appended to both, and buffers with equal CRCs keep equal
    ones: the CRC of a buffer extended by [suffix] depends on the buffer
    through its CRC alone, and injectively. *)
Theorem calculateCrc16_suffix (a b suffix : list byte) :
  calculateCrc16 (a ++ suffix) = calculateCrc16 (b ++ suffix)
  <-> calculateCrc16 a = calculateCrc16 b.
Proof.
  unfold calculateCrc16. rewrite !fold_left_app. split.
  - apply fold_crc16_step_inj;
      apply fold_crc16_step_range; unfold is_uint16; lia.
  - intros ->. reflexivity.
Qed.

(** For a 16-bit SLN exactly one of the two forms of [validateSln]
    accepts, the one [getKeyType] names: the TEK and KEK ranges split the
    16-bit values at 0xF000. *)
Theorem validateSln_getKeyType (sln : Z) :
  is_uint16 sln ->
  validateSln sln
    (match getKeyType sln with KEY_TYPE_KEK => true | KEY_TYPE_TEK => false end)
    = true
  /\ validateSln sln
       (match getKeyType sln with KEY_TYPE_KEK => false | KEY_TYPE_TEK => true end)
     = false.
Proof.
  unfold is_uint16, validateSln, getKeyType. intros H.
  repeat match goal with
         | |- context [?a <=? ?b] => destruct (Z.leb_spec a b)
         end; cbn [andb]; split; try reflexivity; lia.
Qed.

Lemma validateSln_getKeyType_witness :
  validateSln 0xF000
    (match getKeyType 0xF000 with KEY_TYPE_KEK => true | KEY_TYPE_TEK => false end)
    = true
  /\ validateSln 0xF000
       (match getKeyType 0xF000 with KEY_TYPE_KEK => false | KEY_TYPE_TEK => true end)
     = false.
Proof.
  apply (validateSln_getKeyType 0xF000). unfold is_uint16. lia.
Defined.

(** [validateKey] constrains the key length for exactly eight algorithm
    ids, and for those it rejects the empty key; for every other id,
    ALGO_CLEAR included, it accepts any key. *)
Theorem validateKey_listed (algo : byte) (k : list byte) :
  (In algo [ALGO_DES_OFB; ALGO_2_KEY_3DES; ALGO_3_KEY_3DES; ALGO_AES_128;
            ALGO_AES_256; ALGO_AES_CBC; ALGO_ARC4; ALGO_ADP] ->
   validateKey [] algo = false
   /\ (validateKey k algo = true <->
       Z.of_nat (List.length k) = getKeyLength algo))
  /\ (~ In algo [ALGO_DES_OFB; ALGO_2_KEY_3DES; ALGO_3_KEY_3DES; ALGO_AES_128;
                 ALGO_AES_256; ALGO_AES_CBC; ALGO_ARC4; ALGO_ADP] ->
      validateKey k algo = true).
Proof.
  split.
  - intros Hin. cbn [In] in Hin.
    assert (Hpos : 0 < getKeyLength algo).
    { repeat (destruct Hin as [<-|Hin]; [vm_compute; reflexivity|]).
      contradiction. }
    unfold validateKey. cbv zeta.
    replace (getKeyLength algo =? 0) with false
      by (symmetry; apply Z.eqb_neq; lia).
    cbn [orb List.length]. split.
    + apply Z.eqb_neq. cbn. lia.
    + apply Z.eqb_eq.
  - intros Hn. unfold validateKey. cbv zeta.
    replace (getKeyLength algo) with 0; [reflexivity|].
    destruct algo; try reflexivity; exfalso; apply Hn; cbn;
      unfold ALGO_DES_OFB, ALGO_2_KEY_3DES, ALGO_3_KEY_3DES, ALGO_AES_128,
        ALGO_AES_256, ALGO_AES_CBC, ALGO_ARC4, ALGO_ADP; tauto.
Qed.

Lemma validateKey_listed_witness :
  validateKey [] ALGO_AES_256 = false
  /\ (validateKey (repeat x00 32) ALGO_AES_256 = true <->
      Z.of_nat (List.length (repeat x00 32)) = getKeyLength ALGO_AES_256).
Proof.
  apply (proj1 (validateKey_listed ALGO_AES_256 (repeat x00 32))).
  cbn. tauto.
Defined.

End Crc.

(** ** Building and parsing *)

Section Framing.

Import KFDProtocol.

Lemma land_FF_small (v : Z) : 0 <= v < 256 -> Z.land v 0xFF = v.
Proof.
  intros H. change 0xFF with (Z.ones 8). rewrite Z.land_ones by lia.
  apply Z.mod_small. change (2 ^ 8) with 256. lia.
Qed.

Lemma b2z_z2b_land (v : Z) : 0 <= v < 256 -> b2z (z2b (Z.land v 0xFF)) = v.
Proof.
  intros H. rewrite (land_FF_small v H), b2z_z2b. apply Z.mod_small. lia.
Qed.

(** The body of a ModifyKey command for a KeyItem that passes the
    validators and has at most 255 bytes of key material reads back as the
    KeyItem: keyset, algorithm, key length, SLN and key id at their
    offsets, one key announced, the key material from offset 14 on. The
    key-format byte carries the erase flag only, never the KEK flag. *)
Theorem buildModifyKeyCommand_fields (k : P25.KeyItem) :
  P25.validateKeysetId (P25.keysetId k) = true ->
  P25.validateSln (P25.sln k) (P25.isKek k) = true ->
  P25.validateKeyId (P25.keyId k) = true ->
  (List.length (P25.key k) <= 255)%nat ->
  let body := buildModifyKeyCommand k in
  List.length body = (14 + List.length (P25.key k))%nat
  /\ firstn 5 body = [x00; x00; x80; x00; x00]
  /\ b2z (at_ body 5) = P25.keysetId k
  /\ at_ body 6 = P25.algorithmId k
  /\ b2z (at_ body 7) = Z.of_nat (List.length (P25.key k))
  /\ at_ body 8 = x01
  /\ at_ body 9 = (if P25.erase k then x20 else x00)
  /\ be16 (at_ body 10) (at_ body 11) = P25.sln k
  /\ be16 (at_ body 12) (at_ body 13) = P25.keyId k
  /\ skipn 14 body = P25.key k.
Proof.
  intros Hks Hsln Hkid Hlen body.
  unfold P25.validateKeysetId in Hks. unfold P25.validateKeyId in Hkid.
  apply andb_true_iff in Hks. destruct Hks as [Hk1 Hk2].
  apply andb_true_iff in Hkid. destruct Hkid as [Hi1 Hi2].
  apply Z.leb_le in Hk1, Hk2, Hi1, Hi2.
  assert (Hs : 0 <= P25.sln k < 65536).
  { unfold P25.validateSln in Hsln. destruct (P25.isKek k);
      apply andb_true_iff in Hsln; destruct Hsln as [Hs1 Hs2];
      apply Z.leb_le in Hs1, Hs2; lia. }
  subst body. unfold buildModifyKeyCommand, at_.
  cbn [app nth firstn skipn List.length].
  rewrite !(be16_split []), !b2z_z2b_land by lia.
  rewrite !Z.mod_small by lia.
  repeat split; lia.
Qed.

Lemma buildModifyKeyCommand_fields_witness :
  let body := buildModifyKeyCommand Scenario.aes256_key in
  List.length body = (14 + List.length (P25.key Scenario.aes256_key))%nat
  /\ firstn 5 body = [x00; x00; x80; x00; x00]
  /\ b2z (at_ body 5) = P25.keysetId Scenario.aes256_key
  /\ at_ body 6 = P25.algorithmId Scenario.aes256_key
  /\ b2z (at_ body 7) = Z.of_nat (List.length (P25.key Scenario.aes256_key))
  /\ at_ body 8 = x01
  /\ at_ body 9 = (if P25.erase Scenario.aes256_key then x20 else x00)
  /\ be16 (at_ body 10) (at_ body 11) = P25.sln Scenario.aes256_key
  /\ be16 (at_ body 12) (at_ body 13) = P25.keyId Scenario.aes256_key
  /\ skipn 14 body = P25.key Scenario.aes256_key.
Proof.
  apply (buildModifyKeyCommand_fields Scenario.aes256_key);
    try reflexivity. simpl. lia.
Defined.

(** The builder for several keys agrees with the builder for one key on a
    single key, returns nothing for no key, and otherwise has nine header
    bytes followed by five bytes and the key material per key. *)
Theorem buildModifyKeyCommands_single (k : P25.KeyItem)
    (keys : list P25.KeyItem) :
  buildModifyKeyCommands [k] = buildModifyKeyCommand k
  /\ buildModifyKeyCommands [] = []
  /\ List.length (buildModifyKeyCommands (k :: keys))
     = (9 + list_sum (map (fun k' => 5 + List.length (P25.key k')) (k :: keys)))%nat.
Proof.
  split; [|split].
  - unfold buildModifyKeyCommands, buildModifyKeyCommand, key_item.
    cbn [flat_map app List.length]. rewrite app_nil_r. reflexivity.
  - reflexivity.
  - unfold buildModifyKeyCommands. rewrite length_app.
    cbn [List.length]. f_equal.
    generalize (k :: keys). intros l.
    induction l as [|k' l IH]; [reflexivity|].
    cbn [flat_map map list_sum]. rewrite length_app, IH.
    unfold key_item. rewrite length_app. cbn [List.length]. reflexivity.
Qed.

End Framing.

(** ** What the receive and session methods do to the line *)

Section Line.

Import KFDProtocol.

Lemma recv_count_app l1 l2 :
  recv_count (l1 ++ l2) = (recv_count l1 + recv_count l2)%nat.
Proof.
  induction l1 as [|c l1 IH]; [reflexivity|].
  destruct c; cbn [app recv_count]; rewrite IH; reflexivity.
Qed.

Lemma recv_count_repeat t n : recv_count (repeat (receiveByte t) n) = n.
Proof. induction n as [|n IH]; [reflexivity|]. cbn. rewrite IH. reflexivity. Qed.

Variable ok : HalCall -> Prop.

Lemma within_ret {A} (a : A) : within ok 0 (ret a).
Proof.
  intros st. exists []. cbn [ret snd recv_count List.length].
  rewrite advance_0. auto.
Qed.

Lemma within_get {A} (f : State -> A) : within ok 0 (get f).
Proof.
  intros st. exists []. cbn [get snd recv_count List.length].
  rewrite advance_0. auto.
Qed.

Lemma within_bind {A B} n1 n2 (m : M A) (k : A -> M B) :
  within ok n1 m -> (forall a, within ok n2 (k a)) ->
  within ok (n1 + n2) (bind m k).
Proof.
  intros Hm Hk st. unfold bind. destruct (Hm st) as [cs1 [E1 [F1 L1]]].
  destruct (m st) as [a st1]. cbn [snd] in E1. subst st1.
  destruct (Hk a (advance (recv_count cs1) cs1 st)) as [cs2 [E2 [F2 L2]]].
  exists (cs1 ++ cs2). rewrite E2, advance_advance, recv_count_app.
  rewrite (Nat.add_comm (recv_count cs2)).
  split; [reflexivity|]. split; [apply Forall_app; auto|].
  rewrite length_app. lia.
Qed.

Lemma within_le {A} n n' (m : M A) :
  (n <= n')%nat -> within ok n m -> within ok n' m.
Proof.
  intros Hn Hm st. destruct (Hm st) as [cs [E [F L]]].
  exists cs. repeat split; auto. lia.
Qed.

Lemma within_call c : ok c -> recv_count [c] = 0%nat -> within ok 1 (call c).
Proof.
  intros Hc Hr st. exists [c]. rewrite Hr. cbn [List.length].
  split; [reflexivity|]. split; [constructor; auto | lia].
Qed.

Lemma within_hal_receiveByte t :
  ok (receiveByte t) -> within ok 1 (hal_receiveByte t).
Proof.
  intros Hc st. exists [receiveByte t]. rewrite hal_receiveByte_advance.
  cbn [snd recv_count List.length].
  split; [reflexivity|]. split; [constructor; auto | lia].
Qed.

Lemma within_drain n t : ok (receiveByte t) -> within ok n (drain n t).
Proof.
  intros Hc. induction n as [|n IH]; cbn [drain]; [apply within_ret|].
  change (S n) with (1 + n)%nat.
  apply within_bind; [apply within_hal_receiveByte; exact Hc|].
  intros [b|]; [exact IH|]. apply (within_le 0); [lia | apply within_ret].
Qed.

Lemma within_read_body n t :
  ok (receiveByte t) -> forall acc, within ok n (read_body n t acc).
Proof.
  intros Hc. induction n as [|n IH]; intros acc; cbn [read_body];
    [apply within_ret|].
  change (S n) with (1 + n)%nat.
  apply within_bind; [apply within_hal_receiveByte; exact Hc|].
  intros [b|]; [apply IH|]. apply (within_le 0); [lia | apply within_ret].
Qed.

Lemma within_dump_raw opcode :
  ok (receiveByte 500) -> within ok 100 (dump_raw 101 [opcode]).
Proof.
  intros Hc st.
  pose proof (dump_raw_spec 101 [opcode] st 100 eq_refl ltac:(lia) ltac:(lia))
    as E.
  cbv zeta in E. rewrite E. cbn [snd].
  set (n := Nat.min 100 _).
  exists (repeat (receiveByte 500) n). rewrite recv_count_repeat, repeat_length.
  split; [reflexivity|]. split; [|unfold n; lia].
  apply Forall_forall. intros c Hin. apply repeat_spec in Hin. subst c.
  exact Hc.
Qed.

End Line.

Section ReceiveBounds.

Import KFDProtocol.

Ltac wbind n1 n2 :=
  apply (within_le _ (n1 + n2)%nat); [lia | apply (within_bind _ n1 n2)].

Ltac wret := apply (within_le _ 0%nat); [lia | apply within_ret].

Lemma waits_in ts t : In t ts -> waits ts (receiveByte t).
Proof. intros H. exists t. auto. Qed.

Lemma within_receiveKmm t : within (waits [t; 500; 100]) 515 (receiveKmm t).
Proof.
  assert (Ht : waits [t; 500; 100] (receiveByte t))
    by (apply waits_in; cbn; auto).
  assert (H500 : waits [t; 500; 100] (receiveByte 500))
    by (apply waits_in; cbn; auto).
  assert (H100 : waits [t; 500; 100] (receiveByte 100))
    by (apply waits_in; cbn; auto).
  unfold receiveKmm.
  wbind 0%nat 515%nat; [apply within_get|]. intros ini.
  destruct (negb ini); [wret|].
  wbind 1%nat 514%nat; [apply within_hal_receiveByte; exact Ht|].
  intros [opcode|]; [|wret].
  destruct (beq opcode xc3).
  { wbind 100%nat 0%nat; [apply within_dump_raw; exact H500|].
    intros raw. apply within_ret. }
  destruct (negb (beq opcode P25.TWI_KMM)).
  { wbind 0%nat 10%nat; [apply within_get|]. intros dbg.
    wbind 10%nat 0%nat; [|intros; apply within_ret].
    destruct dbg; [apply within_drain; exact H100 | wret]. }
  wbind 1%nat 513%nat; [apply within_hal_receiveByte; exact Ht|].
  intros [lenHi|]; [|wret].
  wbind 1%nat 512%nat; [apply within_hal_receiveByte; exact Ht|].
  intros [lenLo|]; [|wret].
  cbv zeta.
  set (len := (Z.lor (Z.shiftl (b2z lenHi) 8) (b2z lenLo)) mod 65536).
  destruct ((len <? 6) || (512 <? len)) eqn:E.
  { wbind 20%nat 0%nat; [apply within_drain; exact H100|].
    intros; apply within_ret. }
  apply orb_false_iff in E. destruct E as [E6 E512].
  apply Z.ltb_ge in E6, E512. clearbody len.
  wbind (Z.to_nat len) 0%nat;
    [apply within_read_body; exact Ht|].
  intros [body|]; [|apply within_ret].
  destruct (6 <? len); apply within_ret.
Qed.

Lemma waits_recv_count ts cs :
  Forall (waits ts) cs -> recv_count cs = List.length cs.
Proof.
  induction 1 as [|c cs [t [_ ->]] _ IH]; [reflexivity|].
  cbn. rewrite IH. reflexivity.
Qed.

(** [receiveKmm] only waits: whatever the line does, it makes at most 515
    calls, each a [receiveByte] with the caller's timeout, 500 ms or
    100 ms; it consumes one answer per call and changes no field of the
    object. *)
Theorem receiveKmm_waits_only (t : Z) (st : State) :
  exists cs,
    snd (receiveKmm t st) = advance (List.length cs) cs st
    /\ Forall (waits [t; 500; 100]) cs
    /\ (List.length cs <= 515)%nat.
Proof.
  destruct (within_receiveKmm t st) as [cs [E [F L]]].
  exists cs. rewrite (waits_recv_count _ _ F) in E. auto.
Qed.

Lemma read_body_length n t : forall acc st body,
  fst (read_body n t acc st) = Some body ->
  List.length body = (List.length acc + n)%nat.
Proof.
  induction n as [|n IH]; intros acc st body H.
  - cbn in H. injection H as <-. lia.
  - cbn [read_body] in H. unfold bind in H.
    destruct (hal_receiveByte t st) as [[b|] st1]; [|discriminate H].
    apply IH in H. rewrite length_app in H. cbn [List.length] in H. lia.
Qed.

Lemma receiveKmm_no_opcode t st :
  answer 0 st = None -> fst (receiveKmm t st) = None.
Proof.
  intros Ha. unfold receiveKmm. unfold bind at 1. unfold get at 1.
  destruct (negb (_initialized st)); [reflexivity|].
  unfold bind at 1. rewrite hal_receiveByte_advance, Ha. reflexivity.
Qed.

Lemma receiveKmm_uninitialized t st :
  _initialized st = false -> receiveKmm t st = (None, st).
Proof.
  intros Hi. unfold receiveKmm. unfold bind at 1. unfold get at 1.
  rewrite Hi. reflexivity.
Qed.

(** Whenever [receiveKmm] returns [true] its result has at least one byte
    and at most 506. *)
Theorem receiveKmm_result_size (t : Z) (st : State) (kmm : list byte) :
  fst (receiveKmm t st) = Some kmm ->
  (1 <= List.length kmm <= 506)%nat.
Proof.
  intros H.
  destruct (_initialized st) eqn:Hi;
    [|rewrite (receiveKmm_uninitialized t st Hi) in H; discriminate H].
  destruct (answer 0 st) as [opcode|] eqn:Ha;
    [|rewrite (receiveKmm_no_opcode t st Ha) in H; discriminate H].
  rewrite (receiveKmm_opcode t st opcode Hi Ha) in H.
  destruct (beq opcode xc3).
  { unfold bind in H.
    pose proof (dump_raw_spec 101 [opcode] (advance 1 [receiveByte t] st) 100
                  eq_refl ltac:(lia) ltac:(lia)) as E.
    cbv zeta in E.
    pose proof (leading_bytes_length 100 (rx (advance 1 [receiveByte t] st)))
      as Hl.
    set (tr := leading_bytes 100 (rx (advance 1 [receiveByte t] st))) in *.
    clearbody tr. rewrite E in H. cbn [fst ret] in H. injection H as <-.
    cbn [app List.length]. lia. }
  destruct (negb (beq opcode P25.TWI_KMM)).
  { exfalso. unfold bind, get in H.
    destruct (_debug (advance 1 [receiveByte t] st));
      [destruct (drain 10 100 (advance 1 [receiveByte t] st))|];
      discriminate H. }
  unfold bind at 1 in H.
  destruct (hal_receiveByte t (advance 1 [receiveByte t] st))
    as [[lenHi|] st1]; [|discriminate H].
  unfold bind at 1 in H.
  destruct (hal_receiveByte t st1) as [[lenLo|] st2]; [|discriminate H].
  cbv zeta in H.
  set (len := (Z.lor (Z.shiftl (b2z lenHi) 8) (b2z lenLo)) mod 65536) in H.
  destruct ((len <? 6) || (512 <? len)) eqn:E.
  { exfalso. unfold bind in H. destruct (drain 20 100 st2). discriminate H. }
  apply orb_false_iff in E. destruct E as [E6 E512].
  apply Z.ltb_ge in E6, E512. clearbody len.
  unfold bind at 1 in H.
  destruct (read_body (Z.to_nat len) t [] st2) as [[body|] st3] eqn:Erb;
    [|discriminate H].
  assert (Hl : List.length body = Z.to_nat len).
  { apply (read_body_length (Z.to_nat len) t [] st2). rewrite Erb. reflexivity. }
  destruct (Z.ltb_spec 6 len); unfold ret in H; cbn [fst] in H.
  - assert (Hk : firstn (List.length body - 4 - 2) (skipn 4 body) = kmm)
      by congruence.
    rewrite <- Hk, length_firstn, length_skipn. lia.
  - assert (Hk : body = kmm) by congruence. rewrite <- Hk. lia.
Qed.

Lemma receiveKmm_result_size_witness :
  (1 <= List.length [x07; x00; x04] <= 506)%nat.
Proof.
  apply (receiveKmm_result_size 10000
           (initial (arriving
              [xc2; x00; x09; x00; xff; xff; xff; x07; x00; x04; x0c; x74]))).
  vm_compute. reflexivity.
Defined.

(** After opcode 0xC2 and the two length bytes the method goes on
    according to the length alone. *)
Lemma receiveKmm_header t st lenHi lenLo :
  _initialized st = true ->
  answer 0 st = Some xc2 -> answer 1 st = Some lenHi ->
  answer 2 st = Some lenLo ->
  receiveKmm t st =
  (if (be16 lenHi lenLo <? 6) || (512 <? be16 lenHi lenLo) then
     drain 20 100 ;; ret None
   else
     rb <- read_body (Z.to_nat (be16 lenHi lenLo)) t [] ;;
     match rb with
     | None => ret None
     | Some body =>
         if 6 <? be16 lenHi lenLo then
           ret (Some (firstn (List.length body - 4 - 2) (skipn 4 body)))
         else ret (Some body)
     end)
    (advance 3 [receiveByte t; receiveByte t; receiveByte t] st).
Proof.
  intros Hi H0 H1 H2.
  rewrite (receiveKmm_opcode t st xc2 Hi H0).
  change (beq xc2 xc3) with false. change (beq xc2 P25.TWI_KMM) with true.
  cbn [negb]. cbv iota.
  unfold bind at 1. rewrite hal_receiveByte_advance, answer_advance.
  cbn [Nat.add]. rewrite H1, advance_step.
  unfold bind at 1. rewrite hal_receiveByte_advance, answer_advance.
  cbn [Nat.add]. rewrite H2, advance_advance. cbn [Nat.add app].
  cbv zeta. rewrite len16. reflexivity.
Qed.

Lemma receiveKmm_bad_length_aux (t : Z) (st : State) (lenHi lenLo : byte) :
  _initialized st = true ->
  answer 0 st = Some xc2 -> answer 1 st = Some lenHi ->
  answer 2 st = Some lenLo ->
  be16 lenHi lenLo < 6 \/ 512 < be16 lenHi lenLo ->
  exists n, (n <= 20)%nat
    /\ receiveKmm t st =
       (None,
        advance (3 + n)
          ([receiveByte t; receiveByte t; receiveByte t]
             ++ repeat (receiveByte 100) n) st).
Proof.
  intros Hi H0 H1 H2 Hlen.
  rewrite (receiveKmm_header t st lenHi lenLo Hi H0 H1 H2).
  replace ((be16 lenHi lenLo <? 6) || (512 <? be16 lenHi lenLo)) with true.
  - destruct (drain_spec 20 100
                (advance 3 [receiveByte t; receiveByte t; receiveByte t] st))
      as [n [Hn E]].
    exists n. split; [exact Hn|]. unfold bind. rewrite E, advance_advance.
    rewrite (Nat.add_comm n 3). reflexivity.
  - symmetry. apply orb_true_iff.
    destruct Hlen; [left | right]; apply Z.ltb_lt; assumption.
Qed.

(** A length field below 6 or above 512 makes [receiveKmm] fail: it reads
    up to 20 more bytes with a timeout of 100 ms each, whether or not
    [_debug] is set, and returns [false]. *)
Theorem receiveKmm_bad_length (t : Z) (st : State) (lenHi lenLo : byte) :
  _initialized st = true ->
  answer 0 st = Some xc2 -> answer 1 st = Some lenHi ->
  answer 2 st = Some lenLo ->
  be16 lenHi lenLo < 6 \/ 512 < be16 lenHi lenLo ->
  exists n, (n <= 20)%nat
    /\ receiveKmm t st =
       (None,
        advance (3 + n)
          ([receiveByte t; receiveByte t; receiveByte t]
             ++ repeat (receiveByte 100) n) st).
Proof. apply receiveKmm_bad_length_aux. Qed.

Lemma receiveKmm_bad_length_witness :
  exists n, (n <= 20)%nat
    /\ receiveKmm 5000 (initial (arriving [xc2; x02; x01; x00; x01])) =
       (None,
        advance (3 + n)
          ([receiveByte 5000; receiveByte 5000; receiveByte 5000]
             ++ repeat (receiveByte 100) n)
          (initial (arriving [xc2; x02; x01; x00; x01]))).
Proof.
  apply (receiveKmm_bad_length 5000
           (initial (arriving [xc2; x02; x01; x00; x01])) x02 x01);
    try reflexivity.
  right. reflexivity.
Defined.

Lemma read_body_timeout n t : forall acc st bs,
  (List.length bs < n)%nat ->
  firstn (S (List.length bs)) (rx st) = arriving bs ++ [None]
  \/ rx st = arriving bs ->
  read_body n t acc st =
  (None,
   advance (S (List.length bs))
     (repeat (receiveByte t) (S (List.length bs))) st).
Proof.
  induction n as [|n IH]; intros acc st bs Hl Hrx; [lia|].
  cbn [read_body]. unfold bind at 1. rewrite hal_receiveByte_advance.
  destruct bs as [|b bs].
  - assert (Ha : answer 0 st = None).
    { unfold answer. destruct Hrx as [Hrx|Hrx].
      - destruct (rx st) as [|x l]; [reflexivity|].
        cbn in Hrx. injection Hrx as ->. reflexivity.
      - rewrite Hrx. reflexivity. }
    rewrite Ha. reflexivity.
  - assert (Ha : answer 0 st = Some b).
    { unfold answer. destruct Hrx as [Hrx|Hrx].
      - destruct (rx st) as [|x l]; [discriminate Hrx|].
        cbn in Hrx. injection Hrx as -> _. reflexivity.
      - rewrite Hrx. reflexivity. }
    rewrite Ha.
    rewrite (IH (acc ++ [b]) (advance 1 [receiveByte t] st) bs).
    + rewrite advance_step. reflexivity.
    + cbn [List.length] in Hl. lia.
    + cbn [advance rx]. destruct Hrx as [Hrx|Hrx].
      * left. destruct (rx st) as [|x l]; [discriminate Hrx|].
        cbn [List.length firstn arriving map app] in Hrx.
        injection Hrx as _ Hrx. exact Hrx.
      * right. rewrite Hrx. reflexivity.
Qed.

(** A frame that stops short is abandoned: when the line falls silent
    after the header and fewer body bytes than the length field announces,
    [receiveKmm] returns [false] at the first timeout, without retrying
    and without keeping what it had read. *)
Theorem receiveKmm_truncated
    (t : Z) (st : State) (lenHi lenLo : byte) (part : list byte) :
  _initialized st = true ->
  rx st = arriving (xc2 :: lenHi :: lenLo :: part) ->
  6 <= be16 lenHi lenLo <= 512 ->
  Z.of_nat (List.length part) < be16 lenHi lenLo ->
  receiveKmm t st =
  (None,
   advance (4 + List.length part)
     (repeat (receiveByte t) (4 + List.length part)) st).
Proof.
  intros Hi Hrx Hr Hp.
  rewrite (receiveKmm_header t st lenHi lenLo Hi);
    try (unfold answer; rewrite Hrx; reflexivity).
  replace ((be16 lenHi lenLo <? 6) || (512 <? be16 lenHi lenLo)) with false
    by (symmetry; apply orb_false_iff; split; apply Z.ltb_ge; lia).
  unfold bind at 1.
  rewrite (read_body_timeout (Z.to_nat (be16 lenHi lenLo)) t []
             (advance 3 [receiveByte t; receiveByte t; receiveByte t] st)
             part).
  - rewrite advance_advance.
    replace (S (List.length part) + 3)%nat with (4 + List.length part)%nat
      by lia.
    replace ([receiveByte t; receiveByte t; receiveByte t]
               ++ repeat (receiveByte t) (S (List.length part)))
      with (repeat (receiveByte t) (4 + List.length part)) by reflexivity.
    reflexivity.
  - lia.
  - right. cbn [advance rx]. rewrite Hrx. reflexivity.
Qed.

Lemma receiveKmm_truncated_witness :
  receiveKmm 5000 (initial (arriving [xc2; x00; x09; x00; xff; xff])) =
  (None,
   advance (4 + 3) (repeat (receiveByte 5000) (4 + 3))
     (initial (arriving [xc2; x00; x09; x00; xff; xff]))).
Proof.
  apply (receiveKmm_truncated 5000
           (initial (arriving [xc2; x00; x09; x00; xff; xff]))
           x00 x09 [x00; xff; xff]); try reflexivity.
  - split; discriminate.
Defined.

Lemma buildKmmFrame3_shape body messageId responseKind :
  buildKmmFrame3 body messageId responseKind =
  xc2
    :: z2b (Z.land (Z.shiftr (Z.of_nat (List.length body) + 16) 8) 0xFF)
    :: z2b (Z.land (Z.of_nat (List.length body) + 16) 0xFF)
    :: ([x00; xff; xff; xff] ++ kmmFrame body messageId responseKind
        ++ [z2b (Z.land (P25.calculateCrc16
                           (twiBody body messageId responseKind)) 0xFF);
            z2b (Z.land (Z.shiftr (P25.calculateCrc16
                                     (twiBody body messageId responseKind)) 8)
                        0xFF)]).
Proof.
  unfold buildKmmFrame3. cbv zeta.
  rewrite (twiBody_length body messageId responseKind).
  replace (14 + Z.of_nat (List.length body) + 2)
    with (Z.of_nat (List.length body) + 16) by lia.
  reflexivity.
Qed.

Lemma receiveKmm_built
    (t : Z) (st : State) (body : list byte) (messageId responseKind : byte)
    (rest : list (option byte)) :
  _initialized st = true ->
  (List.length body <= 496)%nat ->
  rx st = arriving (buildKmmFrame3 body messageId responseKind) ++ rest ->
  receiveKmm t st =
  (Some (kmmFrame body messageId responseKind),
   advance (19 + List.length body)
     (repeat (receiveByte t) (19 + List.length body)) st)
  /\ skipn 10 (kmmFrame body messageId responseKind) = body.
Proof.
  intros Hi Hl Hrx. split; [|reflexivity].
  rewrite buildKmmFrame3_shape in Hrx.
  set (crc := P25.calculateCrc16 (twiBody body messageId responseKind)) in *.
  set (inner := kmmFrame body messageId responseKind) in *.
  assert (Hin : Z.of_nat (List.length inner) = 10 + Z.of_nat (List.length body))
    by apply kmmFrame_length.
  set (wire := [x00; xff; xff; xff] ++ inner
               ++ [z2b (Z.land crc 0xFF); z2b (Z.land (Z.shiftr crc 8) 0xFF)])
    in *.
  assert (Hw : List.length wire = (16 + List.length body)%nat).
  { unfold wire. rewrite !length_app. cbn [List.length]. lia. }
  rewrite (receiveKmm_frame t st _ _ wire rest Hi Hrx).
  - rewrite Hw.
    replace (6 <? Z.of_nat (16 + List.length body)) with true
      by (symmetry; apply Z.ltb_lt; lia).
    replace (3 + (16 + List.length body))%nat with (19 + List.length body)%nat
      by lia.
    f_equal. f_equal. unfold wire. cbn [app skipn].
    replace (16 + List.length body - 4 - 2)%nat
      with (List.length inner + 0)%nat by lia.
    rewrite firstn_app_2. cbn [firstn]. apply app_nil_r.
  - rewrite (be16_split []), Hw. rewrite Z.mod_small; lia.
  - rewrite Hw. lia.
Qed.

(** Building then receiving is the identity on the inner KMM: when the
    bytes of a frame built from a body of at most 496 bytes arrive,
    [receiveKmm] returns the inner KMM the builder wrapped (message id,
    message length, format, both RSIs and the body), having read exactly
    the frame. *)
Theorem build_receive_round_trip
    (t : Z) (st : State) (body : list byte) (messageId responseKind : byte)
    (rest : list (option byte)) :
  _initialized st = true ->
  (List.length body <= 496)%nat ->
  rx st = arriving (buildKmmFrame3 body messageId responseKind) ++ rest ->
  receiveKmm t st =
  (Some (kmmFrame body messageId responseKind),
   advance (19 + List.length body)
     (repeat (receiveByte t) (19 + List.length body)) st)
  /\ skipn 10 (kmmFrame body messageId responseKind) = body.
Proof. apply receiveKmm_built. Qed.

Lemma build_receive_round_trip_witness :
  receiveKmm 5000
    (initial (arriving (buildKmmFrame3 [x02] P25.MSG_INVENTORY_CMD xc0) ++ []))
  = (Some (kmmFrame [x02] P25.MSG_INVENTORY_CMD xc0),
     advance (19 + 1) (repeat (receiveByte 5000) (19 + 1))
       (initial (arriving (buildKmmFrame3 [x02] P25.MSG_INVENTORY_CMD xc0)
                 ++ [])))
  /\ skipn 10 (kmmFrame [x02] P25.MSG_INVENTORY_CMD xc0) = [x02].
Proof.
  apply (build_receive_round_trip 5000
           (initial (arriving (buildKmmFrame3 [x02] P25.MSG_INVENTORY_CMD xc0)
                     ++ []))
           [x02] P25.MSG_INVENTORY_CMD xc0 []); try reflexivity.
  simpl. lia.
Defined.

(** The receiver refuses what the builder produces for a larger body: a
    frame built from a body of 497 to 65519 bytes announces a length above
    512, and [receiveKmm] returns [false] on it. *)
Theorem build_receive_too_long
    (t : Z) (st : State) (body : list byte) (messageId responseKind : byte)
    (rest : list (option byte)) :
  _initialized st = true ->
  496 < Z.of_nat (List.length body) <= 65519 ->
  rx st = arriving (buildKmmFrame3 body messageId responseKind) ++ rest ->
  fst (receiveKmm t st) = None.
Proof.
  intros Hi Hl Hrx. rewrite buildKmmFrame3_shape in Hrx.
  destruct (receiveKmm_bad_length_aux t st
              (z2b (Z.land (Z.shiftr (Z.of_nat (List.length body) + 16) 8) 0xFF))
              (z2b (Z.land (Z.of_nat (List.length body) + 16) 0xFF)) Hi)
    as [n [_ E]];
    try (unfold answer; rewrite Hrx; reflexivity).
  - right. rewrite (be16_split []), Z.mod_small; lia.
  - rewrite E. reflexivity.
Qed.

Lemma build_receive_too_long_witness :
  fst (receiveKmm 5000
         (initial (arriving (buildKmmFrame3 (repeat x00 497) x04 xc0) ++ [])))
  = None.
Proof.
  apply (build_receive_too_long 5000
           (initial (arriving (buildKmmFrame3 (repeat x00 497) x04 xc0) ++ []))
           (repeat x00 497) x04 xc0 []); try reflexivity.
  rewrite repeat_length. lia.
Defined.

End ReceiveBounds.

(** ** Sessions and single operations *)

Section SingleOperations.

Import KFDProtocol.

Let any (c : HalCall) : Prop := True.

Lemma endSession_eq st :
  _initialized st = true ->
  endSession st =
  (tt, advance (recv_count (teardown (answer 0 st)))
         (teardown (answer 0 st)) st).
Proof.
  intros Hi. unfold endSession. unfold bind at 1. unfold get at 1.
  rewrite Hi. cbn [negb]. unfold bind at 1. rewrite call_advance.
  unfold bind at 1. rewrite hal_receiveByte_advance, answer_advance.
  cbn [Nat.add]. rewrite advance_advance. unfold teardown.
  destruct (answer 0 st) as [b|].
  - destruct (beq b P25.TWI_TRANSFER_DONE).
    + unfold bind at 1. rewrite call_advance, advance_advance.
      unfold bind at 1. rewrite hal_receiveByte_advance, advance_advance.
      rewrite call_advance, advance_advance. reflexivity.
    + rewrite call_advance, advance_advance. reflexivity.
  - rewrite call_advance, advance_advance. reflexivity.
Qed.

(** The teardown is best effort: [endSession] sends the transfer-done
    byte and waits one second for its echo; only when the echo is 0xC1 does
    it send the disconnect byte and wait one more second, whose answer it
    never examines; it retries nothing and always ends by calling
    [disableInterface]. On an object without HAL it does nothing. *)
Theorem endSession_trace (st : State) :
  (_initialized st = true ->
   endSession st =
   (tt,
    advance (if match answer 0 st with
                | Some b => beq b xc1
                | None => false
                end then 2 else 1)
      ([sendByte xc1; receiveByte 1000]
         ++ (if match answer 0 st with
                | Some b => beq b xc1
                | None => false
                end
             then [sendByte x92; receiveByte 1000] else [])
         ++ [disableInterface]) st))
  /\ (_initialized st = false -> endSession st = (tt, st)).
Proof.
  split.
  - intros Hi. rewrite (endSession_eq st Hi). unfold teardown.
    destruct (answer 0 st) as [b|]; [destruct (beq b P25.TWI_TRANSFER_DONE) eqn:E|];
      unfold P25.TWI_TRANSFER_DONE in *; rewrite ?E; reflexivity.
  - intros Hi. unfold endSession, bind, get. rewrite Hi. reflexivity.
Qed.

Lemma endSession_trace_witness :
  endSession (initial [Some x55]) =
  (tt,
   advance 1 ([sendByte xc1; receiveByte 1000] ++ [] ++ [disableInterface])
     (initial [Some x55])).
Proof.
  apply (proj1 (endSession_trace (initial [Some x55]))). reflexivity.
Defined.

Lemma within_endSession : within any 5 endSession.
Proof.
  intros st. destruct (_initialized st) eqn:Hi.
  - rewrite (endSession_eq st Hi). exists (teardown (answer 0 st)).
    split; [reflexivity|]. split; [apply Forall_forall; intros; exact I|].
    unfold teardown.
    destruct (answer 0 st) as [b|]; [destruct (beq b P25.TWI_TRANSFER_DONE)|];
      cbn; lia.
  - exists []. unfold endSession, bind, get. rewrite Hi.
    cbn [negb ret snd recv_count List.length]. rewrite advance_0.
    split; [reflexivity|]. split; [constructor | lia].
Qed.

Lemma within_beginSession_attempts n :
  within any (3 * n) (beginSession_attempts n).
Proof.
  induction n as [|n IH]; intros st.
  - exists []. cbn [beginSession_attempts ret snd recv_count List.length].
    rewrite advance_0. split; [reflexivity|]. split; [constructor | lia].
  - rewrite beginSession_attempts_step.
    destruct (ready_mode (answer 0 st)) as [d|].
    + exists (attempt ++ post_ready st). cbn [snd].
      replace (recv_count (attempt ++ post_ready st)) with 1%nat
        by (unfold post_ready; destruct (0 <? _postReadyDelayUs st);
            reflexivity).
      split; [reflexivity|]. split; [apply Forall_forall; intros; exact I|].
      unfold post_ready. destruct (0 <? _postReadyDelayUs st); cbn; lia.
    + destruct (IH (advance 1 (attempt ++ [delay 500]) st)) as [cs [E [F L]]].
      exists ((attempt ++ [delay 500]) ++ cs).
      rewrite E, advance_advance, recv_count_app.
      split; [f_equal; cbn; lia|].
      split; [apply Forall_forall; intros; exact I|].
      rewrite length_app. cbn [List.length attempt app]. lia.
Qed.

Lemma within_beginSession : within any 9 beginSession.
Proof.
  intros st. unfold beginSession, bind, get.
  destruct (negb (_initialized st)).
  - exists []. cbn [ret snd recv_count List.length]. rewrite advance_0.
    split; [reflexivity|]. split; [constructor | lia].
  - apply (within_beginSession_attempts 3).
Qed.

Lemma within_any {A} ok n (m : M A) : within ok n m -> within any n m.
Proof.
  intros H st. destruct (H st) as [cs [E [_ L]]]. exists cs.
  split; [exact E|]. split; [apply Forall_forall; intros; exact I | exact L].
Qed.

Lemma within_effect {A} ok n (m : M A) st :
  within ok n m ->
  object (snd (m st)) = object st
  /\ exists cs, calls (snd (m st)) = calls st ++ cs
                /\ (List.length cs <= n)%nat.
Proof.
  intros H. destruct (H st) as [cs [E [_ L]]]. rewrite E.
  split; [reflexivity|]. exists cs. split; [reflexivity | exact L].
Qed.

Lemma sendKmm_initialized kmm st :
  _initialized st = true ->
  sendKmm kmm st = (true, snd (sendKmm kmm st))
  /\ rx (snd (sendKmm kmm st)) = rx st
  /\ object (snd (sendKmm kmm st)) = object st
  /\ calls (snd (sendKmm kmm st))
     = calls st ++ sendBytesFast (buildKmmFrame kmm) :: polling st.
Proof.
  intros Hi.
  destruct st as [ini dbg busy ab us hd r l cs]. cbn in Hi. subst ini.
  unfold sendKmm, polling, bind, get, enableDebug, call, pollLine, ret, object.
  destruct dbg;
    cbn [negb fst snd _initialized _debug _operationInProgress
         _abortRequested _postReadyDelayUs hal_debug rx line calls];
    rewrite <- ?app_assoc; repeat split; reflexivity.
Qed.

Lemma polling_quiet st :
  recv_count (polling st) = 0%nat /\ frames_sent (polling st) = [].
Proof.
  unfold polling. destruct (_debug st); [|split; reflexivity].
  cbn [recv_count frames_sent]. generalize (line st). intros l.
  induction l as [|[[|]|] l [IH1 IH2]]; cbn [poll_line fst];
    try (split; reflexivity).
  destruct (poll_line l) as [cs rest]. cbn [fst recv_count frames_sent] in *.
  split; assumption.
Qed.

Lemma object_fields st st' :
  object st' = object st ->
  _initialized st' = _initialized st
  /\ _operationInProgress st' = _operationInProgress st
  /\ _abortRequested st' = _abortRequested st.
Proof. unfold object. intros H. repeat split; congruence. Qed.

Lemma object_initialized st st' :
  object st' = object st -> _initialized st' = _initialized st.
Proof. unfold object. intros H. congruence. Qed.

Lemma eraseAllKeys_no_session st st2 :
  _initialized st = true -> _operationInProgress st = false ->
  beginSession (snd (set_operationInProgress true st)) = (None, st2) ->
  eraseAllKeys st =
  (Result_ false "Failed to connect to radio",
   snd (set_operationInProgress false st2)).
Proof.
  intros Hi Hb Hs. unfold eraseAllKeys.
  unfold bind at 1. unfold get at 1. rewrite Hi. cbn [negb].
  unfold bind at 1. unfold get at 1. rewrite Hb.
  unfold bind at 1. cbn [set_operationInProgress]. unfold bind at 1.
  change (beginSession _)
    with (beginSession (snd (set_operationInProgress true st))).
  rewrite Hs. reflexivity.
Qed.

Lemma eraseAllKeys_session st d st2 :
  _initialized st = true -> _operationInProgress st = false ->
  beginSession (snd (set_operationInProgress true st)) = (Some d, st2) ->
  _initialized st2 = true
  /\ eraseAllKeys st =
     (match fst (receiveKmm 10000 (snd (sendKmm buildZeroizeCommand st2))) with
      | None => Result_ false "No response"
      | Some _ => Result_ true "All keys erased"
      end,
      snd (set_operationInProgress false
        (snd (endSession
          (snd (receiveKmm 10000
                  (snd (sendKmm buildZeroizeCommand st2)))))))).
Proof.
  intros Hi Hb Hs.
  assert (Hi2 : _initialized st2 = true).
  { pose proof (within_effect any 9 beginSession
                  (snd (set_operationInProgress true st)) within_beginSession)
      as [Ho _].
    rewrite Hs in Ho. apply object_initialized in Ho. cbn in Ho. congruence. }
  split; [exact Hi2|].
  unfold eraseAllKeys.
  unfold bind at 1. unfold get at 1. rewrite Hi. cbn [negb].
  unfold bind at 1. unfold get at 1. rewrite Hb.
  unfold bind at 1. cbn [set_operationInProgress]. unfold bind at 1.
  change (beginSession _)
    with (beginSession (snd (set_operationInProgress true st))).
  rewrite Hs. cbv zeta.
  unfold bind at 1.
  destruct (sendKmm_initialized buildZeroizeCommand st2 Hi2) as [Es _].
  destruct (sendKmm buildZeroizeCommand st2) as [sent st3].
  cbn [snd] in Es |- *.
  assert (Et : sent = true) by congruence. rewrite Et. cbn [negb].
  unfold bind at 1.
  destruct (receiveKmm 10000 st3) as [[response|] st4]; cbn [fst snd];
    unfold bind; destruct (endSession st4) as [u st5]; reflexivity.
Qed.

Lemma recv_count_le cs : (recv_count cs <= List.length cs)%nat.
Proof.
  induction cs as [|c cs IH]; [cbn; lia|].
  destruct c; cbn [recv_count List.length]; lia.
Qed.

Lemma waited_trans n1 f1 n2 f2 a b c :
  waited n1 f1 a b -> waited n2 f2 b c -> waited (n1 + n2) (f1 + f2) a c.
Proof.
  intros [cs1 [E1 [R1 F1]]] [cs2 [E2 [R2 F2]]]. exists (cs1 ++ cs2).
  rewrite E2, E1, app_assoc, recv_count_app, frames_sent_app, length_app.
  split; [reflexivity|]. split; lia.
Qed.

Lemma waited_le n f n' f' a b :
  (n <= n')%nat -> (f <= f')%nat -> waited n f a b -> waited n' f' a b.
Proof.
  intros Hn Hf [cs [E [R F]]]. exists cs. split; [exact E|]. split; lia.
Qed.

Lemma waited_same_calls a b : calls b = calls a -> waited 0 0 a b.
Proof.
  intros E. exists []. rewrite E, app_nil_r.
  split; [reflexivity|]. split; cbn; lia.
Qed.

Lemma waited_beginSession_attempts n :
  forall st, waited n 0 st (snd (beginSession_attempts n st)).
Proof.
  induction n as [|n IH]; intros st.
  - apply waited_same_calls. reflexivity.
  - rewrite beginSession_attempts_step.
    destruct (ready_mode (answer 0 st)) as [d|].
    + exists (attempt ++ post_ready st). cbn [snd advance calls].
      split; [reflexivity|]. unfold post_ready.
      destruct (0 <? _postReadyDelayUs st); cbn; lia.
    + apply (waited_le (1 + n) (0 + 0)); [lia | lia |].
      apply (waited_trans _ _ _ _ _ (advance 1 (attempt ++ [delay 500]) st));
        [|apply IH].
      exists (attempt ++ [delay 500]). split; [reflexivity|]. cbn; lia.
Qed.

Lemma waited_beginSession st : waited 3 0 st (snd (beginSession st)).
Proof.
  unfold beginSession, bind, get. destruct (negb (_initialized st)).
  - apply (waited_le 0 0); [lia | lia |]. apply waited_same_calls.
    reflexivity.
  - apply waited_beginSession_attempts.
Qed.

Lemma waited_receiveKmm t st : waited 515 0 st (snd (receiveKmm t st)).
Proof.
  destruct (within_receiveKmm t st) as [cs [E [F L]]]. exists cs.
  rewrite E. cbn [advance calls]. split; [reflexivity|].
  rewrite (waits_recv_count _ _ F). split; [exact L|].
  replace (frames_sent cs) with (@nil (list byte)); [cbn; lia|].
  clear E L. induction F as [|c cs [t' [_ ->]] _ IH]; [reflexivity | exact IH].
Qed.

Lemma waited_endSession st : waited 2 0 st (snd (endSession st)).
Proof.
  destruct (_initialized st) eqn:Hi.
  - rewrite (endSession_eq st Hi). exists (teardown (answer 0 st)).
    cbn [snd advance calls]. split; [reflexivity|]. unfold teardown.
    destruct (answer 0 st) as [b|]; [destruct (beq b P25.TWI_TRANSFER_DONE)|];
      cbn; lia.
  - unfold endSession, bind, get. rewrite Hi.
    apply (waited_le 0 0); [lia | lia |]. apply waited_same_calls.
    reflexivity.
Qed.

Lemma waited_sendKmm kmm st :
  _initialized st = true -> waited 0 1 st (snd (sendKmm kmm st)).
Proof.
  intros Hi. destruct (sendKmm_initialized kmm st Hi) as (_ & _ & _ & Ec).
  exists (sendBytesFast (buildKmmFrame kmm) :: polling st).
  split; [exact Ec|]. destruct (polling_quiet st) as [Hr Hf].
  cbn [recv_count frames_sent]. rewrite Hr, Hf. cbn [List.length]. lia.
Qed.

(** [keyload] and [eraseAllKeys] always release the object: started on an
    initialised, idle object they wait for at most 520 bytes (three in the
    handshake, 515 for the response, two in the teardown), send at most one
    frame, and leave the object initialised and idle, whatever the peer
    does and whatever the polling of the line finds. *)
Theorem single_operations_end_idle (k : P25.KeyItem) (st : State) :
  _initialized st = true -> _operationInProgress st = false ->
  (waited 520 1 st (snd (keyload k st))
   /\ _initialized (snd (keyload k st)) = true
   /\ _operationInProgress (snd (keyload k st)) = false
   /\ _abortRequested (snd (keyload k st)) = false)
  /\ (waited 520 1 st (snd (eraseAllKeys st))
      /\ _initialized (snd (eraseAllKeys st)) = true
      /\ _operationInProgress (snd (eraseAllKeys st)) = false).
Proof.
  intros Hi Hb. split.
  - destruct (within_effect any 9 beginSession (keyload_entry st)
                within_beginSession) as [Ho1 _].
    pose proof (waited_beginSession (keyload_entry st)) as Hx1.
    destruct (beginSession (keyload_entry st)) as [[d|] st2] eqn:Hs;
      cbn [snd] in Ho1, Hx1.
    + rewrite (keyload_session k st d st2 Hi Hb Hs). cbn [snd].
      set (st3 := keyload_sent k st2).
      destruct (within_effect _ 515 (receiveKmm 10000) st3
                  (within_receiveKmm 10000)) as [Ho3 _].
      pose proof (waited_receiveKmm 10000 st3) as Hx3.
      destruct (within_effect any 5 endSession
                  (snd (receiveKmm 10000 st3)) within_endSession)
        as [Ho4 _].
      pose proof (waited_endSession (snd (receiveKmm 10000 st3))) as Hx4.
      set (st4 := snd (receiveKmm 10000 st3)) in *.
      set (st5 := snd (endSession st4)) in *.
      assert (Hx : waited 520 1 st st5).
      { apply (waited_le (3 + 0 + 515 + 2) (0 + 1 + 0 + 0)); [lia | lia |].
        apply (waited_trans _ _ _ _ _ st4); [|exact Hx4].
        apply (waited_trans _ _ _ _ _ st3); [|exact Hx3].
        apply (waited_trans _ _ _ _ _ st2); [exact Hx1|].
        exists [sendBytesFast (buildKmmFrame (buildModifyKeyCommand k))].
        split; [reflexivity|]. cbn [recv_count frames_sent List.length]. lia. }
      destruct (object_fields _ _ Ho1) as (F1 & _ & F3).
      destruct (object_fields _ _ Ho3) as (G1 & _ & G3).
      destruct (object_fields _ _ Ho4) as (K1 & _ & K3).
      cbn in F1, F3, G1, G3.
      split; [|cbn; repeat split; congruence].
      destruct Hx as [cs [E L]]. exists cs. split; [exact E | exact L].
    + rewrite (keyload_no_session k st st2 Hi Hb Hs). cbn [snd].
      destruct (object_fields _ _ Ho1) as (F1 & _ & F3).
      cbn in F1, F3.
      split; [|cbn; repeat split; congruence].
      apply (waited_le 3 0); [lia | lia |].
      destruct Hx1 as [cs [E L]]. exists cs. split; [exact E | exact L].
  - destruct (within_effect any 9 beginSession
                (snd (set_operationInProgress true st))
                within_beginSession) as [Ho1 _].
    pose proof (waited_beginSession (snd (set_operationInProgress true st)))
      as Hx1.
    destruct (beginSession (snd (set_operationInProgress true st)))
      as [[d|] st2] eqn:Hs; cbn [snd] in Ho1, Hx1.
    + destruct (eraseAllKeys_session st d st2 Hi Hb Hs) as [Hi2 Ee].
      rewrite Ee. cbn [snd].
      destruct (sendKmm_initialized buildZeroizeCommand st2 Hi2)
        as (_ & _ & Ho2 & _).
      pose proof (waited_sendKmm buildZeroizeCommand st2 Hi2) as Hx2.
      set (st3 := snd (sendKmm buildZeroizeCommand st2)) in *.
      destruct (within_effect _ 515 (receiveKmm 10000) st3
                  (within_receiveKmm 10000)) as [Ho3 _].
      pose proof (waited_receiveKmm 10000 st3) as Hx3.
      destruct (within_effect any 5 endSession
                  (snd (receiveKmm 10000 st3)) within_endSession)
        as [Ho4 _].
      pose proof (waited_endSession (snd (receiveKmm 10000 st3))) as Hx4.
      set (st4 := snd (receiveKmm 10000 st3)) in *.
      set (st5 := snd (endSession st4)) in *.
      assert (Hx : waited 520 1 st st5).
      { apply (waited_le (3 + 0 + 515 + 2) (0 + 1 + 0 + 0)); [lia | lia |].
        apply (waited_trans _ _ _ _ _ st4); [|exact Hx4].
        apply (waited_trans _ _ _ _ _ st3); [|exact Hx3].
        apply (waited_trans _ _ _ _ _ st2); [exact Hx1 | exact Hx2]. }
      assert (Ho : _initialized st5 = true).
      { apply object_initialized in Ho4. rewrite Ho4.
        apply object_initialized in Ho3. rewrite Ho3.
        apply object_initialized in Ho2. rewrite Ho2. exact Hi2. }
      split; [|split; [exact Ho | reflexivity]].
      destruct Hx as [cs [E L]]. exists cs. split; [exact E | exact L].
    + rewrite (eraseAllKeys_no_session st st2 Hi Hb Hs). cbn [snd].
      apply object_initialized in Ho1. cbn in Ho1 |- *.
      split; [|split; [congruence | reflexivity]].
      apply (waited_le 3 0); [lia | lia |].
      destruct Hx1 as [cs [E L]]. exists cs. split; [exact E | exact L].
Qed.

(** The peer acknowledges, and the polling after the zeroize frame finds
    the line idle twice and then busy. *)
Lemma single_operations_end_idle_witness :
  (waited 520 1 Scenario.polled_line
     (snd (keyload Scenario.aes256_key Scenario.polled_line))
   /\ _initialized (snd (keyload Scenario.aes256_key Scenario.polled_line))
      = true
   /\ _operationInProgress
        (snd (keyload Scenario.aes256_key Scenario.polled_line)) = false
   /\ _abortRequested
        (snd (keyload Scenario.aes256_key Scenario.polled_line)) = false)
  /\ (waited 520 1 Scenario.polled_line
        (snd (eraseAllKeys Scenario.polled_line))
      /\ _initialized (snd (eraseAllKeys Scenario.polled_line)) = true
      /\ _operationInProgress (snd (eraseAllKeys Scenario.polled_line))
         = false).
Proof.
  apply (single_operations_end_idle Scenario.aes256_key Scenario.polled_line);
    reflexivity.
Defined.

Lemma eraseAllKeys_guard st :
  (_initialized st = false ->
   eraseAllKeys st = (Result_ false "Not initialized", st))
  /\ (_initialized st = true -> _operationInProgress st = true ->
      eraseAllKeys st = (Result_ false "Operation in progress", st)).
Proof.
  split; [intros Hi | intros Hi Hb]; unfold eraseAllKeys;
    unfold bind at 1; unfold get at 1; rewrite Hi; [reflexivity|].
  cbn [negb]. unfold bind at 1. unfold get at 1. rewrite Hb. reflexivity.
Qed.

Lemma keyloadMultiple_guard keys progress st :
  (_initialized st = false ->
   keyloadMultiple keys progress st = (Result_ false "Not initialized", st))
  /\ (_initialized st = true -> _operationInProgress st = true ->
      keyloadMultiple keys progress st
        = (Result_ false "Operation in progress", st))
  /\ (_initialized st = true -> _operationInProgress st = false ->
      keyloadMultiple [] progress st = (Result_ false "No keys to load", st)).
Proof.
  split; [|split]; [intros Hi | intros Hi Hb | intros Hi Hb];
    unfold keyloadMultiple; unfold bind at 1; unfold get at 1; rewrite Hi;
    [reflexivity | |];
    cbn [negb]; unfold bind at 1; unfold get at 1; rewrite Hb; reflexivity.
Qed.

(** The guards of the public operations: on an object that was not
    initialised, or while an operation is in progress, [keyload],
    [keyloadMultiple] and [eraseAllKeys] fail at once with the matching
    message and status 0xFF, leave the object exactly as it was and make no
    call on the line; so does [keyloadMultiple] for an empty list of keys
    on an idle object. *)
Theorem operations_guarded
    (k : P25.KeyItem) (keys : list P25.KeyItem)
    (progress : option (Z -> Z -> string -> M unit)) (st : State) :
  (_initialized st = false ->
   keyload k st = (mkResult false "Not initialized" xff, st)
   /\ keyloadMultiple keys progress st
      = (mkResult false "Not initialized" xff, st)
   /\ eraseAllKeys st = (mkResult false "Not initialized" xff, st))
  /\ (_initialized st = true -> _operationInProgress st = true ->
      keyload k st = (mkResult false "Operation in progress" xff, st)
      /\ keyloadMultiple keys progress st
         = (mkResult false "Operation in progress" xff, st)
      /\ eraseAllKeys st = (mkResult false "Operation in progress" xff, st))
  /\ (_initialized st = true -> _operationInProgress st = false ->
      keyloadMultiple [] progress st
        = (mkResult false "No keys to load" xff, st)).
Proof.
  split; [|split].
  - intros Hi. split; [apply (keyload_not_initialized k st Hi)|].
    split; [apply (proj1 (keyloadMultiple_guard keys progress st) Hi)|].
    apply (proj1 (eraseAllKeys_guard st) Hi).
  - intros Hi Hb. split; [apply (keyload_busy k st Hi Hb)|].
    split; [apply (proj1 (proj2 (keyloadMultiple_guard keys progress st)) Hi Hb)|].
    apply (proj2 (eraseAllKeys_guard st) Hi Hb).
  - intros Hi Hb.
    apply (proj2 (proj2 (keyloadMultiple_guard keys progress st)) Hi Hb).
Qed.

Lemma operations_guarded_witness :
  keyload Scenario.aes256_key
    (snd (set_operationInProgress true (initial Scenario.ack_script)))
  = (mkResult false "Operation in progress" xff,
     snd (set_operationInProgress true (initial Scenario.ack_script)))
  /\ keyloadMultiple [Scenario.aes256_key] None
       (snd (set_operationInProgress true (initial Scenario.ack_script)))
     = (mkResult false "Operation in progress" xff,
        snd (set_operationInProgress true (initial Scenario.ack_script)))
  /\ eraseAllKeys
       (snd (set_operationInProgress true (initial Scenario.ack_script)))
     = (mkResult false "Operation in progress" xff,
        snd (set_operationInProgress true (initial Scenario.ack_script))).
Proof.
  apply (proj1 (proj2 (operations_guarded Scenario.aes256_key
                         [Scenario.aes256_key] None
                         (snd (set_operationInProgress true
                                 (initial Scenario.ack_script))))));
    reflexivity.
Defined.

(** [eraseAllKeys] never examines the response: once the handshake has
    succeeded and [receiveKmm] has returned [true], it reports success with
    status 0x00 whatever was received, a negative acknowledgment or a raw
    0xC3 dump included. *)
Theorem eraseAllKeys_ignores_response
    (st : State) (d : DeviceType) (st2 : State)
    (response : list byte) (st3 : State) :
  _initialized st = true -> _operationInProgress st = false ->
  beginSession (snd (set_operationInProgress true st)) = (Some d, st2) ->
  receiveKmm 10000 (snd (sendKmm buildZeroizeCommand st2))
    = (Some response, st3) ->
  fst (eraseAllKeys st) = mkResult true "All keys erased" x00.
Proof.
  intros Hi Hb Hs Hr.
  destruct (eraseAllKeys_session st d st2 Hi Hb Hs) as [_ Ee].
  rewrite Ee, Hr. reflexivity.
Qed.

(** The peer answers the zeroize frame with a negative acknowledgment. *)
Lemma eraseAllKeys_ignores_response_witness :
  fst (eraseAllKeys (initial Scenario.nak_script))
    = mkResult true "All keys erased" x00.
Proof.
  apply (eraseAllKeys_ignores_response (initial Scenario.nak_script) DEVICE_MR
           (snd (beginSession
                   (snd (set_operationInProgress true
                           (initial Scenario.nak_script)))))
           [x08; x00; x06]
           (snd (receiveKmm 10000
                   (snd (sendKmm buildZeroizeCommand
                           (snd (beginSession
                                   (snd (set_operationInProgress true
                                           (initial Scenario.nak_script))))))))));
    vm_compute; reflexivity.
Defined.

Lemma keyloadMultiple_entry k0 keys progress st :
  _initialized st = true -> _operationInProgress st = false ->
  keyloadMultiple (k0 :: keys) progress st =
  (report progress 0 (Z.of_nat (List.length (k0 :: keys)))
     "Connecting to radio..." ;;
   s <- beginSession ;;
   match s with
   | None =>
       set_operationInProgress false ;;
       ret (Result_ false "Failed to connect to radio")
   | Some _ =>
       keyloadMultiple_loop progress (Z.of_nat (List.length (k0 :: keys)))
         0 0 (k0 :: keys)
   end) (keyload_entry st).
Proof.
  intros Hi Hb. unfold keyloadMultiple.
  unfold bind at 1. unfold get at 1. rewrite Hi. cbn [negb].
  unfold bind at 1. unfold get at 1. rewrite Hb. cbv zeta.
  unfold bind at 1. cbn [set_operationInProgress].
  unfold bind at 1. cbn [set_abortRequested]. reflexivity.
Qed.

(** A request to abort made before an operation starts has no effect:
    [keyload] and [keyloadMultiple] clear the flag on entry, so they behave
    the same whether it was set or not. *)
Theorem abort_before_operation_ignored
    (k : P25.KeyItem) (keys : list P25.KeyItem)
    (progress : option (Z -> Z -> string -> M unit)) (st : State) :
  _initialized st = true -> _operationInProgress st = false ->
  keyload k (snd (abort st)) = keyload k (snd (set_abortRequested false st))
  /\ (keys <> [] ->
      keyloadMultiple keys progress (snd (abort st))
        = keyloadMultiple keys progress (snd (set_abortRequested false st))).
Proof.
  intros Hi Hb.
  assert (He : keyload_entry (snd (abort st))
               = keyload_entry (snd (set_abortRequested false st)))
    by reflexivity.
  split.
  - destruct (beginSession (keyload_entry (snd (abort st))))
      as [[d|] st2] eqn:Hs.
    + rewrite (keyload_session k (snd (abort st)) d st2 Hi Hb Hs).
      rewrite He in Hs.
      rewrite (keyload_session k (snd (set_abortRequested false st)) d st2
                 Hi Hb Hs).
      reflexivity.
    + rewrite (keyload_no_session k (snd (abort st)) st2 Hi Hb Hs).
      rewrite He in Hs.
      rewrite (keyload_no_session k (snd (set_abortRequested false st)) st2
                 Hi Hb Hs).
      reflexivity.
  - intros Hk. destruct keys as [|k0 keys]; [contradiction|].
    rewrite (keyloadMultiple_entry k0 keys progress (snd (abort st)) Hi Hb).
    rewrite (keyloadMultiple_entry k0 keys progress
               (snd (set_abortRequested false st)) Hi Hb).
    rewrite He. reflexivity.
Qed.

Lemma abort_before_operation_ignored_witness :
  keyload Scenario.aes256_key (snd (abort (initial Scenario.ack_script)))
  = keyload Scenario.aes256_key
      (snd (set_abortRequested false (initial Scenario.ack_script))).
Proof.
  apply (proj1 (abort_before_operation_ignored Scenario.aes256_key [] None
                  (initial Scenario.ack_script) eq_refl eq_refl)).
Defined.

Lemma receiveKmm_advance t st :
  exists cs,
    snd (receiveKmm t st) = advance (List.length cs) cs st
    /\ Forall (waits [t; 500; 100]) cs /\ (List.length cs <= 515)%nat.
Proof.
  destruct (within_receiveKmm t st) as [cs [E [F L]]].
  exists cs. rewrite (waits_recv_count _ _ F) in E. auto.
Qed.

(** [keyload] always tears the session down once the handshake has
    succeeded: after the ModifyKey frame it only waits for the response
    (at most 515 waits) and then runs the teardown of [endSession], whether
    a response came or not, acknowledgment or not. *)
Theorem keyload_teardown
    (k : P25.KeyItem) (st : State) (d : DeviceType) (st2 : State) :
  _initialized st = true -> _operationInProgress st = false ->
  beginSession (keyload_entry st) = (Some d, st2) ->
  exists cs,
    Forall (waits [10000; 500; 100]) cs /\ (List.length cs <= 515)%nat
    /\ calls (snd (keyload k st))
       = calls st2
         ++ [sendBytesFast (buildKmmFrame (buildModifyKeyCommand k))]
         ++ cs
         ++ teardown (answer (List.length cs) (keyload_sent k st2))
    /\ hd_error (teardown (answer (List.length cs) (keyload_sent k st2)))
       = Some (sendByte xc1)
    /\ last (teardown (answer (List.length cs) (keyload_sent k st2)))
         disableInterface
       = disableInterface.
Proof.
  intros Hi Hb Hs.
  rewrite (keyload_session k st d st2 Hi Hb Hs). cbn [snd].
  destruct (receiveKmm_advance 10000 (keyload_sent k st2)) as [cs [E [F L]]].
  exists cs. split; [exact F|]. split; [exact L|].
  assert (Hi2 : _initialized st2 = true).
  { pose proof (within_effect any 9 beginSession (keyload_entry st)
                  within_beginSession) as [Ho _].
    rewrite Hs in Ho. apply object_initialized in Ho. cbn in Ho. congruence. }
  rewrite E.
  rewrite endSession_eq by exact Hi2.
  rewrite answer_advance, Nat.add_0_r.
  split.
  - cbn [snd set_operationInProgress calls advance].
    rewrite keyload_sent_calls, <- !app_assoc. reflexivity.
  - unfold teardown.
    destruct (answer (List.length cs) (keyload_sent k st2)) as [b|];
      [destruct (beq b P25.TWI_TRANSFER_DONE)|]; split; reflexivity.
Qed.

Lemma keyload_teardown_witness :
  exists cs,
    Forall (waits [10000; 500; 100]) cs /\ (List.length cs <= 515)%nat
    /\ calls (snd (keyload Scenario.aes256_key (initial Scenario.ready_script)))
       = calls (snd (beginSession
                       (keyload_entry (initial Scenario.ready_script))))
         ++ [sendBytesFast
               (buildKmmFrame (buildModifyKeyCommand Scenario.aes256_key))]
         ++ cs
         ++ teardown
              (answer (List.length cs)
                 (keyload_sent Scenario.aes256_key
                    (snd (beginSession
                            (keyload_entry (initial Scenario.ready_script))))))
    /\ hd_error
         (teardown
            (answer (List.length cs)
               (keyload_sent Scenario.aes256_key
                  (snd (beginSession
                          (keyload_entry (initial Scenario.ready_script)))))))
       = Some (sendByte xc1)
    /\ last
         (teardown
            (answer (List.length cs)
               (keyload_sent Scenario.aes256_key
                  (snd (beginSession
                          (keyload_entry (initial Scenario.ready_script)))))))
         disableInterface
       = disableInterface.
Proof.
  apply (keyload_teardown Scenario.aes256_key (initial Scenario.ready_script)
           DEVICE_MR
           (snd (beginSession (keyload_entry (initial Scenario.ready_script)))));
    reflexivity.
Defined.

Lemma keyload_frames k st d st2 :
  _initialized st = true -> _operationInProgress st = false ->
  beginSession (keyload_entry st) = (Some d, st2) ->
  frames_sent (calls (snd (keyload k st)))
    = frames_sent (calls st) ++ [buildKmmFrame (buildModifyKeyCommand k)].
Proof.
  intros Hi Hb Hbs.
  rewrite (keyload_session k st d st2 Hi Hb Hbs). cbn [fst snd].
  rewrite silent_set_operationInProgress, silent_endSession,
    silent_receiveKmm, keyload_sent_calls, frames_sent_app.
  f_equal.
  pose proof (silent_beginSession (keyload_entry st)) as Hs.
  rewrite Hbs in Hs. exact Hs.
Qed.

(** [eraseKey] is a key load of an item with the erase flag and no key
    material under the default algorithm AES-256, an item [validateKey]
    rejects: once the handshake has succeeded it sends one ModifyKey
    frame whose body announces algorithm 0x84, key length 0, one key, key
    format 0x20, the SLN, and key id 0. *)
Theorem eraseKey_frame
    (keysetId sln : Z) (st : State) (d : DeviceType) (st2 : State) :
  _initialized st = true -> _operationInProgress st = false ->
  beginSession (keyload_entry st) = (Some d, st2) ->
  frames_sent (calls (snd (eraseKey keysetId sln st)))
    = frames_sent (calls st)
      ++ [buildKmmFrame
            [x00; x00; x80; x00; x00;
             z2b (Z.land keysetId 0xFF); x84; x00; x01;
             x20;
             z2b (Z.land (Z.shiftr sln 8) 0xFF); z2b (Z.land sln 0xFF);
             x00; x00]]
  /\ P25.validateKey [] P25.ALGO_AES_256 = false.
Proof.
  intros Hi Hb Hs. split; [|reflexivity].
  unfold eraseKey. rewrite (keyload_frames _ st d st2 Hi Hb Hs). reflexivity.
Qed.

Lemma eraseKey_frame_witness :
  frames_sent (calls (snd (eraseKey 1 202 (initial Scenario.ack_script))))
    = frames_sent (calls (initial Scenario.ack_script))
      ++ [buildKmmFrame
            [x00; x00; x80; x00; x00;
             z2b (Z.land 1 0xFF); x84; x00; x01;
             x20;
             z2b (Z.land (Z.shiftr 202 8) 0xFF); z2b (Z.land 202 0xFF);
             x00; x00]]
  /\ P25.validateKey [] P25.ALGO_AES_256 = false.
Proof.
  apply (eraseKey_frame 1 202 (initial Scenario.ack_script) DEVICE_MR
           (snd (beginSession (keyload_entry (initial Scenario.ack_script)))));
    reflexivity.
Defined.

End SingleOperations.

(** ** Loading several keys *)

Section Multiple.

Import KFDProtocol.

Lemma keyloadMultiple_loop_step total i loaded k rest st :
  _initialized st = true -> _abortRequested st = false ->
  keyloadMultiple_loop None total i loaded (k :: rest) st =
  (r <- receiveKmm 5000 ;;
   match r with
   | None =>
       endSession ;;
       set_operationInProgress false ;;
       ret (Result_ false "No response from radio")
   | Some response =>
       if match response with
          | [] => true
          | r0 :: _ => negb (beq r0 P25.MSG_REKEY_ACK)
          end
       then
         endSession ;;
         set_operationInProgress false ;;
         ret (Result_ false ("Key " ++ fmt_d (i + 1) ++ " failed"))
       else keyloadMultiple_loop None total (i + 1) (loaded + 1) rest
   end)
    (snd (sendKmm (buildModifyKeyCommand k) st)).
Proof.
  intros Hi Ha. cbn [keyloadMultiple_loop].
  unfold bind at 1. unfold get at 1. rewrite Ha.
  unfold bind at 1. cbn [report ret]. cbv zeta.
  unfold bind at 1.
  destruct (sendKmm_initialized (buildModifyKeyCommand k) st Hi) as [Es _].
  destruct (sendKmm (buildModifyKeyCommand k) st) as [sent st1].
  cbn [snd] in Es |- *.
  assert (Et : sent = true) by congruence. rewrite Et. reflexivity.
Qed.

Lemma sendKmm_sent kmm st :
  _initialized st = true ->
  _initialized (snd (sendKmm kmm st)) = true
  /\ _abortRequested (snd (sendKmm kmm st)) = _abortRequested st
  /\ rx (snd (sendKmm kmm st)) = rx st
  /\ object (snd (sendKmm kmm st)) = object st
  /\ frames_sent (calls (snd (sendKmm kmm st)))
     = frames_sent (calls st) ++ [buildKmmFrame kmm].
Proof.
  intros Hi. destruct (sendKmm_initialized kmm st Hi) as (_ & Er & Eo & Ec).
  destruct (object_fields _ _ Eo) as (F1 & _ & F3).
  split; [congruence|]. split; [exact F3|]. split; [exact Er|].
  split; [exact Eo|].
  rewrite Ec, frames_sent_app. cbn [frames_sent].
  rewrite (proj2 (polling_quiet st)). reflexivity.
Qed.

Lemma arriving_length l : List.length (arriving l) = List.length l.
Proof. apply length_map. Qed.

Lemma buildKmmFrame3_length body messageId responseKind :
  List.length (buildKmmFrame3 body messageId responseKind)
    = (19 + List.length body)%nat.
Proof.
  pose proof (frame_length body messageId responseKind) as H. lia.
Qed.

Lemma skipn_frame body messageId responseKind tail :
  skipn (19 + List.length body)
    (arriving (buildKmmFrame3 body messageId responseKind) ++ tail) = tail.
Proof.
  rewrite <- (buildKmmFrame3_length body messageId responseKind).
  rewrite <- arriving_length. rewrite skipn_app, skipn_all, Nat.sub_diag.
  reflexivity.
Qed.

(** The loop, as long as the peer acknowledges: one frame per key, in
    order, each followed by the reading of one acknowledgment. *)
Lemma keyloadMultiple_loop_acked rk total more rest : forall ks acks i loaded st,
  _initialized st = true -> _abortRequested st = false ->
  List.length acks = List.length ks ->
  Forall (fun b => (List.length b <= 496)%nat) acks ->
  rx st = peer_frames P25.MSG_REKEY_ACK rk acks ++ rest ->
  exists st',
    keyloadMultiple_loop None total i loaded (ks ++ more) st
      = keyloadMultiple_loop None total (i + Z.of_nat (List.length ks))
          (loaded + Z.of_nat (List.length ks)) more st'
    /\ rx st' = rest /\ object st' = object st
    /\ frames_sent (calls st') = frames_sent (calls st) ++ key_frames ks.
Proof.
  induction ks as [|k ks IH]; intros acks i loaded st Hi Ha Hl Hf Hrx.
  - destruct acks; [|discriminate Hl]. exists st.
    cbn [app List.length Z.of_nat]. rewrite !Z.add_0_r.
    cbn in Hrx. unfold key_frames. cbn [map]. rewrite app_nil_r. auto.
  - destruct acks as [|b acks]; [discriminate Hl|].
    cbn [app]. rewrite (keyloadMultiple_loop_step _ _ _ _ _ _ Hi Ha).
    destruct (sendKmm_sent (buildModifyKeyCommand k) st Hi)
      as (Hi1 & Ha1 & Er1 & Eo1 & Ef1).
    set (st1 := snd (sendKmm (buildModifyKeyCommand k) st)) in *.
    inversion Hf as [|b' acks' Hb Hf']; subst b' acks'.
    unfold peer_frames in Hrx. cbn [flat_map] in Hrx.
    rewrite <- app_assoc in Hrx.
    assert (Hrx1 : rx st1 = arriving (buildKmmFrame3 b P25.MSG_REKEY_ACK rk)
                            ++ peer_frames P25.MSG_REKEY_ACK rk acks ++ rest)
      by (rewrite Er1; exact Hrx).
    destruct (receiveKmm_built 5000 st1 b P25.MSG_REKEY_ACK rk
                (peer_frames P25.MSG_REKEY_ACK rk acks ++ rest) Hi1 Hb Hrx1)
      as [Hr _].
    unfold bind at 1. rewrite Hr.
    change (match kmmFrame b P25.MSG_REKEY_ACK rk with
            | [] => true
            | r0 :: _ => negb (beq r0 P25.MSG_REKEY_ACK)
            end) with false.
    cbv iota.
    set (st2 := advance (19 + List.length b)
                  (repeat (receiveByte 5000) (19 + List.length b)) st1).
    destruct (IH acks (i + 1) (loaded + 1) st2) as [st' [E [R [O F]]]].
    + exact Hi1.
    + rewrite <- Ha. exact Ha1.
    + cbn in Hl. lia.
    + exact Hf'.
    + unfold st2. cbn [advance rx]. rewrite Hrx1. apply skipn_frame.
    + exists st'. rewrite E. split.
      * f_equal; cbn [List.length]; lia.
      * split; [exact R|]. split; [rewrite O; exact Eo1|].
        rewrite F. unfold st2. cbn [advance calls].
        rewrite frames_sent_app, Ef1.
        assert (Hq : frames_sent (repeat (receiveByte 5000) (19 + List.length b))
                     = []).
        { generalize (19 + List.length b)%nat. intros n.
          induction n as [|n IHn]; [reflexivity | exact IHn]. }
        rewrite Hq, app_nil_r. unfold key_frames. cbn [map].
        rewrite <- app_assoc. reflexivity.
Qed.

Lemma beginSession_ready st b :
  _initialized st = true -> answer 0 st = Some b ->
  b = xd0 \/ b = xd1 ->
  exists d, beginSession st = (Some d, advance 1 (attempt ++ post_ready st) st).
Proof.
  intros Hi Ha Hb. rewrite (beginSession_eq st Hi).
  rewrite beginSession_attempts_step, Ha.
  destruct Hb as [-> | ->]; eexists; reflexivity.
Qed.

Lemma keyloadMultiple_entry_nonempty keys progress st :
  keys <> [] ->
  _initialized st = true -> _operationInProgress st = false ->
  keyloadMultiple keys progress st =
  (report progress 0 (Z.of_nat (List.length keys)) "Connecting to radio..." ;;
   s <- beginSession ;;
   match s with
   | None =>
       set_operationInProgress false ;;
       ret (Result_ false "Failed to connect to radio")
   | Some _ =>
       keyloadMultiple_loop progress (Z.of_nat (List.length keys)) 0 0 keys
   end) (keyload_entry st).
Proof.
  intros Hk Hi Hb. destruct keys as [|k0 keys]; [contradiction|].
  apply (keyloadMultiple_entry k0 keys progress st Hi Hb).
Qed.

Lemma keyloadMultiple_loop_done total i loaded st :
  keyloadMultiple_loop None total i loaded [] st =
  (Result_ true (fmt_d loaded ++ " keys loaded successfully"),
   snd (set_operationInProgress false (snd (endSession st)))).
Proof.
  cbn [keyloadMultiple_loop report]. unfold bind.
  cbn [ret]. destruct (endSession st) as [u st1]. reflexivity.
Qed.

Lemma frames_sent_handshake st :
  frames_sent (calls (advance 1 (attempt ++ post_ready st) (keyload_entry st)))
    = frames_sent (calls st).
Proof.
  cbn [advance calls keyload_entry set_abortRequested set_operationInProgress snd].
  rewrite frames_sent_app. unfold post_ready.
  destruct (0 <? _postReadyDelayUs st); cbn; apply app_nil_r.
Qed.

(** When the peer is ready at once and acknowledges every ModifyKey with a
    rekey-acknowledgment frame, [keyloadMultiple] without callback sends
    exactly one frame per key, in the order of the list, reports the number
    of keys as loaded, and leaves the object idle. *)
Theorem keyloadMultiple_all_acknowledged
    (keys : list P25.KeyItem) (acks : list (list byte)) (rk : byte)
    (rest : list (option byte)) (st : State) :
  _initialized st = true -> _operationInProgress st = false ->
  keys <> [] ->
  List.length acks = List.length keys ->
  Forall (fun b => (List.length b <= 496)%nat) acks ->
  rx st = Some xd0 :: peer_frames P25.MSG_REKEY_ACK rk acks ++ rest ->
  fst (keyloadMultiple keys None st)
    = mkResult true
        (fmt_d (Z.of_nat (List.length keys)) ++ " keys loaded successfully")
        x00
  /\ frames_sent (calls (snd (keyloadMultiple keys None st)))
     = frames_sent (calls st) ++ key_frames keys
  /\ _operationInProgress (snd (keyloadMultiple keys None st)) = false.
Proof.
  intros Hi Hb Hk Hl Hf Hrx.
  destruct (beginSession_ready (keyload_entry st) xd0) as [d Hs];
    [exact Hi | unfold answer; cbn; rewrite Hrx; reflexivity | auto |].
  set (st1 := advance 1 (attempt ++ post_ready (keyload_entry st))
                (keyload_entry st)) in *.
  destruct (keyloadMultiple_loop_acked rk (Z.of_nat (List.length keys)) [] rest
              keys acks 0 0 st1) as [st' [E [R [O F]]]].
  - exact Hi.
  - reflexivity.
  - exact Hl.
  - exact Hf.
  - unfold st1. cbn [advance rx keyload_entry set_abortRequested
                       set_operationInProgress snd].
    rewrite Hrx. reflexivity.
  - rewrite app_nil_r in E.
    assert (Heq : keyloadMultiple keys None st =
                  (Result_ true (fmt_d (Z.of_nat (List.length keys))
                                   ++ " keys loaded successfully"),
                   snd (set_operationInProgress false (snd (endSession st'))))).
    { rewrite (keyloadMultiple_entry_nonempty keys None st Hk Hi Hb).
      unfold bind at 1. cbn [report ret]. unfold bind at 1.
      rewrite Hs, E. apply keyloadMultiple_loop_done. }
    rewrite Heq. cbn [fst snd]. split; [reflexivity|]. split; [|reflexivity].
    rewrite silent_set_operationInProgress, silent_endSession, F.
    f_equal. exact (frames_sent_handshake st).
Qed.

Lemma keyloadMultiple_all_acknowledged_witness :
  fst (keyloadMultiple [Scenario.aes256_key; Scenario.short_key] None
         (initial (Some xd0
                   :: peer_frames P25.MSG_REKEY_ACK x80 [[x00]; []] ++ [])))
    = mkResult true
        (fmt_d (Z.of_nat (List.length [Scenario.aes256_key; Scenario.short_key]))
           ++ " keys loaded successfully")
        x00
  /\ frames_sent
       (calls (snd (keyloadMultiple [Scenario.aes256_key; Scenario.short_key]
                      None
                      (initial (Some xd0
                                :: peer_frames P25.MSG_REKEY_ACK x80 [[x00]; []]
                                   ++ [])))))
     = frames_sent
         (calls (initial (Some xd0
                          :: peer_frames P25.MSG_REKEY_ACK x80 [[x00]; []]
                             ++ [])))
       ++ key_frames [Scenario.aes256_key; Scenario.short_key]
  /\ _operationInProgress
       (snd (keyloadMultiple [Scenario.aes256_key; Scenario.short_key] None
               (initial (Some xd0
                         :: peer_frames P25.MSG_REKEY_ACK x80 [[x00]; []]
                            ++ []))))
     = false.
Proof.
  apply (keyloadMultiple_all_acknowledged
           [Scenario.aes256_key; Scenario.short_key] [[x00]; []] x80 []);
    try reflexivity.
  - discriminate.
  - repeat constructor; simpl; lia.
Defined.

(** [keyloadMultiple] stops at the first key that is not acknowledged: when
    the peer acknowledges the first keys and then answers one with a frame
    of another message id (a negative acknowledgment, say), the operation
    fails naming that key by its position, with status 0xFF (the status
    byte of the response is not taken up); the frames sent are those of the
    keys up to that one, none of the later keys, and the object is left
    idle. *)
Theorem keyloadMultiple_stops_at_failure
    (ks1 : list P25.KeyItem) (k : P25.KeyItem) (ks2 : list P25.KeyItem)
    (acks : list (list byte)) (b : list byte) (messageId rk : byte)
    (rest : list (option byte)) (st : State) :
  _initialized st = true -> _operationInProgress st = false ->
  List.length acks = List.length ks1 ->
  Forall (fun b' => (List.length b' <= 496)%nat) acks ->
  (List.length b <= 496)%nat ->
  messageId <> P25.MSG_REKEY_ACK ->
  rx st = Some xd0
          :: peer_frames P25.MSG_REKEY_ACK rk acks
             ++ arriving (buildKmmFrame3 b messageId rk) ++ rest ->
  fst (keyloadMultiple (ks1 ++ k :: ks2) None st)
    = mkResult false
        ("Key " ++ fmt_d (Z.of_nat (List.length ks1) + 1) ++ " failed") xff
  /\ frames_sent (calls (snd (keyloadMultiple (ks1 ++ k :: ks2) None st)))
     = frames_sent (calls st) ++ key_frames (ks1 ++ [k])
  /\ _operationInProgress (snd (keyloadMultiple (ks1 ++ k :: ks2) None st))
     = false.
Proof.
  intros Hi Hb Hl Hf Hbl Hid Hrx.
  assert (Hk : ks1 ++ k :: ks2 <> []) by (destruct ks1; discriminate).
  destruct (beginSession_ready (keyload_entry st) xd0) as [d Hs];
    [exact Hi | unfold answer; cbn; rewrite Hrx; reflexivity | auto |].
  set (st1 := advance 1 (attempt ++ post_ready (keyload_entry st))
                (keyload_entry st)) in *.
  set (total := Z.of_nat (List.length (ks1 ++ k :: ks2))).
  destruct (keyloadMultiple_loop_acked rk total (k :: ks2)
              (arriving (buildKmmFrame3 b messageId rk) ++ rest)
              ks1 acks 0 0 st1) as [st' [E [R [O F]]]].
  - exact Hi.
  - reflexivity.
  - exact Hl.
  - exact Hf.
  - unfold st1. cbn [advance rx keyload_entry set_abortRequested
                       set_operationInProgress snd].
    rewrite Hrx. reflexivity.
  - assert (Hi' : _initialized st' = true).
    { apply object_initialized in O. rewrite O. exact Hi. }
    assert (Ha' : _abortRequested st' = false).
    { destruct (object_fields _ _ O) as (_ & _ & A). rewrite A. reflexivity. }
    destruct (sendKmm_sent (buildModifyKeyCommand k) st' Hi')
      as (Hi2 & _ & Er2 & _ & Ef2).
    set (st2 := snd (sendKmm (buildModifyKeyCommand k) st')) in *.
    assert (Hrx2 : rx st2 = arriving (buildKmmFrame3 b messageId rk) ++ rest)
      by (rewrite Er2; exact R).
    destruct (receiveKmm_built 5000 st2 b messageId rk rest Hi2 Hbl Hrx2)
      as [Hr _].
    assert (Hne : beq messageId P25.MSG_REKEY_ACK = false).
    { destruct (beq messageId P25.MSG_REKEY_ACK) eqn:Eb;
        [apply beq_eq in Eb; contradiction | reflexivity]. }
    set (st3 := advance (19 + List.length b)
                  (repeat (receiveByte 5000) (19 + List.length b)) st2) in *.
    assert (Heq : keyloadMultiple (ks1 ++ k :: ks2) None st =
                  (Result_ false
                     ("Key " ++ fmt_d (Z.of_nat (List.length ks1) + 1)
                        ++ " failed"),
                   snd (set_operationInProgress false (snd (endSession st3))))).
    { rewrite (keyloadMultiple_entry_nonempty _ None st Hk Hi Hb).
      unfold bind at 1. cbn [report ret]. unfold bind at 1.
      rewrite Hs. fold total. rewrite E.
      rewrite (keyloadMultiple_loop_step _ _ _ _ _ _ Hi' Ha').
      fold st2. unfold bind at 1. rewrite Hr.
      unfold kmmFrame. cbv zeta. cbn [app]. rewrite Hne. cbn [negb].
      unfold bind. destruct (endSession st3) as [u st4].
      rewrite Z.add_0_l. reflexivity. }
    rewrite Heq. cbn [fst snd]. split; [reflexivity|]. split; [|reflexivity].
    rewrite silent_set_operationInProgress, silent_endSession.
    unfold st3. cbn [advance calls].
    rewrite frames_sent_app, Ef2, F.
    assert (Hq : frames_sent (repeat (receiveByte 5000) (19 + List.length b))
                 = []).
    { generalize (19 + List.length b)%nat. intros n.
      induction n as [|n IHn]; [reflexivity | exact IHn]. }
    assert (H1 : frames_sent (calls st1) = frames_sent (calls st))
      by exact (frames_sent_handshake st).
    rewrite Hq, app_nil_r, H1.
    unfold key_frames. rewrite map_app, <- app_assoc. reflexivity.
Qed.

Lemma keyloadMultiple_stops_at_failure_witness :
  fst (keyloadMultiple ([Scenario.aes256_key] ++ Scenario.short_key :: [Scenario.aes256_key]) None
         (initial (Some xd0
                   :: peer_frames P25.MSG_REKEY_ACK x80 [[]]
                      ++ arriving (buildKmmFrame3 [x06] P25.MSG_NEGATIVE_ACK x80)
                      ++ [])))
    = mkResult false
        ("Key " ++ fmt_d (Z.of_nat (List.length [Scenario.aes256_key]) + 1)
           ++ " failed") xff
  /\ frames_sent
       (calls (snd (keyloadMultiple
                      ([Scenario.aes256_key] ++ Scenario.short_key :: [Scenario.aes256_key])
                      None
                      (initial (Some xd0
                                :: peer_frames P25.MSG_REKEY_ACK x80 [[]]
                                   ++ arriving (buildKmmFrame3 [x06]
                                                  P25.MSG_NEGATIVE_ACK x80)
                                   ++ [])))))
     = frames_sent
         (calls (initial (Some xd0
                          :: peer_frames P25.MSG_REKEY_ACK x80 [[]]
                             ++ arriving (buildKmmFrame3 [x06]
                                            P25.MSG_NEGATIVE_ACK x80)
                             ++ [])))
       ++ key_frames ([Scenario.aes256_key] ++ [Scenario.short_key])
  /\ _operationInProgress
       (snd (keyloadMultiple
               ([Scenario.aes256_key] ++ Scenario.short_key :: [Scenario.aes256_key])
               None
               (initial (Some xd0
                         :: peer_frames P25.MSG_REKEY_ACK x80 [[]]
                            ++ arriving (buildKmmFrame3 [x06]
                                           P25.MSG_NEGATIVE_ACK x80)
                            ++ []))))
     = false.
Proof.
  apply (keyloadMultiple_stops_at_failure
           [Scenario.aes256_key] Scenario.short_key [Scenario.aes256_key]
           [[]] [x06] P25.MSG_NEGATIVE_ACK x80 []);
    try reflexivity.
  - repeat constructor.
  - simpl. lia.
  - discriminate.
Defined.

(** A callback that calls [abort()] stops the operation at the next check
    between keys: with a callback that aborts as soon as it is called, the
    handshake still takes place, then no key is sent, the session is torn
    down, and the result is the failure 'Aborted by user'. *)
Theorem keyloadMultiple_abort_from_callback
    (keys : list P25.KeyItem) (st : State) (d : DeviceType) (st2 : State) :
  _initialized st = true -> _operationInProgress st = false ->
  keys <> [] ->
  beginSession (snd (abort (keyload_entry st))) = (Some d, st2) ->
  fst (keyloadMultiple keys (Some (fun _ _ _ => abort)) st)
    = mkResult false "Aborted by user" xff
  /\ frames_sent
       (calls (snd (keyloadMultiple keys (Some (fun _ _ _ => abort)) st)))
     = frames_sent (calls st)
  /\ calls (snd (keyloadMultiple keys (Some (fun _ _ _ => abort)) st))
     = calls st2 ++ teardown (answer 0 st2)
  /\ _operationInProgress
       (snd (keyloadMultiple keys (Some (fun _ _ _ => abort)) st)) = false.
Proof.
  intros Hi Hb Hk Hs.
  destruct (within_effect (fun _ => True) 9 beginSession
              (snd (abort (keyload_entry st))) within_beginSession) as [Ho _].
  rewrite Hs in Ho. cbn [snd] in Ho.
  destruct (object_fields _ _ Ho) as (F1 & _ & F3). cbn in F1, F3.
  assert (Heq : keyloadMultiple keys (Some (fun _ _ _ => abort)) st =
                (Result_ false "Aborted by user",
                 snd (set_operationInProgress false (snd (endSession st2))))).
  { rewrite (keyloadMultiple_entry_nonempty keys _ st Hk Hi Hb).
    unfold bind at 1. cbn [report]. unfold bind at 1.
    unfold abort at 1. cbn [set_abortRequested].
    change (beginSession _)
      with (beginSession (snd (abort (keyload_entry st)))).
    rewrite Hs.
    destruct keys as [|k0 keys]; [contradiction|].
    cbn [keyloadMultiple_loop]. unfold bind at 1. unfold get at 1.
    rewrite F3. unfold bind. destruct (endSession st2) as [u st3].
    reflexivity. }
  rewrite Heq. cbn [fst snd].
  rewrite (endSession_eq st2) by congruence.
  cbn [fst snd ret set_operationInProgress _operationInProgress calls advance].
  split; [reflexivity|]. split; [|split; reflexivity].
  rewrite frames_sent_app.
  pose proof (silent_beginSession (snd (abort (keyload_entry st)))) as Hq.
  rewrite Hs in Hq. cbn [snd] in Hq. rewrite Hq.
  replace (frames_sent (teardown (answer 0 st2))) with (@nil (list byte)).
  - rewrite app_nil_r. reflexivity.
  - unfold teardown. destruct (answer 0 st2) as [b|];
      [destruct (beq b P25.TWI_TRANSFER_DONE)|]; reflexivity.
Qed.

Lemma keyloadMultiple_abort_from_callback_witness :
  fst (keyloadMultiple [Scenario.aes256_key] (Some (fun _ _ _ => abort))
         (initial Scenario.ack_script))
    = mkResult false "Aborted by user" xff
  /\ frames_sent
       (calls (snd (keyloadMultiple [Scenario.aes256_key]
                      (Some (fun _ _ _ => abort))
                      (initial Scenario.ack_script))))
     = frames_sent (calls (initial Scenario.ack_script))
  /\ calls (snd (keyloadMultiple [Scenario.aes256_key]
                   (Some (fun _ _ _ => abort))
                   (initial Scenario.ack_script)))
     = calls (snd (beginSession
                     (snd (abort (keyload_entry (initial Scenario.ack_script))))))
       ++ teardown
            (answer 0
               (snd (beginSession
                       (snd (abort
                               (keyload_entry (initial Scenario.ack_script)))))))
  /\ _operationInProgress
       (snd (keyloadMultiple [Scenario.aes256_key]
               (Some (fun _ _ _ => abort))
               (initial Scenario.ack_script))) = false.
Proof.
  apply (keyloadMultiple_abort_from_callback [Scenario.aes256_key]
           (initial Scenario.ack_script) DEVICE_MR
           (snd (beginSession
                   (snd (abort (keyload_entry (initial Scenario.ack_script)))))));
    try reflexivity.
  discriminate.
Defined.

End Multiple.

(** ** Hex strings, DES parity and key slots *)

Section Slots.

Import Crypto.

Lemma hex_byte_hex_at (b : byte) :
  hex_byte (hex_at (Z.shiftr (b2z b) 4)) (hex_at (Z.land (b2z b) 0x0F)) = b.
Proof. destruct b; vm_compute; reflexivity. Qed.

Lemma bytesToHex_length bytes :
  String.length (bytesToHex bytes) = (2 * List.length bytes)%nat.
Proof.
  induction bytes as [|b rest IH]; [reflexivity|].
  cbn [bytesToHex String.length List.length]. rewrite IH. lia.
Qed.

Lemma hexToBytes_loop_bytesToHex n bytes :
  hexToBytes_loop n (bytesToHex bytes) = firstn n bytes.
Proof.
  revert bytes. induction n as [|n IH]; intros [|b rest]; try reflexivity.
  cbn [hexToBytes_loop bytesToHex firstn].
  rewrite hex_byte_hex_at, IH. reflexivity.
Qed.

Lemma hexToBytes_loop_length n hex :
  (2 * n <= String.length hex)%nat ->
  List.length (hexToBytes_loop n hex) = n.
Proof.
  revert hex. induction n as [|n IH]; intros hex H; [reflexivity|].
  destruct hex as [|h [|l rest]]; cbn [String.length] in H; try lia.
  cbn [hexToBytes_loop List.length]. rewrite IH; [reflexivity | lia].
Qed.

Lemma half_double n : (2 * n / 2 = n)%nat.
Proof. rewrite Nat.mul_comm. apply Nat.div_mul. discriminate. Qed.

Lemma double_half n : (2 * (n / 2) <= n)%nat.
Proof. apply Nat.Div0.mul_div_le. Qed.

(** [hexToBytes] undoes [bytesToHex]: decoding the hex string of a byte
    sequence into a buffer of [maxLen] bytes gives back the sequence, cut
    at [maxLen], and returns the number of bytes written. *)
Theorem hexToBytes_bytesToHex (bytes : list byte) (maxLen : nat) :
  hexToBytes (bytesToHex bytes) maxLen
  = (firstn maxLen bytes, Z.of_nat (Nat.min (List.length bytes) maxLen))
  /\ hexToBytes_count (bytesToHex bytes) = Z.of_nat (List.length bytes).
Proof.
  unfold hexToBytes, hexToBytes_count. cbv zeta.
  rewrite bytesToHex_length, half_double. split; [|reflexivity].
  rewrite hexToBytes_loop_bytesToHex.
  destruct (Nat.ltb_spec maxLen (List.length bytes)) as [Hlt|Hge].
  - rewrite Nat.min_r by lia. reflexivity.
  - rewrite Nat.min_l by lia.
    rewrite !firstn_all2 by lia. reflexivity.
Qed.

Lemma fix_byte_odd (b : byte) :
  (count_bits [0; 1; 2; 3; 4; 5; 6; 7] (b2z (fix_byte b)) mod 2 =? 0) = false.
Proof. destruct b; vm_compute; reflexivity. Qed.

Lemma fix_byte_idem (b : byte) : fix_byte (fix_byte b) = fix_byte b.
Proof. destruct b; vm_compute; reflexivity. Qed.

Lemma fix_byte_key_bits (b : byte) :
  Z.land (b2z (fix_byte b)) 0xFE = Z.land (b2z b) 0xFE.
Proof. destruct b; vm_compute; reflexivity. Qed.

Lemma validateDesKeyParity_loop_fixed l :
  validateDesKeyParity_loop (map fix_byte l) = true.
Proof.
  induction l as [|b l IH]; [reflexivity|].
  cbn [map validateDesKeyParity_loop]. rewrite fix_byte_odd. exact IH.
Qed.

Lemma firstn_fixed key :
  (8 <= List.length key)%nat ->
  firstn 8 (map fix_byte (firstn 8 key) ++ skipn 8 key)
  = map fix_byte (firstn 8 key).
Proof.
  intros H.
  assert (L : List.length (map fix_byte (firstn 8 key)) = 8%nat).
  { rewrite length_map, length_firstn. lia. }
  rewrite firstn_app, L, Nat.sub_diag, firstn_O, app_nil_r.
  apply firstn_all2. lia.
Qed.

Lemma skipn_fixed key :
  (8 <= List.length key)%nat ->
  skipn 8 (map fix_byte (firstn 8 key) ++ skipn 8 key) = skipn 8 key.
Proof.
  intros H.
  assert (L : List.length (map fix_byte (firstn 8 key)) = 8%nat).
  { rewrite length_map, length_firstn. lia. }
  rewrite skipn_app, L, Nat.sub_diag, skipn_O.
  rewrite skipn_all2 by lia. reflexivity.
Qed.

(** On an array of at least eight bytes, [fixDesKeyParity] produces a key
    that [validateDesKeyParity] accepts; it changes nothing but bit 0 of
    the first eight bytes, and applying it again changes nothing. *)
Theorem fixDesKeyParity_valid (key : list byte) :
  (8 <= List.length key)%nat ->
  exists key',
    fixDesKeyParity key = Some key'
    /\ validateDesKeyParity key' = Some true
    /\ fixDesKeyParity key' = Some key'
    /\ map (fun b => Z.land (b2z b) 0xFE) (firstn 8 key')
       = map (fun b => Z.land (b2z b) 0xFE) (firstn 8 key)
    /\ skipn 8 key' = skipn 8 key.
Proof.
  intros H.
  assert (Hk : (List.length key <? 8)%nat = false)
    by (apply Nat.ltb_ge; exact H).
  exists (map fix_byte (firstn 8 key) ++ skipn 8 key).
  assert (Hl : (List.length (map fix_byte (firstn 8 key) ++ skipn 8 key) <? 8)%nat
               = false).
  { apply Nat.ltb_ge. rewrite length_app, length_map, length_firstn. lia. }
  unfold fixDesKeyParity, validateDesKeyParity.
  rewrite Hk, Hl, (firstn_fixed key H), (skipn_fixed key H).
  split; [reflexivity|]. split.
  { rewrite validateDesKeyParity_loop_fixed. reflexivity. }
  split.
  { do 2 f_equal. rewrite map_map. apply map_ext. apply fix_byte_idem. }
  split; [|reflexivity].
  rewrite map_map. apply map_ext. apply fix_byte_key_bits.
Qed.

Lemma fixDesKeyParity_valid_witness :
  exists key',
    fixDesKeyParity [x00; x01; x02; x03; xfe; xff; x80; x7f; x55] = Some key'
    /\ validateDesKeyParity key' = Some true
    /\ fixDesKeyParity key' = Some key'
    /\ map (fun b => Z.land (b2z b) 0xFE) (firstn 8 key')
       = map (fun b => Z.land (b2z b) 0xFE)
           (firstn 8 [x00; x01; x02; x03; xfe; xff; x80; x7f; x55])
    /\ skipn 8 key' = skipn 8 [x00; x01; x02; x03; xfe; xff; x80; x7f; x55].
Proof.
  apply (fixDesKeyParity_valid [x00; x01; x02; x03; xfe; xff; x80; x7f; x55]).
  simpl. lia.
Defined.

(** A key slot that passes [KeySlot::isValid] converts to a key item that
    passes [validateKey] for its algorithm: [toKeyItem] gives a key of half
    as many bytes as the slot has hex characters, an [isKek] flag that
    [validateSln] accepts for the slot's SLN, and no erase flag. *)
Theorem toKeyItem_valid (ks : Container.KeySlot) (keysetId : Z) :
  P25.is_uint16 (Container.sln ks) ->
  Container.isValid ks = true ->
  P25.validateKey (P25.key (Container.toKeyItem ks keysetId))
    (P25.algorithmId (Container.toKeyItem ks keysetId)) = true
  /\ Z.of_nat (List.length (P25.key (Container.toKeyItem ks keysetId)))
     = Container.getKeyLength ks
  /\ P25.validateSln (P25.sln (Container.toKeyItem ks keysetId))
       (P25.isKek (Container.toKeyItem ks keysetId)) = true
  /\ P25.erase (Container.toKeyItem ks keysetId) = false.
Proof.
  intros Hs Hv.
  assert (Hlen : Z.of_nat (List.length (P25.key (Container.toKeyItem ks keysetId)))
                 = Container.getKeyLength ks).
  { unfold Container.toKeyItem, Container.getKeyLength, hexToBytes_count.
    cbv zeta. cbn [P25.key].
    set (n := (String.length (Container.keyHex ks) / 2)%nat).
    destruct (Z.ltb_spec 0 (Z.of_nat n)) as [Hp|Hz].
    - unfold hexToBytes. cbv zeta. fold n. rewrite Nat2Z.id.
      rewrite Nat.ltb_irrefl. cbn [fst].
      rewrite hexToBytes_loop_length; [reflexivity|].
      unfold n. apply double_half.
    - cbn [List.length]. lia. }
  split; [|split; [exact Hlen|split; [|reflexivity]]].
  - unfold P25.validateKey. cbv zeta. rewrite Hlen.
    unfold Container.isValid in Hv. cbv zeta in Hv.
    cbn [Container.toKeyItem P25.algorithmId].
    apply orb_true_iff in Hv. apply orb_true_iff.
    destruct Hv as [Hv|Hv]; [left; exact Hv|right].
    apply Z.eqb_eq in Hv. apply Z.eqb_eq.
    unfold Container.getKeyLength.
    assert (E : String.length (Container.keyHex ks)
                = (2 * Z.to_nat (P25.getKeyLength (Container.algorithmId ks)))%nat)
      by lia.
    rewrite E, half_double. lia.
  - cbn [Container.toKeyItem P25.sln P25.isKek].
    unfold P25.getKeyType, P25.validateSln. unfold P25.is_uint16 in Hs.
    destruct (Z.leb_spec 0xF000 (Container.sln ks)) as [Hk|Hk].
    + apply Z.leb_le. lia.
    + apply andb_true_iff. split; apply Z.leb_le; lia.
Qed.

Lemma toKeyItem_valid_witness :
  P25.validateKey (P25.key (Container.toKeyItem Scenario.des_slot 1))
    (P25.algorithmId (Container.toKeyItem Scenario.des_slot 1)) = true
  /\ Z.of_nat (List.length (P25.key (Container.toKeyItem Scenario.des_slot 1)))
     = Container.getKeyLength Scenario.des_slot
  /\ P25.validateSln (P25.sln (Container.toKeyItem Scenario.des_slot 1))
       (P25.isKek (Container.toKeyItem Scenario.des_slot 1)) = true
  /\ P25.erase (Container.toKeyItem Scenario.des_slot 1) = false.
Proof.
  apply (toKeyItem_valid Scenario.des_slot 1).
  - unfold P25.is_uint16. simpl. lia.
  - reflexivity.
Defined.

End Slots.
